(** * Prompt Architect: context extraction, prompt assembly and template filling

    A shallow embedding of [prompt_architect.py] and of the filling operation
    of [prompt_templates.py], with the properties their specification states.

    Python's [str] is a sequence of Unicode code points: a [str] here is a list
    of code points.  What Python does on ASCII text is written out; what it
    does on text outside ASCII comes from the interpreter's Unicode tables,
    which are taken as a parameter ([Unicode]). *)

From Stdlib Require Import List NArith Arith Bool Ascii String Lia Decimal Sorted.
From Stdlib Require Import Permutation.
Import ListNotations.

Set Implicit Arguments.

(** ** Strings *)

Definition str := list N.

(** A literal of the source. *)
Definition py (s : string) : str := List.map N_of_ascii (list_ascii_of_string s).

Definition pys (l : list string) : list (list N) := List.map py l.

Open Scope string_scope.
Open Scope list_scope.
Open Scope N_scope.

Definition nl : str := [10].

(** [==] on the values used as keys. *)
Class PyEq (K : Type) := py_eqb : K -> K -> bool.

Fixpoint str_eqb (a b : str) : bool :=
  match a, b with
  | [], [] => true
  | x :: a', y :: b' => (x =? y) && str_eqb a' b'
  | _, _ => false
  end.

#[export] Instance PyEq_str : PyEq str := str_eqb.

(** [x in l] for a list, a set or the keys of a dict. *)
Definition mem {K} `{PyEq K} (x : K) (l : list K) : bool := existsb (py_eqb x) l.

(** [s.startswith(p)] *)
Fixpoint startswith (p s : str) : bool :=
  match p, s with
  | [], _ => true
  | _ :: _, [] => false
  | a :: p', b :: s' => (a =? b) && startswith p' s'
  end.

(** [p in s] for strings: [p] occurs in [s] as a substring. *)
Fixpoint is_in (p s : str) : bool :=
  startswith p s || match s with [] => false | _ :: s' => is_in p s' end.

(** [any(keyword in text for keyword in keywords)] *)
Definition any_in (keywords : list str) (text : str) : bool :=
  existsb (fun keyword => is_in keyword text) keywords.

(** [sep.join(l)] *)
Fixpoint join (sep : str) (l : list str) : str :=
  match l with
  | [] => []
  | [x] => x
  | x :: l' => x ++ sep ++ join sep l'
  end.

(** The longest prefix of [s] whose characters satisfy [p], and the rest. *)
Fixpoint span (p : N -> bool) (s : str) : str * str :=
  match s with
  | [] => ([], [])
  | c :: s' => if p c then let (a, b) := span p s' in (c :: a, b) else ([], s)
  end.

(** [s.replace(old, new)]: the occurrences of [old] are replaced from left to
    right and do not overlap; [skip] counts the characters of an occurrence
    already replaced that are still to be passed over. *)
Fixpoint replace_from (old new : str) (skip : nat) (s : str) : str :=
  match s with
  | [] => []
  | c :: s' =>
    match skip with
    | S k => replace_from old new k s'
    | O => if startswith old s
           then new ++ replace_from old new (Nat.pred (List.length old)) s'
           else c :: replace_from old new 0 s'
    end
  end.

Definition replace (old new s : str) : str :=
  match old with
  | [] => new ++ flat_map (fun c => c :: new) s
  | _ :: _ => replace_from old new 0 s
  end.

(** [str(n)] for a non-negative integer. *)
Fixpoint uint_digits (d : Decimal.uint) : str :=
  match d with
  | Nil => []
  | D0 d => 48 :: uint_digits d
  | D1 d => 49 :: uint_digits d
  | D2 d => 50 :: uint_digits d
  | D3 d => 51 :: uint_digits d
  | D4 d => 52 :: uint_digits d
  | D5 d => 53 :: uint_digits d
  | D6 d => 54 :: uint_digits d
  | D7 d => 55 :: uint_digits d
  | D8 d => 56 :: uint_digits d
  | D9 d => 57 :: uint_digits d
  end.

Definition str_of_nat (n : nat) : str := uint_digits (Nat.to_uint n).

(** ** Character classes *)

Definition is_ascii (c : N) : bool := c <? 128.
Definition is_ascii_upper (c : N) : bool := (65 <=? c) && (c <=? 90).
Definition is_az (c : N) : bool := (97 <=? c) && (c <=? 122).
Definition is_ascii_alpha (c : N) : bool := is_ascii_upper c || is_az c.
Definition is_09 (c : N) : bool := (48 <=? c) && (c <=? 57).
Definition ascii_lower (c : N) : N := if is_ascii_upper c then c + 32 else c.
Definition ascii_upper (c : N) : N := if is_az c then c - 32 else c.

(** What the interpreter's Unicode database decides: case mappings of text
    that has a code point outside ASCII, and the classes [\w], [\d], [\s] of
    the code points outside ASCII. *)
Class Unicode := {
  unicode_lower : str -> str;
  unicode_title : str -> str;
  unicode_isword : N -> bool;
  unicode_isdigit : N -> bool;
  unicode_isspace : N -> bool
}.

(** The database that knows no cased, word, digit or space character outside
    ASCII; on ASCII text no function below consults the database. *)
Definition ascii_only : Unicode := {|
  unicode_lower := fun s => s;
  unicode_title := fun s => s;
  unicode_isword := fun _ => false;
  unicode_isdigit := fun _ => false;
  unicode_isspace := fun _ => false
|}.

(** ** Dicts: insertion-ordered association lists *)

Definition dict (K V : Type) := list (K * V).

Fixpoint dict_get {K V} `{PyEq K} (d : dict K V) (k : K) : option V :=
  match d with
  | [] => None
  | (k', v) :: d' => if py_eqb k k' then Some v else dict_get d' k
  end.

(** [d.get(k, default)] *)
Definition get_or {K V} `{PyEq K} (d : dict K V) (k : K) (default : V) : V :=
  match dict_get d k with Some v => v | None => default end.

(** [d[k] = v]: a present key keeps its place, a new key goes last. *)
Fixpoint dict_set {K V} `{PyEq K} (d : dict K V) (k : K) (v : V) : dict K V :=
  match d with
  | [] => [(k, v)]
  | (k', v') :: d' => if py_eqb k k' then (k', v) :: d' else (k', v') :: dict_set d' k v
  end.

Definition keys {K V} (d : dict K V) : list K := List.map fst d.

(** [list(dict.fromkeys(l))]: the elements of [l] without repeats, each at the
    place of its first occurrence. *)
Definition fromkeys {K} `{PyEq K} (l : list K) : list K :=
  fold_left (fun d k => if mem k d then d else d ++ [k]) l [].

(** [max(l, key=f)]: the first element of [l] whose key is the largest;
    [None] stands for the [ValueError] on an empty [l]. *)
Fixpoint max_from {A} (key : A -> nat) (best : A) (l : list A) : A :=
  match l with
  | [] => best
  | x :: l' => max_from key (if (key best <? key x)%nat then x else best) l'
  end.

Definition py_max {A} (key : A -> nat) (l : list A) : option A :=
  match l with
  | [] => None
  | x :: l' => Some (max_from key x l')
  end.

(** ** Data model *)

Inductive PromptCategory :=
| CONTENT_CREATION | AGENT_DEVELOPMENT | EDUCATIONAL | BUSINESS
| TECHNICAL | CREATIVE | ANALYSIS | CONVERSATION.

Inductive TargetLLM :=
| CLAUDE_35_SONNET | CLAUDE_35_HAIKU | GPT_4_TURBO | GPT_4O | GEMINI_PRO.

Definition PromptCategory_eqb (a b : PromptCategory) : bool :=
  match a, b with
  | CONTENT_CREATION, CONTENT_CREATION | AGENT_DEVELOPMENT, AGENT_DEVELOPMENT
  | EDUCATIONAL, EDUCATIONAL | BUSINESS, BUSINESS | TECHNICAL, TECHNICAL
  | CREATIVE, CREATIVE | ANALYSIS, ANALYSIS | CONVERSATION, CONVERSATION => true
  | _, _ => false
  end.

#[export] Instance PyEq_PromptCategory : PyEq PromptCategory := PromptCategory_eqb.

Definition TargetLLM_eqb (a b : TargetLLM) : bool :=
  match a, b with
  | CLAUDE_35_SONNET, CLAUDE_35_SONNET | CLAUDE_35_HAIKU, CLAUDE_35_HAIKU
  | GPT_4_TURBO, GPT_4_TURBO | GPT_4O, GPT_4O | GEMINI_PRO, GEMINI_PRO => true
  | _, _ => false
  end.

#[export] Instance PyEq_TargetLLM : PyEq TargetLLM := TargetLLM_eqb.

(** Extracted context from user input. *)
Record PromptContext := {
  raw_input : str;
  intent : str;
  category : PromptCategory;
  target_audience : str;
  tone : str;
  output_format : str;
  constraints : list str;
  keywords : list str;
  complexity_level : str
}.

(** Final structured prompt output; the fields keep the source's names inside
    the module. *)
Module StructuredPrompt.
Record t := make {
  role_definition : str;
  context : str;
  instructions : list str;
  constraints : list str;
  output_format : str;
  examples : option (list str);
  quality_criteria : list str;
  full_prompt : str
}.
End StructuredPrompt.

Record PromptArchitect := {
  target_llm : TargetLLM;
  intent_keywords : dict str (list str);
  tone_indicators : dict str (list str)
}.

(** ** The architect *)

(** Load keywords for intent detection. *)
Definition _load_intent_keywords : dict str (list str) := [
  (py "create", pys ["create"; "generate"; "write"; "make"; "produce"; "build"; "design"]);
  (py "analyze", pys ["analyze"; "examine"; "evaluate"; "assess"; "review"; "study"]);
  (py "explain", pys ["explain"; "describe"; "clarify"; "teach"; "show"; "demonstrate"]);
  (py "improve", pys ["improve"; "optimize"; "enhance"; "refine"; "better"; "upgrade"]);
  (py "convert", pys ["convert"; "transform"; "translate"; "change"; "adapt"; "rewrite"]);
  (py "summarize", pys ["summarize"; "condense"; "brief"; "overview"; "abstract"]);
  (py "compare", pys ["compare"; "contrast"; "difference"; "versus"; "vs"]);
  (py "plan", pys ["plan"; "strategy"; "roadmap"; "outline"; "structure"])
].

(** Load indicators for tone detection. *)
Definition _load_tone_indicators : dict str (list str) := [
  (py "professional", pys ["business"; "corporate"; "formal"; "professional"; "official"]);
  (py "casual", pys ["casual"; "friendly"; "informal"; "conversational"; "relaxed"]);
  (py "academic", pys ["academic"; "scholarly"; "research"; "scientific"; "technical"]);
  (py "creative", pys ["creative"; "artistic"; "imaginative"; "innovative"; "original"]);
  (py "persuasive", pys ["persuasive"; "convincing"; "compelling"; "influential"]);
  (py "educational", pys ["educational"; "teaching"; "learning"; "tutorial"; "instructional"])
].

(** [PromptArchitect.__init__] *)
Definition new_PromptArchitect (target : TargetLLM) : PromptArchitect := {|
  target_llm := target;
  intent_keywords := _load_intent_keywords;
  tone_indicators := _load_tone_indicators
|}.

(** The dict of [_detect_category]; its order is the priority order. *)
Definition category_keywords : dict PromptCategory (list str) := [
  (ANALYSIS, pys ["analyze"; "analysis"; "data"; "research"; "study"; "report"; "insights"; "examine"; "evaluate"]);
  (AGENT_DEVELOPMENT, pys ["agent"; "bot"; "assistant"; "chatbot"; "ai system"]);
  (TECHNICAL, pys ["code"; "programming"; "technical"; "software"; "debug"; "script"; "function"]);
  (EDUCATIONAL, pys ["teach"; "learn"; "tutorial"; "course"; "lesson"; "education"; "explain"; "instruct"]);
  (CREATIVE, pys ["story"; "creative"; "fiction"; "poem"; "narrative"; "novel"]);
  (BUSINESS, pys ["business"; "marketing"; "sales"; "strategy"; "proposal"; "plan"]);
  (CONTENT_CREATION, pys ["blog"; "article"; "content"; "post"; "copy"; "write"]);
  (CONVERSATION, pys ["chat"; "conversation"; "dialogue"; "discuss"])
].

(** The dict of [_detect_audience]. *)
Definition audiences : dict str (list str) := [
  (py "beginners", pys ["beginner"; "novice"; "new"; "starter"; "basic"]);
  (py "intermediate", pys ["intermediate"; "moderate"; "regular"]);
  (py "experts", pys ["expert"; "advanced"; "professional"; "specialist"]);
  (py "students", pys ["student"; "learner"; "pupil"]);
  (py "professionals", pys ["professional"; "business"; "corporate"]);
  (py "general_public", pys ["everyone"; "general"; "public"; "anyone"])
].

(** The dict of [_detect_output_format]. *)
Definition formats : dict str (list str) := [
  (py "markdown", pys ["markdown"; "md"; "formatted"]);
  (py "json", pys ["json"; "structured data"]);
  (py "list", pys ["list"; "bullet points"; "numbered"]);
  (py "paragraph", pys ["paragraph"; "essay"; "prose"]);
  (py "code", pys ["code"; "script"; "program"]);
  (py "table", pys ["table"; "spreadsheet"; "grid"]);
  (py "step-by-step", pys ["step"; "steps"; "guide"; "tutorial"])
].

(** The set of [_extract_keywords]. *)
Definition stop_words : list str := pys [
  "the"; "a"; "an"; "and"; "or"; "but"; "in"; "on"; "at"; "to"; "for";
  "of"; "with"; "by"; "from"; "as"; "is"; "was"; "are"; "were"; "be";
  "been"; "being"; "have"; "has"; "had"; "do"; "does"; "did"; "will";
  "would"; "should"; "could"; "may"; "might"; "must"; "can"; "i"; "you";
  "he"; "she"; "it"; "we"; "they"; "this"; "that"; "these"; "those"
].

(** The first label of [table] one of whose keywords occurs in [text]:
    [for label, keywords in table.items(): if any(...): return label]. *)
Definition first_label {K} (table : dict K (list str)) (text : str) : option K :=
  match find (fun item => any_in (snd item) text) table with
  | Some item => Some (fst item)
  | None => None
  end.

Section Extractor.
Context {U : Unicode}.

(** [s.lower()] *)
Definition lower (s : str) : str :=
  if forallb is_ascii s then List.map ascii_lower s else unicode_lower s.

(** [\w], [\d] and [\s] of [re] on a [str] pattern. *)
Definition is_word (c : N) : bool :=
  if is_ascii c then is_ascii_alpha c || is_09 c || (c =? 95) else unicode_isword c.

Definition is_digit (c : N) : bool :=
  if is_ascii c then is_09 c else unicode_isdigit c.

Definition is_space (c : N) : bool :=
  if is_ascii c then ((9 <=? c) && (c <=? 13)) || ((28 <=? c) && (c <=? 32))
  else unicode_isspace c.

(** [\b] between two neighbours; [None] is an end of the text. *)
Definition word_boundary (before after : option N) : bool :=
  let w o := match o with Some c => is_word c | None => false end in
  xorb (w before) (w after).

(** A match of [(\d+)\s*words?] that starts at the head of [s]: its group 1.
    The digits and the spaces are taken greedily; giving some of them back
    cannot help, since the next character would be a digit or a space where
    [w] is required. *)
Definition word_count_at (s : str) : option str :=
  let (digits, r1) := span is_digit s in
  match digits with
  | [] => None
  | _ :: _ =>
    let (_, r2) := span is_space r1 in
    if startswith (py "word") r2 then Some digits else None
  end.

(** [re.search(r'(\d+)\s*words?', s)]: group 1 of the leftmost match. *)
Fixpoint search_word_count (s : str) : option str :=
  match word_count_at s with
  | Some g => Some g
  | None => match s with [] => None | _ :: s' => search_word_count s' end
  end.

(** A match of [\b[a-z]+\b] that starts at the head of [s], where [before] is
    the character in front of it.  The letters are taken greedily; a shorter
    run ends between two letters, where [\b] fails. *)
Definition token_at (before : option N) (s : str) : option str :=
  let (run, rest) := span is_az s in
  match run with
  | [] => None
  | _ :: _ =>
    if word_boundary before (hd_error s) && word_boundary (Some (last run 0)) (hd_error rest)
    then Some run else None
  end.

(** [re.findall(r'\b[a-z]+\b', s)]: the matches from left to right, the scan
    resuming behind each match. *)
Fixpoint findall_tokens_from (before : option N) (skip : nat) (s : str) : list str :=
  match s with
  | [] => []
  | c :: s' =>
    match skip with
    | S k => findall_tokens_from (Some c) k s'
    | O =>
      match token_at before s with
      | Some tok => tok :: findall_tokens_from (Some c) (Nat.pred (List.length tok)) s'
      | None => findall_tokens_from (Some c) 0 s'
      end
    end
  end.

Definition findall_tokens (s : str) : list str := findall_tokens_from None 0 s.

(** Detect primary intent from text. *)
Definition intent_score (text_lower : str) (keywords : list str) : nat :=
  List.length (filter (fun keyword => is_in keyword text_lower) keywords).

Definition _detect_intent (self : PromptArchitect) (text : str) : str :=
  let text_lower := lower text in
  let intent_scores :=
    fold_left (fun scores item =>
                 let score := intent_score text_lower (snd item) in
                 if (0 <? score)%nat then dict_set scores (fst item) score else scores)
              (intent_keywords self) [] in
  match py_max (fun k => get_or intent_scores k 0%nat) (keys intent_scores) with
  | Some best => best
  | None => py "general_assistance"
  end.

(** Detect prompt category. *)
Definition _detect_category (text : str) : PromptCategory :=
  let text_lower := lower text in
  match first_label category_keywords text_lower with
  | Some category => category
  | None => CONTENT_CREATION
  end.

(** Detect target audience. *)
Definition _detect_audience (text : str) : str :=
  let text_lower := lower text in
  match first_label audiences text_lower with
  | Some audience => audience
  | None => py "general_public"
  end.

(** Detect desired tone. *)
Definition _detect_tone (self : PromptArchitect) (text : str) : str :=
  let text_lower := lower text in
  match first_label (tone_indicators self) text_lower with
  | Some tone => tone
  | None => py "professional"
  end.

(** Detect desired output format. *)
Definition _detect_output_format (text : str) : str :=
  let text_lower := lower text in
  match first_label formats text_lower with
  | Some format_type => format_type
  | None => py "paragraph"
  end.

(** Extract constraints from text. *)
Definition _extract_constraints (text : str) : list str :=
  let text_lower := lower text in
  let has w := is_in (py w) text_lower in
  (if has "short" || has "brief" then [py "Keep response concise and brief"]
   else if has "detailed" || has "comprehensive"
        then [py "Provide detailed and comprehensive response"] else [])
  ++ (match search_word_count text_lower with
      | Some group1 => [py "Limit response to approximately " ++ group1 ++ py " words"]
      | None => []
      end)
  ++ (if has "quick" || has "fast" then [py "Prioritize speed and efficiency"] else [])
  ++ (if has "accurate" || has "precise" then [py "Ensure high accuracy and precision"] else [])
  ++ (if has "simple" || has "easy" then [py "Use simple, easy-to-understand language"] else []).

(** Extract important keywords. *)
Definition _extract_keywords (text : str) : list str :=
  let words := findall_tokens (lower text) in
  let keywords :=
    filter (fun word => negb (mem word stop_words) && (3 <? List.length word)%nat) words in
  firstn 10 (fromkeys keywords).

(** Determine complexity level. *)
Definition _determine_complexity (text : str) : str :=
  let text_lower := lower text in
  if any_in (pys ["simple"; "basic"; "easy"; "beginner"]) text_lower then py "basic"
  else if any_in (pys ["advanced"; "complex"; "expert"; "sophisticated"]) text_lower
       then py "advanced"
       else py "intermediate".

(** Extract comprehensive context from raw user input. *)
Definition extract_context (self : PromptArchitect) (raw : str) : PromptContext := {|
  raw_input := raw;
  intent := _detect_intent self raw;
  category := _detect_category raw;
  target_audience := _detect_audience raw;
  tone := _detect_tone self raw;
  output_format := _detect_output_format raw;
  constraints := _extract_constraints raw;
  keywords := _extract_keywords raw;
  complexity_level := _determine_complexity raw
|}.

End Extractor.

(** ** The assembler *)

(** The tables of [generate_role_definition]. *)
Definition role_templates : dict PromptCategory str := [
  (CONTENT_CREATION, py "You are an expert content creator and writer");
  (AGENT_DEVELOPMENT, py "You are an advanced AI agent developer and system architect");
  (EDUCATIONAL, py "You are an experienced educator and instructional designer");
  (BUSINESS, py "You are a seasoned business consultant and strategist");
  (TECHNICAL, py "You are a senior technical expert and software engineer");
  (CREATIVE, py "You are a creative professional and storyteller");
  (ANALYSIS, py "You are a data analyst and research specialist");
  (CONVERSATION, py "You are a helpful and engaging conversational assistant")
].

Definition tone_modifiers : dict str str := [
  (py "professional", py "with a professional and polished communication style");
  (py "casual", py "with a friendly and approachable demeanor");
  (py "academic", py "with strong academic and research credentials");
  (py "creative", py "with exceptional creative and innovative thinking abilities");
  (py "persuasive", py "with excellent persuasion and influence skills");
  (py "educational", py "with proven teaching and mentoring capabilities")
].

(** Generate AI role definition. *)
Definition generate_role_definition (context : PromptContext) : str :=
  let base_role := get_or role_templates context.(category) (py "You are a knowledgeable AI assistant") in
  let base_role :=
    match context.(keywords) with
    | [] => base_role
    | _ :: _ => base_role ++ py " specializing in " ++ join (py ", ") (firstn 3 context.(keywords))
    end in
  let base_role :=
    match dict_get tone_modifiers context.(tone) with
    | Some modifier => base_role ++ py ", " ++ modifier
    | None => base_role
    end in
  base_role ++ py ".".

(** The tables of [generate_instructions]; the entry of [create] interpolates
    the output format. *)
Definition intent_instructions (context : PromptContext) : dict str str := [
  (py "create", py "Create " ++ context.(output_format) ++ py " content that addresses the user's request");
  (py "analyze", py "Conduct a thorough analysis of the subject matter");
  (py "explain", py "Provide a clear and comprehensive explanation");
  (py "improve", py "Identify areas for improvement and provide actionable recommendations");
  (py "convert", py "Transform the content while maintaining core meaning and value");
  (py "summarize", py "Distill the key points into a concise summary");
  (py "compare", py "Conduct a detailed comparison highlighting similarities and differences");
  (py "plan", py "Develop a structured plan with clear steps and milestones")
].

Definition audience_instructions : dict str str := [
  (py "beginners", py "Explain concepts in simple terms suitable for beginners with no prior knowledge");
  (py "intermediate", py "Provide balanced explanations assuming moderate familiarity with the topic");
  (py "experts", py "Use technical terminology and advanced concepts appropriate for experts");
  (py "students", py "Structure content to facilitate learning and retention");
  (py "professionals", py "Focus on practical applications and professional relevance");
  (py "general_public", py "Make content accessible and engaging for a broad audience")
].

Definition format_instructions : dict str str := [
  (py "markdown", py "Format output using proper markdown syntax with headers, lists, and emphasis");
  (py "json", py "Structure output as valid JSON with clear key-value pairs");
  (py "list", py "Present information as organized bullet points or numbered lists");
  (py "paragraph", py "Write in well-structured paragraphs with smooth transitions");
  (py "code", py "Provide clean, well-commented code with best practices");
  (py "table", py "Organize information in a clear tabular format");
  (py "step-by-step", py "Present information as sequential, actionable steps")
].

(** Generate layered instructions. *)
Definition generate_instructions (context : PromptContext) : list str :=
  let instructions := [] in
  let instructions := instructions ++
    [get_or (intent_instructions context) context.(intent)
            (py "Address the user's request comprehensively")] in
  let instructions := instructions ++
    [get_or audience_instructions context.(target_audience) (py "Tailor content to the audience")] in
  let instructions := instructions ++
    [if py_eqb context.(complexity_level) (py "basic")
     then py "Break down complex ideas into simple, digestible components"
     else if py_eqb context.(complexity_level) (py "advanced")
          then py "Explore nuanced aspects and advanced implications"
          else py "Balance depth with accessibility"] in
  let instructions := instructions ++
    [get_or format_instructions context.(output_format) (py "Format output appropriately")] in
  match context.(keywords) with
  | [] => instructions
  | _ :: _ => instructions ++
      [py "Ensure coverage of key topics: " ++ join (py ", ") (firstn 5 context.(keywords))]
  end.

Definition tone_constraints : dict str str := [
  (py "professional", py "Maintain professional tone throughout; avoid casual language");
  (py "casual", py "Keep tone conversational and approachable; avoid overly formal language");
  (py "academic", py "Use proper citations and academic rigor; maintain scholarly tone");
  (py "creative", py "Embrace creative expression while maintaining clarity");
  (py "persuasive", py "Build compelling arguments with supporting evidence");
  (py "educational", py "Prioritize clarity and learning outcomes")
].

(** Generate comprehensive constraints. *)
Definition generate_constraints (self : PromptArchitect) (context : PromptContext) : list str :=
  let constraints0 := context.(constraints) in
  let constraints1 := constraints0 ++
    (if py_eqb self.(target_llm) CLAUDE_35_SONNET then pys [
       "Prioritize long-form reasoning and detailed explanations";
       "Follow instructions precisely and maintain structural consistency";
       "Minimize hallucinations by grounding responses in provided context" ]
     else if mem self.(target_llm) [GPT_4_TURBO; GPT_4O] then pys [
       "Balance creativity with accuracy";
       "Maintain coherent narrative flow" ]
     else []) in
  let constraints2 := constraints1 ++ pys [
       "Maintain factual accuracy and avoid speculation without clear indication";
       "Use clear, unambiguous language";
       "Ensure logical flow and coherent structure" ] in
  match dict_get tone_constraints context.(tone) with
  | Some c => constraints2 ++ [c]
  | None => constraints2
  end.

Definition category_criteria : dict PromptCategory str := [
  (CONTENT_CREATION, py "Engagement: Content is compelling and holds reader interest");
  (AGENT_DEVELOPMENT, py "Functionality: System design is practical and implementable");
  (EDUCATIONAL, py "Pedagogical value: Content facilitates effective learning");
  (BUSINESS, py "Actionability: Recommendations are practical and implementable");
  (TECHNICAL, py "Technical accuracy: Code/solutions follow best practices");
  (CREATIVE, py "Originality: Content demonstrates creative thinking");
  (ANALYSIS, py "Depth: Analysis is thorough and insightful");
  (CONVERSATION, py "Naturalness: Responses feel natural and contextually appropriate")
].

(** Generate quality evaluation criteria. *)
Definition generate_quality_criteria (context : PromptContext) : list str :=
  let criteria := pys [
    "Relevance: Response directly addresses the user's request";
    "Accuracy: Information is factually correct and reliable";
    "Clarity: Content is easy to understand and well-organized";
    "Completeness: All aspects of the request are covered" ] in
  let criteria :=
    match dict_get category_criteria context.(category) with
    | Some c => criteria ++ [c]
    | None => criteria
    end in
  if py_eqb context.(tone) (py "professional")
  then criteria ++ [py "Professionalism: Tone and language are appropriate for professional context"]
  else if py_eqb context.(tone) (py "educational")
       then criteria ++ [py "Educational value: Content effectively teaches the subject matter"]
       else criteria.

(** Generate example outputs if applicable: for now, [None]. *)
Definition generate_examples (context : PromptContext) : option (list str) := None.

(** [for i, x in enumerate(l, start): out += f"{i}. {x}\n"] *)
Fixpoint numbered_lines (start : nat) (l : list str) : str :=
  match l with
  | [] => []
  | x :: l' => str_of_nat start ++ py ". " ++ x ++ nl ++ numbered_lines (S start) l'
  end.

(** [for x in l: out += f"- {x}\n"] *)
Definition bulleted_lines (l : list str) : str :=
  flat_map (fun x => py "- " ++ x ++ nl) l.

Section Assembler.
Context {U : Unicode}.

(** [s.title()] on ASCII text: a letter is upper-cased when the character in
    front of it is no letter, and lower-cased otherwise. *)
Fixpoint ascii_title_from (previous_is_cased : bool) (s : str) : str :=
  match s with
  | [] => []
  | c :: s' =>
    (if is_ascii_alpha c
     then if previous_is_cased then ascii_lower c else ascii_upper c
     else c) :: ascii_title_from (is_ascii_alpha c) s'
  end.

Definition title (s : str) : str :=
  if forallb is_ascii s then ascii_title_from false s else unicode_title s.

(** Assemble all components into final structured prompt. *)
Definition assemble_prompt (self : PromptArchitect) (context : PromptContext)
  : StructuredPrompt.t :=
  let role_definition := generate_role_definition context in
  let instructions := generate_instructions context in
  let constraints := generate_constraints self context in
  let quality_criteria := generate_quality_criteria context in
  let examples := generate_examples context in
  let full_prompt :=
    py "# Role Definition" ++ nl ++ role_definition ++ nl ++ nl ++
    py "# Context" ++ nl ++ context.(raw_input) ++ nl ++ nl ++
    py "# Instructions" ++ nl in
  let full_prompt := full_prompt ++ numbered_lines 1 instructions in
  let full_prompt := full_prompt ++ nl ++ py "# Constraints" ++ nl in
  let full_prompt := full_prompt ++ bulleted_lines constraints in
  let full_prompt := full_prompt ++ nl ++ py "# Output Format" ++ nl ++
    title (replace (py "_") (py " ") context.(output_format)) ++ nl in
  let full_prompt :=
    match examples with
    | Some (_ :: _ as l) =>
      full_prompt ++ nl ++ py "# Examples" ++ nl ++ flat_map (fun example => example ++ nl ++ nl) l
    | _ => full_prompt
    end in
  let full_prompt := full_prompt ++ nl ++ py "# Quality Criteria" ++ nl in
  let full_prompt := full_prompt ++ bulleted_lines quality_criteria in
  let full_prompt := full_prompt ++ nl ++ py "# Target Audience" ++ nl ++
    title (replace (py "_") (py " ") context.(target_audience)) ++ nl in
  let full_prompt := full_prompt ++ nl ++ py "# Tone" ++ nl ++ title context.(tone) ++ nl in
  StructuredPrompt.make role_definition context.(raw_input) instructions constraints
    context.(output_format) examples quality_criteria full_prompt.

(** Main method: transform raw input into structured prompt. *)
Definition transform (self : PromptArchitect) (raw : str) : StructuredPrompt.t :=
  let context := extract_context self raw in
  assemble_prompt self context.

End Assembler.

(** Factory function to create a [PromptArchitect] instance. *)
Definition llm_map : dict str TargetLLM := [
  (py "claude-3.5-sonnet", CLAUDE_35_SONNET);
  (py "claude-3.5-haiku", CLAUDE_35_HAIKU);
  (py "gpt-4-turbo", GPT_4_TURBO);
  (py "gpt-4o", GPT_4O);
  (py "gemini-pro", GEMINI_PRO)
].

Definition create_architect (target : str) : PromptArchitect :=
  new_PromptArchitect (get_or llm_map target CLAUDE_35_SONNET).

(** ** The template library *)

(** Template structure for common prompt patterns. *)
Module PromptTemplate.
Record t := make {
  name : str;
  category : str;
  description : str;
  template : str;
  variables : list str;
  example_values : dict str str
}.
End PromptTemplate.

Definition template_blog_post : PromptTemplate.t := {|
  PromptTemplate.name := py "Blog Post Writer";
  PromptTemplate.category := py "Content Creation";
  PromptTemplate.description := py "Generate engaging blog posts on any topic";
  PromptTemplate.template := py "# Role Definition
You are an expert content writer and blogger with years of experience creating engaging, SEO-optimized content.

# Task
Write a comprehensive blog post about {topic} for {audience}.

# Instructions
1. Create an attention-grabbing headline
2. Write an engaging introduction that hooks the reader
3. Develop {num_sections} main sections with clear subheadings
4. Include relevant examples and data to support your points
5. End with a compelling conclusion and call-to-action
6. Maintain a {tone} tone throughout

# Constraints
- Target length: {word_count} words
- Use simple, accessible language
- Include actionable takeaways
- Optimize for readability (short paragraphs, bullet points where appropriate)

# Output Format
Markdown with proper headers, emphasis, and formatting

# Quality Criteria
- Engagement: Content captures and maintains reader interest
- Value: Provides actionable insights and useful information
- Clarity: Easy to read and understand
- SEO: Naturally incorporates relevant keywords
";
  PromptTemplate.variables := pys ["topic"; "audience"; "num_sections"; "tone"; "word_count"];
  PromptTemplate.example_values := [
    (py "topic", py "artificial intelligence in healthcare");
    (py "audience", py "healthcare professionals");
    (py "num_sections", py "5");
    (py "tone", py "professional yet accessible");
    (py "word_count", py "1500")
  ]
|}.

Definition template_chatbot_agent : PromptTemplate.t := {|
  PromptTemplate.name := py "Chatbot Agent Developer";
  PromptTemplate.category := py "Agent Development";
  PromptTemplate.description := py "Design conversational AI agents with specific personalities and capabilities";
  PromptTemplate.template := py "# Role Definition
You are an advanced AI agent developer specializing in conversational AI systems with expertise in natural language processing and user experience design.

# Task
Design a chatbot agent for {use_case} that serves {target_users}.

# Agent Specifications
- **Purpose**: {purpose}
- **Personality**: {personality}
- **Key Capabilities**: {capabilities}
- **Tone**: {tone}

# Instructions
1. Define the agent's core personality and communication style
2. Outline conversation flow and dialogue patterns
3. Specify how the agent should handle common user intents
4. Define error handling and fallback responses
5. Include example conversations demonstrating the agent's capabilities
6. Specify integration points and technical requirements

# Constraints
- Maintain consistent personality throughout all interactions
- Ensure responses are helpful, accurate, and appropriate
- Handle edge cases and unexpected inputs gracefully
- Prioritize user experience and satisfaction

# Output Format
Structured document with:
- Agent profile
- Conversation flows
- Sample dialogues
- Technical specifications

# Quality Criteria
- Consistency: Agent maintains personality across all interactions
- Helpfulness: Effectively assists users in achieving their goals
- Natural language: Conversations feel natural and engaging
- Robustness: Handles various inputs and edge cases appropriately
";
  PromptTemplate.variables := pys ["use_case"; "target_users"; "purpose"; "personality"; "capabilities"; "tone"];
  PromptTemplate.example_values := [
    (py "use_case", py "customer support");
    (py "target_users", py "e-commerce customers");
    (py "purpose", py "resolve customer issues and answer product questions");
    (py "personality", py "friendly, patient, and solution-oriented");
    (py "capabilities", py "order tracking, returns processing, product recommendations");
    (py "tone", py "professional yet warm and approachable")
  ]
|}.

Definition template_tutorial_creator : PromptTemplate.t := {|
  PromptTemplate.name := py "Tutorial Creator";
  PromptTemplate.category := py "Educational";
  PromptTemplate.description := py "Create comprehensive tutorials and learning materials";
  PromptTemplate.template := py "# Role Definition
You are an experienced educator and instructional designer with expertise in creating effective learning materials for {subject_area}.

# Task
Create a comprehensive tutorial on {topic} for {learner_level} learners.

# Learning Objectives
By the end of this tutorial, learners will be able to:
{learning_objectives}

# Instructions
1. Start with prerequisites and what learners need to know beforehand
2. Break down the topic into logical, sequential lessons
3. For each lesson:
   - Explain the concept clearly with examples
   - Provide hands-on exercises or practice problems
   - Include visual aids or diagrams where helpful
4. Build complexity gradually from basic to advanced
5. Include checkpoints to assess understanding
6. Provide additional resources for further learning

# Constraints
- Use clear, jargon-free language (explain technical terms when necessary)
- Include practical, real-world examples
- Make content engaging and interactive
- Ensure accessibility for diverse learning styles

# Output Format
Structured tutorial with:
- Introduction and prerequisites
- Numbered lessons with clear sections
- Examples and exercises
- Summary and next steps

# Quality Criteria
- Clarity: Concepts are explained in an easy-to-understand manner
- Progression: Content builds logically from simple to complex
- Engagement: Material keeps learners interested and motivated
- Effectiveness: Learners can apply what they've learned
";
  PromptTemplate.variables := pys ["subject_area"; "topic"; "learner_level"; "learning_objectives"];
  PromptTemplate.example_values := [
    (py "subject_area", py "programming");
    (py "topic", py "Python functions and modules");
    (py "learner_level", py "beginner");
    (py "learning_objectives", py "1. Define and call functions
2. Use parameters and return values
3. Import and use modules
4. Create their own modules")
  ]
|}.

Definition template_business_strategy : PromptTemplate.t := {|
  PromptTemplate.name := py "Business Strategy Developer";
  PromptTemplate.category := py "Business";
  PromptTemplate.description := py "Develop comprehensive business strategies and plans";
  PromptTemplate.template := py "# Role Definition
You are a seasoned business strategist and consultant with extensive experience in {industry} and proven track record of developing successful business strategies.

# Task
Develop a comprehensive {strategy_type} strategy for {business_description}.

# Business Context
- **Industry**: {industry}
- **Target Market**: {target_market}
- **Current Situation**: {current_situation}
- **Goals**: {goals}
- **Timeline**: {timeline}

# Instructions
1. Conduct situation analysis (SWOT or similar framework)
2. Define clear, measurable objectives
3. Identify key strategies and tactics to achieve objectives
4. Outline implementation roadmap with milestones
5. Define success metrics and KPIs
6. Address potential risks and mitigation strategies
7. Provide resource requirements and budget considerations

# Constraints
- Strategies must be realistic and achievable
- Consider market conditions and competitive landscape
- Align with business goals and values
- Focus on actionable recommendations

# Output Format
Structured business strategy document with:
- Executive summary
- Situation analysis
- Strategic objectives
- Action plans
- Metrics and evaluation

# Quality Criteria
- Feasibility: Strategies are realistic and implementable
- Alignment: Plans align with business goals and resources
- Clarity: Recommendations are clear and actionable
- Impact: Strategies have potential for significant positive impact
";
  PromptTemplate.variables := pys ["industry"; "strategy_type"; "business_description"; "target_market"; "current_situation"; "goals"; "timeline"];
  PromptTemplate.example_values := [
    (py "industry", py "sustainable fashion");
    (py "strategy_type", py "market entry");
    (py "business_description", py "eco-friendly clothing brand targeting millennials");
    (py "target_market", py "environmentally conscious consumers aged 25-40");
    (py "current_situation", py "established online presence, planning retail expansion");
    (py "goals", py "open 5 physical stores in major cities within 18 months");
    (py "timeline", py "18 months")
  ]
|}.

Definition template_code_generator : PromptTemplate.t := {|
  PromptTemplate.name := py "Code Generator";
  PromptTemplate.category := py "Technical";
  PromptTemplate.description := py "Generate clean, well-documented code for specific tasks";
  PromptTemplate.template := py "# Role Definition
You are a senior software engineer with expertise in {programming_language} and {domain}, known for writing clean, efficient, and well-documented code.

# Task
Write {code_type} in {programming_language} that {functionality}.

# Requirements
{requirements}

# Instructions
1. Write clean, readable code following {programming_language} best practices
2. Include comprehensive comments explaining complex logic
3. Implement proper error handling
4. Follow {coding_standard} coding standards
5. Include docstrings/documentation for functions and classes
6. Provide usage examples
7. Consider edge cases and input validation

# Constraints
- Code must be production-ready and maintainable
- Follow DRY (Don't Repeat Yourself) principle
- Optimize for readability over cleverness
- Include type hints/annotations where applicable
- No external dependencies unless specified

# Output Format
- Complete, runnable code
- Inline comments for complex sections
- Documentation/docstrings
- Usage examples

# Quality Criteria
- Correctness: Code works as intended and handles edge cases
- Readability: Code is easy to understand and maintain
- Efficiency: Code performs well and uses resources appropriately
- Best practices: Follows language conventions and design patterns
";
  PromptTemplate.variables := pys ["programming_language"; "domain"; "code_type"; "functionality"; "requirements"; "coding_standard"];
  PromptTemplate.example_values := [
    (py "programming_language", py "Python");
    (py "domain", py "data processing");
    (py "code_type", py "a class");
    (py "functionality", py "reads CSV files, performs data validation, and generates summary statistics");
    (py "requirements", py "- Support multiple CSV formats
- Validate data types
- Handle missing values
- Generate mean, median, mode statistics
- Export results to JSON");
    (py "coding_standard", py "PEP 8")
  ]
|}.

Definition template_data_analyst : PromptTemplate.t := {|
  PromptTemplate.name := py "Data Analysis Expert";
  PromptTemplate.category := py "Analysis";
  PromptTemplate.description := py "Perform comprehensive data analysis and generate insights";
  PromptTemplate.template := py "# Role Definition
You are a data analyst and research specialist with expertise in {analysis_domain} and strong skills in statistical analysis and data interpretation.

# Task
Analyze {data_description} and provide comprehensive insights about {analysis_focus}.

# Analysis Requirements
- **Data Source**: {data_source}
- **Key Questions**: {key_questions}
- **Analysis Type**: {analysis_type}
- **Deliverables**: {deliverables}

# Instructions
1. Describe the dataset and its characteristics
2. Perform exploratory data analysis
3. Apply appropriate statistical methods or analytical techniques
4. Identify patterns, trends, and anomalies
5. Generate actionable insights and recommendations
6. Visualize key findings (describe visualizations if you can't create them)
7. Address limitations and potential biases

# Constraints
- Base conclusions on data evidence
- Acknowledge uncertainty and limitations
- Use appropriate statistical methods
- Present findings clearly for {audience}
- Avoid overgeneralization

# Output Format
Structured analysis report with:
- Executive summary
- Data description
- Methodology
- Findings and insights
- Recommendations
- Appendices (if needed)

# Quality Criteria
- Rigor: Analysis uses appropriate methods and is thorough
- Accuracy: Findings are supported by data
- Clarity: Results are presented in an understandable way
- Actionability: Insights lead to practical recommendations
";
  PromptTemplate.variables := pys ["analysis_domain"; "data_description"; "analysis_focus"; "data_source"; "key_questions"; "analysis_type"; "deliverables"; "audience"];
  PromptTemplate.example_values := [
    (py "analysis_domain", py "customer behavior");
    (py "data_description", py "6 months of e-commerce transaction data");
    (py "analysis_focus", py "customer purchase patterns and retention");
    (py "data_source", py "company database with 50,000 transactions");
    (py "key_questions", py "What factors influence repeat purchases? Which customer segments are most valuable?");
    (py "analysis_type", py "descriptive and predictive analysis");
    (py "deliverables", py "insights report with visualizations and recommendations");
    (py "audience", py "marketing team and executives")
  ]
|}.

Definition template_story_writer : PromptTemplate.t := {|
  PromptTemplate.name := py "Creative Story Writer";
  PromptTemplate.category := py "Creative";
  PromptTemplate.description := py "Write engaging stories and narratives";
  PromptTemplate.template := py "# Role Definition
You are a creative writer and storyteller with expertise in {genre} and a talent for crafting compelling narratives that captivate readers.

# Task
Write a {story_type} in the {genre} genre about {premise}.

# Story Parameters
- **Setting**: {setting}
- **Main Characters**: {characters}
- **Tone**: {tone}
- **Length**: {length}
- **Target Audience**: {audience}

# Instructions
1. Create a compelling opening that hooks the reader
2. Develop well-rounded characters with clear motivations
3. Build tension and conflict throughout the narrative
4. Use vivid descriptions and sensory details
5. Maintain consistent pacing appropriate for the genre
6. Include dialogue that reveals character and advances plot
7. Craft a satisfying resolution

# Constraints
- Stay true to the genre conventions while being original
- Maintain consistent point of view
- Ensure character actions are motivated and believable
- Keep the tone consistent with the target audience
- Show, don't tell (use action and dialogue over exposition)

# Output Format
Complete narrative with:
- Clear beginning, middle, and end
- Proper formatting and paragraphing
- Dialogue formatted correctly

# Quality Criteria
- Engagement: Story captures and maintains reader interest
- Character development: Characters feel real and relatable
- Plot coherence: Story flows logically and satisfyingly
- Originality: Story offers fresh perspective or unique elements
";
  PromptTemplate.variables := pys ["genre"; "story_type"; "premise"; "setting"; "characters"; "tone"; "length"; "audience"];
  PromptTemplate.example_values := [
    (py "genre", py "science fiction");
    (py "story_type", py "short story");
    (py "premise", py "a scientist discovers a way to communicate with parallel universes");
    (py "setting", py "near-future research facility");
    (py "characters", py "Dr. Sarah Chen (protagonist), her skeptical colleague Marcus");
    (py "tone", py "thoughtful and mysterious with moments of wonder");
    (py "length", py "2000-3000 words");
    (py "audience", py "adult readers who enjoy thought-provoking sci-fi")
  ]
|}.

(** Load all available templates. *)
Definition _load_templates : dict str PromptTemplate.t := [
  (py "blog_post", template_blog_post);
  (py "chatbot_agent", template_chatbot_agent);
  (py "tutorial_creator", template_tutorial_creator);
  (py "business_strategy", template_business_strategy);
  (py "code_generator", template_code_generator);
  (py "data_analyst", template_data_analyst);
  (py "story_writer", template_story_writer)
].

Record TemplateLibrary := { templates : dict str PromptTemplate.t }.

(** [TemplateLibrary.__init__] and the singleton instance. *)
Definition template_library : TemplateLibrary := {| templates := _load_templates |}.

Inductive Exception := ValueError (message : str).

(** A returned value, or a raised exception. *)
Inductive result (A : Type) :=
| Return (a : A)
| Raise (e : Exception).
Arguments Return {A} a.
Arguments Raise {A} e.

(** Get a specific template by name: [self.templates.get(template_name)]. *)
Definition get_template (self : TemplateLibrary) (template_name : str)
  : option PromptTemplate.t :=
  dict_get self.(templates) template_name.

(** List all available template names. *)
Definition list_templates (self : TemplateLibrary) : list str := keys self.(templates).

(** The placeholder of a variable: [f"{{{var}}}"]. *)
Definition placeholder (var : str) : str := py "{" ++ var ++ py "}".

(** The loop of [fill_template]: one [replace] per item of [values], in the
    order of the dict. *)
Definition fill (template : str) (values : dict str str) : str :=
  fold_left (fun filled_prompt item => replace (placeholder (fst item)) (snd item) filled_prompt)
            values template.

(** Fill a template with provided values.  A [PromptTemplate] instance is
    truthy (the dataclass defines neither [__bool__] nor [__len__]): [not
    template] holds for [None] only. *)
Definition fill_template (self : TemplateLibrary) (template_name : str) (values : dict str str)
  : result str :=
  match get_template self template_name with
  | None => Raise (ValueError (py "Template '" ++ template_name ++ py "' not found"))
  | Some template => Return (fill template.(PromptTemplate.template) values)
  end.

(** Simultaneous substitution, as the specification words it: each placeholder
    occurrence of the template itself is replaced with its mapped value; what
    a value brings in is not looked at again.  At each position the first
    variable of [values] whose placeholder starts there is taken. *)
Fixpoint fill_simultaneous_from (values : dict str str) (skip : nat) (s : str) : str :=
  match s with
  | [] => []
  | c :: s' =>
    match skip with
    | S k => fill_simultaneous_from values k s'
    | O =>
      match find (fun item => startswith (placeholder (fst item)) s) values with
      | Some item =>
        snd item
        ++ fill_simultaneous_from values (Nat.pred (List.length (placeholder (fst item)))) s'
      | None => c :: fill_simultaneous_from values 0 s'
      end
    end
  end.

Definition fill_simultaneous (template : str) (values : dict str str) : str :=
  fill_simultaneous_from values 0 template.

(** ** What the specification names *)


(** The enumeration order of the intents, as the specification lists it. *)
Definition intent_order : list str :=
  pys ["create"; "analyze"; "explain"; "improve"; "convert"; "summarize"; "compare"; "plan"].


(** The score [_detect_intent] gives intent [i] on the lowered text. *)
Definition intent_count (self : PromptArchitect) (text_lower : str) (i : str) : nat :=
  intent_score text_lower (get_or (intent_keywords self) i []).

(** The specification's count, in its own words.  A keyword occurs in a text
    as a substring when the text is some characters, the keyword, and some
    more characters; [keyword_count text keywords n] says that [n] of the
    [keywords] occur in [text], each entry of the list counted on its own. *)
Definition occurs_in (keyword text : str) : Prop :=
  exists before after, text = before ++ keyword ++ after.

Inductive keyword_count (text : str) : list str -> nat -> Prop :=
| keyword_count_nil : keyword_count text [] 0
| keyword_count_hit keyword keywords n :
    occurs_in keyword text -> keyword_count text keywords n ->
    keyword_count text (keyword :: keywords) (S n)
| keyword_count_miss keyword keywords n :
    ~ occurs_in keyword text -> keyword_count text keywords n ->
    keyword_count text (keyword :: keywords) n.

(** The trigger keywords of intent [i]. *)
Definition intent_triggers (self : PromptArchitect) (i : str) : list str :=
  get_or (intent_keywords self) i [].

(** The scores dict of [_detect_intent] after the loop over [table], started
    from [scores]; and the entries of [table] with a positive score, which is
    what the loop leaves in an empty dict. *)
Definition intent_scores_of (text_lower : str) (table : dict str (list str))
  (scores : dict str nat) : dict str nat :=
  fold_left (fun scores item =>
               let score := intent_score text_lower (snd item) in
               if (0 <? score)%nat then dict_set scores (fst item) score else scores)
            table scores.

Definition scored (text_lower : str) (table : dict str (list str)) : dict str nat :=
  filter (fun p => (0 <? snd p)%nat)
         (List.map (fun item => (fst item, intent_score text_lower (snd item))) table).

(** The cue words of [_extract_constraints] and of [_determine_complexity]. *)
Definition constraint_cues : list str :=
  pys ["short"; "brief"; "detailed"; "comprehensive"; "quick"; "fast"; "accurate"; "precise";
       "simple"; "easy"].

Definition complexity_cues : list str :=
  pys ["simple"; "basic"; "easy"; "beginner"] ++
  pys ["advanced"; "complex"; "expert"; "sophisticated"].

(** Every trigger keyword the extractor looks for. *)
Definition trigger_keywords (self : PromptArchitect) : list str :=
  flat_map snd (intent_keywords self) ++ flat_map snd category_keywords ++
  flat_map snd audiences ++ flat_map snd (tone_indicators self) ++ flat_map snd formats ++
  constraint_cues ++ complexity_cues.

(** The documented defaults. *)
Definition default_context (raw : str) : PromptContext := {|
  raw_input := raw;
  intent := py "general_assistance";
  category := CONTENT_CREATION;
  target_audience := py "general_public";
  tone := py "professional";
  output_format := py "paragraph";
  constraints := [];
  keywords := [];
  complexity_level := py "intermediate"
|}.

(** Space, tab, newline, vertical tab, form feed, carriage return. *)
Definition ascii_whitespace (c : N) : bool := ((9 <=? c) && (c <=? 13)) || (c =? 32).

Section Triggers.
Context {U : Unicode}.

(** No trigger matches: no trigger keyword occurs in the lowered input, and
    the word-count pattern matches nowhere in it. *)
Definition no_trigger_matches (self : PromptArchitect) (raw : str) : bool :=
  negb (any_in (trigger_keywords self) (lower raw)) &&
  match search_word_count (lower raw) with Some _ => false | None => true end.

(** A token that [_extract_keywords] drops: a stop word, or at most 3 long. *)
Definition dropped_token (word : str) : bool :=
  mem word stop_words || (List.length word <=? 3)%nat.

End Triggers.

(** A variable name without braces. *)
Definition brace_free (var : str) : bool :=
  forallb (fun c => negb ((c =? 123) || (c =? 125))) var.

(** Text without the character [#], and text without a line break. *)
Definition hash_free (s : str) : bool := forallb (fun c => negb (c =? 35)) s.

Definition line_free (s : str) : bool := forallb (fun c => negb (c =? 10)) s.

(** The four section headers of the structural contract. *)
Definition contract_headers : list str :=
  pys ["# Role Definition"; "# Instructions"; "# Constraints"; "# Quality Criteria"].

(** The place of the first occurrence of [x] in [l] ([length l] when absent). *)
Fixpoint index_of {K} `{PyEq K} (x : K) (l : list K) : nat :=
  match l with
  | [] => O
  | y :: l' => if py_eqb x y then O else S (index_of x l')
  end.

(** The number of places of [s] at which [h] occurs. *)
Fixpoint occurrences (h s : str) : nat :=
  ((if startswith h s then 1 else 0) +
   match s with [] => 0 | _ :: s' => occurrences h s' end)%nat.

(** ** The rest of the template library *)

(** [d.values()] *)
Definition values {K V} (d : dict K V) : list V := List.map snd d.

(** Get all templates in a specific category. *)
Definition get_templates_by_category (self : TemplateLibrary) (category : str)
  : list PromptTemplate.t :=
  filter (fun t => py_eqb t.(PromptTemplate.category) category) (values self.(templates)).

(** The categories of the templates, each once, in the order of the dict. *)
Definition category_set (self : TemplateLibrary) : list str :=
  fromkeys (List.map PromptTemplate.category (values self.(templates))).

(** Get all unique categories: [list(set(...))].  The order in which a set
    is listed is not fixed (it follows the hashes of the strings): a result
    is any arrangement of the categories. *)
Definition get_categories (self : TemplateLibrary) (result : list str) : Prop :=
  Permutation result (category_set self).

(** ** The callers *)

(** The validation of [check_core_functionality]: role definition, instructions,
    constraints and quality criteria are all non-empty. *)
Definition all_components_present (result : StructuredPrompt.t) : bool :=
  match StructuredPrompt.role_definition result with [] => false | _ :: _ => true end
  && (0 <? List.length (StructuredPrompt.instructions result))%nat
  && (0 <? List.length (StructuredPrompt.constraints result))%nat
  && (0 <? List.length (StructuredPrompt.quality_criteria result))%nat.

(** The validation of [test_basic_transformation]: the same, and a full
    prompt of more than 100 characters. *)
Definition basic_transformation_valid (result : StructuredPrompt.t) : bool :=
  all_components_present result
  && (100 <? List.length (StructuredPrompt.full_prompt result))%nat.

(** [enumerate(l, start)] with each item formatted as [f"{i}. {x}"]. *)
Fixpoint numbered_items (start : nat) (l : list str) : list str :=
  match l with
  | [] => []
  | x :: l' => (str_of_nat start ++ py ". " ++ x) :: numbered_items (S start) l'
  end.

(** The text the page offers for copying the instructions, and the one for a
    bulleted list (constraints, quality criteria). *)
Definition instructions_copy_text (instructions : list str) : str :=
  join nl (numbered_items 1 instructions).

Definition bullets_copy_text (l : list str) : str :=
  join nl (List.map (fun c => py "- " ++ c) l).

(** The session state of the page, as far as the architect goes: the keys
    [architect] and [current_llm], each present or not. *)
Module App.
Record session_state := {
  architect : option PromptArchitect;
  current_llm : option str
}.

Definition new_session : session_state := {| architect := None; current_llm := None |}.

(** "Initialize architect": a new architect is made when the session has
    none, or when its [current_llm] is not the selected target; the page then
    works with [st.session_state.architect]. *)
Definition initialize_architect (st : session_state) (target_llm : str) : session_state :=
  let absent := match st.(architect) with None => true | Some _ => false end in
  let changed :=
    match st.(current_llm) with
    | Some llm => negb (py_eqb llm target_llm)
    | None => true
    end in
  if absent || changed
  then {| architect := Some (create_architect target_llm); current_llm := Some target_llm |}
  else st.

(** The reruns of the page, one per selected target. *)
Definition reruns (st : session_state) (targets : list str) : session_state :=
  fold_left initialize_architect targets st.
End App.

(** ** What the further properties name *)


(** The labels of the audiences, tones and formats, in the order of their
    dicts. *)
Definition audience_order : list str :=
  pys ["beginners"; "intermediate"; "experts"; "students"; "professionals"; "general_public"].

Definition tone_order : list str :=
  pys ["professional"; "casual"; "academic"; "creative"; "persuasive"; "educational"].

Definition format_order : list str :=
  pys ["markdown"; "json"; "list"; "paragraph"; "code"; "table"; "step-by-step"].

(** [l] is [full] with some of its elements left out. *)
Inductive subsequence {A : Type} : list A -> list A -> Prop :=
| subsequence_nil : subsequence [] []
| subsequence_skip x l full : subsequence l full -> subsequence l (x :: full)
| subsequence_keep x l full : subsequence l full -> subsequence (x :: l) (x :: full).



(** ** Properties *)

Lemma str_eqb_eq a b : str_eqb a b = true <-> a = b.
Proof.
  revert b; induction a as [|x a IH]; intros [|y b]; simpl; split; try congruence; auto.
  - intros H. apply andb_true_iff in H as [H1 H2].
    apply N.eqb_eq in H1. apply IH in H2. congruence.
  - intros H. injection H as -> ->. rewrite N.eqb_refl. apply IH. reflexivity.
Qed.

(** [==] decides equality on every type used as a key. *)
Class PyEqOk (K : Type) `{PyEq K} := py_eqb_eq : forall a b : K, py_eqb a b = true <-> a = b.
Arguments PyEqOk K {_}.

#[export] Instance PyEqOk_str : PyEqOk str := str_eqb_eq.

#[export] Instance PyEqOk_PromptCategory : PyEqOk PromptCategory.
Proof. intros a b. destruct a, b; cbv; split; congruence. Qed.

#[export] Instance PyEqOk_TargetLLM : PyEqOk TargetLLM.
Proof. intros a b. destruct a, b; cbv; split; congruence. Qed.

Section Dicts.
Context {K : Type} `{PyEqOk K}.

Lemma py_eqb_refl (a : K) : py_eqb a a = true.
Proof. apply py_eqb_eq. reflexivity. Qed.

Lemma py_eqb_neq (a b : K) : a <> b -> py_eqb a b = false.
Proof.
  intros N. destruct (py_eqb a b) eqn:E; [apply py_eqb_eq in E; contradiction | reflexivity].
Qed.

Lemma dict_get_fresh {V} (d : dict K V) k : ~ In k (keys d) -> dict_get d k = None.
Proof.
  induction d as [|[k' v] d IH]; simpl; intros N; [reflexivity|].
  rewrite py_eqb_neq by (intros ->; apply N; left; reflexivity).
  apply IH. intros I. apply N. right. exact I.
Qed.

Lemma dict_get_In {V} (d : dict K V) k v :
  NoDup (keys d) -> In (k, v) d -> dict_get d k = Some v.
Proof.
  induction d as [|[k' v'] d IH]; simpl; intros ND I; [contradiction|].
  inversion ND as [|? ? N ND']; subst.
  destruct I as [E|I].
  - injection E as -> ->. rewrite py_eqb_refl. reflexivity.
  - rewrite py_eqb_neq; [apply IH; assumption|].
    intros ->. apply N. change k' with (fst (k', v)). apply in_map. exact I.
Qed.

Lemma dict_set_fresh {V} (d : dict K V) k v : ~ In k (keys d) -> dict_set d k v = d ++ [(k, v)].
Proof.
  induction d as [|[k' v'] d IH]; simpl; intros N; [reflexivity|].
  rewrite py_eqb_neq by (intros ->; apply N; left; reflexivity).
  rewrite IH; [reflexivity|]. intros I. apply N. right. exact I.
Qed.

Lemma first_label_cons k v (table : dict K (list str)) text :
  first_label ((k, v) :: table) text =
  if any_in v text then Some k else first_label table text.
Proof. unfold first_label. simpl. destruct (any_in v text); reflexivity. Qed.

(** No keyword of the table occurs: no label. *)
Lemma first_label_none (table : dict K (list str)) text :
  any_in (flat_map snd table) text = false -> first_label table text = None.
Proof.
  induction table as [|[k v] table IH]; intros E; [reflexivity|].
  rewrite first_label_cons. unfold any_in in *. simpl in E.
  rewrite existsb_app in E. apply orb_false_iff in E as [E1 E2].
  rewrite E1. apply IH. exact E2.
Qed.



End Dicts.

(** *** The factory *)

Section Pipeline.
Context {U : Unicode}.

(** C9.  The factory is a total function of the identifier.  An identifier
    that is none of the five known ones resolves to [claude-3.5-sonnet]: the
    pipeline is the one made for that identifier, its [transform] returns
    what the default pipeline returns, and its constraints carry the three
    entries of the default target in front of the universal ones. *)
Theorem create_architect_fallback (t s : str) :
  mem t (keys llm_map) = false ->
  target_llm (create_architect t) = CLAUDE_35_SONNET /\
  create_architect t = create_architect (py "claude-3.5-sonnet") /\
  transform (create_architect t) s = transform (create_architect (py "claude-3.5-sonnet")) s /\
  forall context,
    generate_constraints (create_architect t) context =
    constraints context
    ++ pys ["Prioritize long-form reasoning and detailed explanations";
            "Follow instructions precisely and maintain structural consistency";
            "Minimize hallucinations by grounding responses in provided context";
            "Maintain factual accuracy and avoid speculation without clear indication";
            "Use clear, unambiguous language";
            "Ensure logical flow and coherent structure"]
    ++ match dict_get tone_constraints (tone context) with Some c => [c] | None => [] end.
Proof.
  intros H.
  assert (E : create_architect t = create_architect (py "claude-3.5-sonnet")).
  { unfold create_architect, get_or. f_equal.
    assert (G : dict_get llm_map t = None).
    { unfold keys, mem in H. simpl in H.
      repeat (apply orb_false_iff in H; destruct H as [? H]).
      unfold llm_map. simpl.
      repeat match goal with Hk : py_eqb t ?k = false |- _ => rewrite Hk; clear Hk end.
      reflexivity. }
    rewrite G. reflexivity. }
  rewrite E. repeat split.
  intros context. unfold generate_constraints.
  generalize (dict_get tone_constraints (tone context)).
  intros [c|]; rewrite <- ?app_assoc; reflexivity.
Qed.

End Pipeline.

(** *** Instructions *)

(** C6.  The assembled instructions list has 4 or 5 entries, and 5 exactly
    when the keywords list of the context is non-empty. *)
Theorem generate_instructions_length (context : PromptContext) :
  let n := List.length (generate_instructions context) in
  (n = 4%nat \/ n = 5%nat) /\ (n = 5%nat <-> keywords context <> []).
Proof.
  unfold generate_instructions.
  destruct (keywords context) as [|k ks]; simpl.
  - split; [left; reflexivity|]. split; [discriminate | congruence].
  - split; [right; reflexivity|]. split; [discriminate | reflexivity].
Qed.

(** *** Category detection *)

Section Category.
Context {U : Unicode}.


End Category.

(** *** Intent detection *)

Lemma max_from_keep {A} (key : A -> nat) l : forall best,
  (forall y, In y l -> (key y <= key best)%nat) -> max_from key best l = best.
Proof.
  induction l as [|x l IH]; intros best B; simpl; [reflexivity|].
  assert (Hx : (key best <? key x)%nat = false).
  { apply Nat.ltb_ge. apply B. left. reflexivity. }
  rewrite Hx. apply IH. intros y I. apply B. right. exact I.
Qed.

Lemma max_from_reach {A} (key : A -> nat) i l2 l1 : forall x,
  (key x < key i)%nat ->
  (forall y, In y l1 -> (key y < key i)%nat) ->
  (forall y, In y l2 -> (key y <= key i)%nat) ->
  max_from key x (l1 ++ i :: l2) = i.
Proof.
  induction l1 as [|y l1 IH]; intros x Hx B1 B2; simpl.
  - assert (E : (key x <? key i)%nat = true) by (apply Nat.ltb_lt; exact Hx).
    rewrite E. apply max_from_keep. exact B2.
  - apply IH; [|intros z I; apply B1; right; exact I | exact B2].
    destruct (key x <? key y)%nat; [apply B1; left; reflexivity | exact Hx].
Qed.

(** The first of the largest: an element larger than all before it and at
    least as large as all after it is the maximum [max] returns. *)
Lemma py_max_first {A} (key : A -> nat) l1 i l2 :
  (forall y, In y l1 -> (key y < key i)%nat) ->
  (forall y, In y l2 -> (key y <= key i)%nat) ->
  py_max key (l1 ++ i :: l2) = Some i.
Proof.
  intros B1 B2. destruct l1 as [|x l1]; simpl; f_equal.
  - apply max_from_keep. exact B2.
  - apply max_from_reach; [apply B1; left; reflexivity | | exact B2].
    intros y I. apply B1. right. exact I.
Qed.

Section Scores.
Variable text_lower : str.

Lemma keys_scored_incl table k : In k (keys (scored text_lower table)) -> In k (keys table).
Proof.
  unfold keys, scored. intros I. apply in_map_iff in I as [[k' v] [E I]]. simpl in E. subst k'.
  apply filter_In in I as [I _]. apply in_map_iff in I as [[k'' kws] [E I]].
  injection E as -> _. apply in_map_iff. exists (k, kws). split; [reflexivity | exact I].
Qed.

Lemma intent_scores_of_cons k kws table scores :
  intent_scores_of text_lower ((k, kws) :: table) scores =
  intent_scores_of text_lower table
    (if (0 <? intent_score text_lower kws)%nat
     then dict_set scores k (intent_score text_lower kws) else scores).
Proof. reflexivity. Qed.

Lemma scored_cons k kws table :
  scored text_lower ((k, kws) :: table) =
  if (0 <? intent_score text_lower kws)%nat
  then (k, intent_score text_lower kws) :: scored text_lower table
  else scored text_lower table.
Proof. unfold scored. simpl. destruct (0 <? _)%nat; reflexivity. Qed.

Lemma intent_scores_of_scored table : forall scores,
  NoDup (keys table) ->
  (forall k, In k (keys table) -> ~ In k (keys scores)) ->
  intent_scores_of text_lower table scores = scores ++ scored text_lower table.
Proof.
  induction table as [|[k kws] table IH]; intros scores ND F.
  - unfold scored. simpl. rewrite app_nil_r. reflexivity.
  - inversion ND as [|? ? N ND']; subst.
    rewrite intent_scores_of_cons, scored_cons.
    destruct (0 <? intent_score text_lower kws)%nat eqn:P.
    + rewrite dict_set_fresh by (apply F; left; reflexivity).
      rewrite IH; [rewrite <- app_assoc; reflexivity | exact ND' |].
      intros k' I. unfold keys. rewrite map_app. simpl. intros J.
      apply in_app_or in J as [J|[J|[]]].
      * apply (F k' (or_intror I)). exact J.
      * subst k'. contradiction.
    + apply IH; [exact ND'|]. intros k' I. apply F. right. exact I.
Qed.

Lemma NoDup_keys_scored table : NoDup (keys table) -> NoDup (keys (scored text_lower table)).
Proof.
  induction table as [|[k kws] table IH]; intros ND; unfold scored; simpl; [constructor|].
  inversion ND as [|? ? N ND']; subst.
  destruct (0 <? intent_score text_lower kws)%nat; simpl; [constructor|]; try (apply IH; exact ND').
  intros I. apply N. apply keys_scored_incl. exact I.
Qed.

Lemma scored_app t1 t2 :
  scored text_lower (t1 ++ t2) = scored text_lower t1 ++ scored text_lower t2.
Proof. unfold scored. rewrite map_app, filter_app. reflexivity. Qed.

Lemma get_or_scored table k v :
  NoDup (keys table) -> In (k, v) (scored text_lower table) ->
  get_or (scored text_lower table) k O = v.
Proof.
  intros ND I. unfold get_or.
  rewrite (dict_get_In (scored text_lower table) k v); [reflexivity | | exact I].
  apply NoDup_keys_scored. exact ND.
Qed.

Lemma In_scored table k v :
  In (k, v) (scored text_lower table) ->
  exists kws, In (k, kws) table /\ v = intent_score text_lower kws /\ (0 < v)%nat.
Proof.
  unfold scored. intros I. apply filter_In in I as [I P]. simpl in P.
  apply in_map_iff in I as [[k' kws] [E I]]. injection E as -> <-.
  exists kws. split; [exact I|]. split; [reflexivity | apply Nat.ltb_lt; exact P].
Qed.

(** The maximum over the scores dict is the entry of the table whose score is
    positive, larger than every score before it and at least every score
    after it. *)
Lemma max_scored before i kws after :
  NoDup (keys (before ++ (i, kws) :: after)) ->
  (0 < intent_score text_lower kws)%nat ->
  (forall item, In item before ->
     (intent_score text_lower (snd item) < intent_score text_lower kws)%nat) ->
  (forall item, In item after ->
     (intent_score text_lower (snd item) <= intent_score text_lower kws)%nat) ->
  let scores := scored text_lower (before ++ (i, kws) :: after) in
  py_max (fun k => get_or scores k O) (keys scores) = Some i.
Proof.
  intros ND P B A scores.
  assert (E : scores = scored text_lower before
                       ++ (i, intent_score text_lower kws) :: scored text_lower after).
  { unfold scores. rewrite scored_app. f_equal. unfold scored at 1. simpl.
    apply Nat.ltb_lt in P. rewrite P. reflexivity. }
  assert (Ki : get_or scores i O = intent_score text_lower kws).
  { apply get_or_scored; [exact ND|]. fold scores. rewrite E.
    apply in_or_app. right. left. reflexivity. }
  assert (Kv : forall k v, In (k, v) scores -> get_or scores k O = v).
  { intros k v I. apply get_or_scored; assumption. }
  replace (keys scores)
    with (keys (scored text_lower before) ++ i :: keys (scored text_lower after))
    by (rewrite E; unfold keys; rewrite map_app; reflexivity).
  apply py_max_first.
  - intros k I. apply in_map_iff in I as [[k' v] [Ek I]]. simpl in Ek. subst k'.
    rewrite (Kv k v) by (rewrite E; apply in_or_app; left; exact I).
    rewrite Ki. apply In_scored in I as [kws' [I [-> _]]]. apply (B (k, kws')). exact I.
  - intros k I. apply in_map_iff in I as [[k' v] [Ek I]]. simpl in Ek. subst k'.
    rewrite (Kv k v) by (rewrite E; apply in_or_app; right; right; exact I).
    rewrite Ki. apply In_scored in I as [kws' [I [-> _]]]. apply (A (k, kws')). exact I.
Qed.

Lemma scored_nil table :
  (forall item, In item table -> intent_score text_lower (snd item) = O) ->
  scored text_lower table = [].
Proof.
  induction table as [|[k kws] table IH]; intros Z; unfold scored; simpl; [reflexivity|].
  assert (Z0 := Z (k, kws) (or_introl eq_refl)). simpl in Z0. rewrite Z0. simpl. apply IH.
  intros item I. apply Z. right. exact I.
Qed.

End Scores.

Section Intent.
Context {U : Unicode}.

Lemma NoDup_intent_keywords : NoDup (keys _load_intent_keywords).
Proof.
  vm_compute. repeat (constructor; [simpl; intuition discriminate|]). constructor.
Qed.

Lemma intent_count_entry t text_lower i kws :
  In (i, kws) _load_intent_keywords ->
  intent_count (create_architect t) text_lower i = intent_score text_lower kws.
Proof.
  intros I. unfold intent_count, get_or. simpl intent_keywords.
  rewrite (dict_get_In _ _ _ NoDup_intent_keywords I). reflexivity.
Qed.

(** The intent [_detect_intent] returns, by the scores of its own loop:
    general_assistance when every score is zero, and otherwise the intent
    whose score is positive, larger than every score before it in the order
    of the table and at least every score after it. *)
Lemma detect_intent_by_score (t s : str) :
  let self := create_architect t in
  let count := intent_count self (lower s) in
  keys (intent_keywords self) = intent_order /\
  ((forall i, In i intent_order -> count i = O) ->
   _detect_intent self s = py "general_assistance") /\
  (forall before i after,
     intent_order = before ++ i :: after ->
     (0 < count i)%nat ->
     (forall j, In j before -> (count j < count i)%nat) ->
     (forall j, In j after -> (count j <= count i)%nat) ->
     _detect_intent self s = i).
Proof.
  intros self count.
  assert (S : _detect_intent self s =
              match py_max (fun k => get_or (scored (lower s) _load_intent_keywords) k O)
                           (keys (scored (lower s) _load_intent_keywords)) with
              | Some best => best
              | None => py "general_assistance"
              end).
  { unfold _detect_intent. simpl intent_keywords.
    change (fold_left _ _load_intent_keywords []) with
      (intent_scores_of (lower s) _load_intent_keywords []).
    rewrite intent_scores_of_scored; [reflexivity | exact NoDup_intent_keywords |].
    intros k _ []. }
  split; [reflexivity|]. split.
  - intros Z. rewrite S. rewrite scored_nil; [reflexivity|].
    intros [j kws] I. simpl. rewrite <- (intent_count_entry t (lower s) I).
    apply Z. change intent_order with (keys _load_intent_keywords).
    unfold keys. change j with (fst (j, kws)). apply in_map. exact I.
  - intros before i after E P B A. rewrite S.
    change intent_order with (List.map fst _load_intent_keywords) in E.
    apply map_eq_app in E as [tb [ta' [ET [Eb Ea]]]].
    apply map_eq_cons in Ea as [[i' kws] [ta [ET' [Ei Ea]]]].
    simpl in Ei. subst i' ta'.
    assert (Ci : count i = intent_score (lower s) kws).
    { apply intent_count_entry. rewrite ET. apply in_or_app. right. left. reflexivity. }
    rewrite ET. rewrite max_scored; [reflexivity | | | |].
    + rewrite <- ET. exact NoDup_intent_keywords.
    + rewrite <- Ci. exact P.
    + intros [j kj] I. simpl. rewrite <- Ci.
      rewrite <- (@intent_count_entry t (lower s) j kj)
        by (rewrite ET; apply in_or_app; left; exact I).
      apply B. rewrite <- Eb. change j with (fst (j, kj)). apply in_map. exact I.
    + intros [j kj] I. simpl. rewrite <- Ci.
      rewrite <- (@intent_count_entry t (lower s) j kj)
        by (rewrite ET; apply in_or_app; right; right; exact I).
      apply A. rewrite <- Ea. change j with (fst (j, kj)). apply in_map. exact I.
Qed.

(** A text begins with [p] when it is [p] and some more characters. *)
Lemma startswith_iff p : forall s, startswith p s = true <-> exists after, s = p ++ after.
Proof.
  induction p as [|a p IH]; intros s.
  - split; [intros _; exists s; reflexivity | intros _; destruct s; reflexivity].
  - destruct s as [|b s]; cbn [startswith].
    + split; [discriminate | intros [after E]; discriminate E].
    + rewrite andb_true_iff, N.eqb_eq, IH. split.
      * intros [-> [after ->]]. exists after. reflexivity.
      * intros [after E]. injection E as -> ->. split; [reflexivity | exists after; reflexivity].
Qed.

(** [p in s] decides whether [p] occurs in [s] as a substring. *)
Lemma is_in_occurs_in p : forall s, is_in p s = true <-> occurs_in p s.
Proof.
  unfold occurs_in. induction s as [|c s IH]; cbn [is_in].
  - rewrite orb_false_r, startswith_iff. split.
    + intros [after E]. exists [], after. exact E.
    + intros [before [after E]]. destruct before as [|b before]; [|discriminate E].
      exists after. exact E.
  - rewrite orb_true_iff, startswith_iff, IH. split.
    + intros [[after E]|[before [after E]]].
      * exists [], after. exact E.
      * exists (c :: before), after. rewrite E. reflexivity.
    + intros [before [after E]]. destruct before as [|b before].
      * left. exists after. exact E.
      * right. injection E as _ E. exists before, after. exact E.
Qed.

(** The score of the loop is the specification's count, and the only one. *)
Lemma keyword_count_score text keywords : keyword_count text keywords (intent_score text keywords).
Proof.
  unfold intent_score. induction keywords as [|k keywords IH]; cbn [filter]; [constructor|].
  destruct (is_in k text) eqn:E.
  - cbn [List.length]. apply keyword_count_hit; [apply is_in_occurs_in, E | exact IH].
  - apply keyword_count_miss; [|exact IH].
    intros O. apply is_in_occurs_in in O. congruence.
Qed.

Lemma keyword_count_unique text keywords n :
  keyword_count text keywords n -> n = intent_score text keywords.
Proof.
  unfold intent_score. induction 1 as [|k keywords n O C IH|k keywords n O C IH]; cbn [filter].
  - reflexivity.
  - apply is_in_occurs_in in O. rewrite O. cbn [List.length]. rewrite IH. reflexivity.
  - destruct (is_in k text) eqn:E; [exfalso; apply O, is_in_occurs_in, E | exact IH].
Qed.

Lemma keyword_count_when text keywords n :
  intent_score text keywords = n -> keyword_count text keywords n.
Proof. intros <-. apply keyword_count_score. Qed.

(** C4.  Intent detection lower-cases the input and counts, for each intent,
    how many of its trigger keywords occur in it as substrings: for each
    intent of the enumeration create, analyze, explain, improve, convert,
    summarize, compare, plan there is such a count, and only one.  Whatever
    [count] gives these counts, when every count is zero the intent is
    general_assistance, and otherwise it is the intent with the highest
    count, the first one in the enumeration order among those that tie: the
    intent whose count is positive, larger than the count of every intent
    before it and at least the count of every intent after it. *)
Theorem detect_intent_highest_count (t s : str) :
  let self := create_architect t in
  let counts (count : str -> nat) :=
    forall i, In i intent_order -> keyword_count (lower s) (intent_triggers self i) (count i) in
  keys (intent_keywords self) = intent_order /\
  (exists count, counts count) /\
  forall count : str -> nat, counts count ->
    ((forall i, In i intent_order -> count i = O) ->
     _detect_intent self s = py "general_assistance") /\
    (forall before i after,
       intent_order = before ++ i :: after ->
       (0 < count i)%nat ->
       (forall j, In j before -> (count j < count i)%nat) ->
       (forall j, In j after -> (count j <= count i)%nat) ->
       _detect_intent self s = i).
Proof.
  intros self counts. unfold counts. clear counts. subst self.
  destruct (detect_intent_by_score t s) as (K & Z & M).
  split; [exact K|]. split.
  - exists (intent_count (create_architect t) (lower s)). intros i _. apply keyword_count_score.
  - intros count C.
    assert (E : forall i, In i intent_order ->
                  count i = intent_count (create_architect t) (lower s) i).
    { intros i I. apply keyword_count_unique, C, I. }
    split.
    + intros A. apply Z. intros i I. rewrite <- (E i I). apply A, I.
    + intros before i after O P B A.
      assert (Ii : In i intent_order) by (rewrite O; apply in_or_app; right; left; reflexivity).
      apply (M before i after O).
      * rewrite <- (E i Ii). exact P.
      * intros j J. rewrite <- (E i Ii), <- (E j); [apply B, J|].
        rewrite O. apply in_or_app. left. exact J.
      * intros j J. rewrite <- (E i Ii), <- (E j); [apply A, J|].
        rewrite O. apply in_or_app. right. right. exact J.
Qed.

End Intent.

(** *** Keyword extraction *)

Lemma span_spec p s : forall a b, span p s = (a, b) -> forallb p a = true /\ s = a ++ b.
Proof.
  induction s as [|c s IH]; simpl; intros a b E.
  - injection E as <- <-. split; reflexivity.
  - destruct (p c) eqn:Pc.
    + destruct (span p s) as [a' b'] eqn:Es. injection E as <- <-.
      destruct (IH a' b' eq_refl) as [F ->]. simpl. rewrite Pc, F. split; reflexivity.
    + injection E as <- <-. split; reflexivity.
Qed.

Lemma StronglySorted_snoc {A} (R : A -> A -> Prop) r x :
  StronglySorted R r -> Forall (fun a => R a x) r -> StronglySorted R (r ++ [x]).
Proof.
  induction r as [|a r IH]; simpl; intros St F.
  - repeat constructor.
  - inversion St as [|? ? St' Fa]; subst. inversion F as [|? ? Ra F']; subst.
    constructor; [apply IH; assumption|].
    apply Forall_app. split; [exact Fa | repeat constructor; exact Ra].
Qed.

Lemma In_firstn {A} n (l : list A) x : In x (firstn n l) -> In x l.
Proof.
  intros I. rewrite <- (firstn_skipn n l). apply in_or_app. left. exact I.
Qed.

Lemma NoDup_firstn {A} n : forall l : list A, NoDup l -> NoDup (firstn n l).
Proof.
  induction n as [|n IH]; intros [|a l] ND; simpl; try constructor.
  - inversion ND as [|? ? N ND']; subst. intros I. apply N. apply (In_firstn _ _ _ I).
  - apply IH. inversion ND; assumption.
Qed.

Lemma StronglySorted_firstn {A} (R : A -> A -> Prop) n : forall r,
  StronglySorted R r -> StronglySorted R (firstn n r).
Proof.
  induction n as [|n IH]; intros [|a r] St; simpl; try constructor.
  - apply IH. inversion St; assumption.
  - inversion St as [|? ? St' Fa]; subst. rewrite Forall_forall in *.
    intros b I. apply Fa. apply (In_firstn _ _ _ I).
Qed.

Lemma StronglySorted_weaken {A} (R R' : A -> A -> Prop) r :
  (forall a b, In a r -> In b r -> R a b -> R' a b) ->
  StronglySorted R r -> StronglySorted R' r.
Proof.
  induction r as [|a r IH]; intros W St; [constructor|].
  inversion St as [|? ? St' Fa]; subst. constructor.
  - apply IH; [|exact St']. intros x y Ix Iy. apply W; right; assumption.
  - rewrite Forall_forall in *. intros b I.
    apply W; [left; reflexivity | right; exact I | apply Fa; exact I].
Qed.

Section FromKeys.
Context {K : Type} `{PyEqOk K}.

Lemma mem_In (x : K) l : mem x l = true <-> In x l.
Proof.
  unfold mem. rewrite existsb_exists. split.
  - intros [y [Hy E]]. apply py_eqb_eq in E. subst. exact Hy.
  - intros I. exists x. split; [exact I | apply py_eqb_refl].
Qed.

Lemma fromkeys_snoc (l : list K) x :
  fromkeys (l ++ [x]) = if mem x (fromkeys l) then fromkeys l else fromkeys l ++ [x].
Proof. unfold fromkeys. rewrite fold_left_app. reflexivity. Qed.

Lemma fromkeys_In (l : list K) y : In y (fromkeys l) <-> In y l.
Proof.
  induction l as [|x l IH] using rev_ind; [reflexivity|].
  rewrite fromkeys_snoc. rewrite in_app_iff. simpl.
  destruct (mem x (fromkeys l)) eqn:M.
  - apply mem_In in M. rewrite IH. split; [tauto|].
    intros [I|[<-|[]]]; [exact I | apply IH; exact M].
  - rewrite in_app_iff. simpl. rewrite IH. tauto.
Qed.

Lemma fromkeys_NoDup (l : list K) : NoDup (fromkeys l).
Proof.
  induction l as [|x l IH] using rev_ind; [constructor|].
  rewrite fromkeys_snoc. destruct (mem x (fromkeys l)) eqn:M; [exact IH|].
  apply NoDup_app; [exact IH | repeat constructor; intros [] |].
  intros a I [<-|[]]. apply mem_In in I. congruence.
Qed.

Lemma index_of_app_In (a : K) l l' : In a l -> index_of a (l ++ l') = index_of a l.
Proof.
  induction l as [|y l IH]; simpl; intros I; [contradiction|].
  destruct (py_eqb a y) eqn:E; [reflexivity|]. f_equal. apply IH.
  destruct I as [<-|I]; [rewrite py_eqb_refl in E; discriminate | exact I].
Qed.

Lemma index_of_In_lt (a : K) l : In a l -> (index_of a l < List.length l)%nat.
Proof.
  induction l as [|y l IH]; simpl; intros I; [contradiction|].
  destruct (py_eqb a y) eqn:E; [lia|]. apply -> Nat.succ_lt_mono. apply IH.
  destruct I as [<-|I]; [rewrite py_eqb_refl in E; discriminate | exact I].
Qed.

Lemma index_of_fresh (a : K) l : ~ In a l -> index_of a (l ++ [a]) = List.length l.
Proof.
  induction l as [|y l IH]; simpl; intros N.
  - rewrite py_eqb_refl. reflexivity.
  - rewrite py_eqb_neq by (intros ->; apply N; left; reflexivity).
    f_equal. apply IH. intros I. apply N. right. exact I.
Qed.

(** The elements kept by [dict.fromkeys] stand in the order of their first
    occurrences. *)
Lemma fromkeys_sorted (l : list K) :
  StronglySorted (fun a b => (index_of a l < index_of b l)%nat) (fromkeys l).
Proof.
  induction l as [|x l IH] using rev_ind; [constructor|].
  assert (W : StronglySorted (fun a b => (index_of a (l ++ [x]) < index_of b (l ++ [x]))%nat)
                             (fromkeys l)).
  { assert (G : forall r, (forall a, In a r -> In a l) ->
                  StronglySorted (fun a b => (index_of a l < index_of b l)%nat) r ->
                  StronglySorted
                    (fun a b => (index_of a (l ++ [x]) < index_of b (l ++ [x]))%nat) r).
    { induction r as [|a r IHr]; intros Sub St; [constructor|].
      inversion St as [|? ? St' Fa]; subst. constructor.
      - apply IHr; [intros b I; apply Sub; right; exact I | exact St'].
      - rewrite Forall_forall in *. intros b I.
        rewrite !index_of_app_In; [apply Fa; exact I | apply Sub; right; exact I
                                  | apply Sub; left; reflexivity]. }
    apply G; [intros a I; apply (proj1 (fromkeys_In l a)); exact I | exact IH]. }
  rewrite fromkeys_snoc. destruct (mem x (fromkeys l)) eqn:M; [exact W|].
  assert (N : ~ In x l).
  { intros I. apply (proj2 (fromkeys_In l x)) in I. apply (proj2 (mem_In x _)) in I.
    congruence. }
  apply StronglySorted_snoc; [exact W|].
  rewrite Forall_forall. intros a I. apply (proj1 (fromkeys_In l a)) in I.
  rewrite index_of_fresh by exact N. rewrite index_of_app_In by exact I.
  apply index_of_In_lt. exact I.
Qed.

End FromKeys.

Lemma index_of_filter {K} `{PyEqOk K} (f : K -> bool) a b : forall l,
  f a = true -> f b = true ->
  (index_of a (filter f l) < index_of b (filter f l))%nat ->
  (index_of a l < index_of b l)%nat.
Proof.
  induction l as [|y l IH]; simpl; intros Fa Fb L; [exact L|].
  destruct (f y) eqn:Fy; simpl in L.
  - destruct (py_eqb a y), (py_eqb b y); try lia.
    apply -> Nat.succ_lt_mono. apply IH; [assumption..|lia].
  - rewrite (py_eqb_neq (a:=a) (b:=y)) by congruence.
    rewrite (py_eqb_neq (a:=b) (b:=y)) by congruence.
    apply -> Nat.succ_lt_mono. apply IH; assumption.
Qed.

Lemma az_lower_case (k : str) :
  forallb is_az k = true -> forallb is_ascii k = true /\ List.map ascii_lower k = k.
Proof.
  induction k as [|c k IH]; simpl; intros F; [split; reflexivity|].
  apply andb_true_iff in F as [Fc F]. destruct (IH F) as [A M].
  unfold is_az in Fc. apply andb_true_iff in Fc as [L1 L2].
  apply N.leb_le in L1. apply N.leb_le in L2.
  split.
  - rewrite A. unfold is_ascii. replace (c <? 128) with true; [reflexivity|].
    symmetry. apply N.ltb_lt. lia.
  - rewrite M. f_equal. unfold ascii_lower, is_ascii_upper.
    replace (c <=? 90) with false; [rewrite andb_false_r; reflexivity|].
    symmetry. apply N.leb_gt. lia.
Qed.

Section Keywords.
Context {U : Unicode}.

Lemma token_at_az before s tok :
  token_at before s = Some tok -> forallb is_az tok = true /\ tok <> [].
Proof.
  unfold token_at. destruct (span is_az s) as [run rest] eqn:E.
  destruct (span_spec _ _ E) as [F _].
  destruct run as [|c run]; [discriminate|].
  destruct (_ && _); [|discriminate]. intros Q. injection Q as <-.
  split; [exact F | discriminate].
Qed.

Lemma findall_tokens_from_az s : forall before skip tok,
  In tok (findall_tokens_from before skip s) -> forallb is_az tok = true /\ tok <> [].
Proof.
  induction s as [|c s IH]; simpl; intros before skip tok I; [contradiction|].
  destruct skip as [|k]; [|apply (IH _ _ _ I)].
  destruct (token_at before (c :: s)) as [t|] eqn:T; [|apply (IH _ _ _ I)].
  destruct I as [<-|I]; [apply (token_at_az _ _ T) | apply (IH _ _ _ I)].
Qed.

(** C5.  The extracted keywords are at most 10; no keyword occurs twice;
    each is an alphabetic token of the lowered input, made of the lower-case
    letters a to z (lower-casing leaves it as it is), is none of the stop
    words and is longer than 3 characters; and the keywords stand in the
    order of their first occurrences among the tokens of the lowered input. *)
Theorem extract_keywords_bounded (s : str) :
  let tokens := findall_tokens (lower s) in
  let kws := _extract_keywords s in
  (List.length kws <= 10)%nat /\
  NoDup kws /\
  (forall k, In k kws ->
     In k tokens /\ k <> [] /\ forallb is_az k = true /\ lower k = k /\
     mem k stop_words = false /\ (3 < List.length k)%nat) /\
  StronglySorted (fun a b => (index_of a tokens < index_of b tokens)%nat) kws.
Proof.
  intros tokens kws. unfold kws, _extract_keywords. fold tokens.
  set (keep := fun word : str => negb (mem word stop_words) && (3 <? List.length word)%nat).
  assert (Kept : forall k, In k (firstn 10 (fromkeys (filter keep tokens))) ->
                   In k tokens /\ keep k = true).
  { intros k I. apply In_firstn in I. apply (proj1 (fromkeys_In _ k)) in I.
    apply filter_In in I. exact I. }
  split; [apply firstn_le_length|].
  split; [apply NoDup_firstn, fromkeys_NoDup|].
  split.
  - intros k I. destruct (Kept k I) as [It Kk].
    destruct (findall_tokens_from_az _ _ _ _ It) as [Az Ne].
    unfold keep in Kk. apply andb_true_iff in Kk as [St Ln].
    destruct (az_lower_case k Az) as [As Lw].
    repeat split; try assumption.
    + unfold lower. rewrite As. exact Lw.
    + apply negb_true_iff. exact St.
    + apply Nat.ltb_lt. exact Ln.
  - apply StronglySorted_firstn.
    apply StronglySorted_weaken with
      (R := fun a b => (index_of a (filter keep tokens) < index_of b (filter keep tokens))%nat);
      [|apply fromkeys_sorted].
    intros a b Ia Ib L.
    apply (proj1 (fromkeys_In _ a)), filter_In in Ia.
    apply (proj1 (fromkeys_In _ b)), filter_In in Ib.
    apply (index_of_filter keep); [apply Ia | apply Ib | exact L].
Qed.

End Keywords.

(** *** Defaults *)

Lemma any_in_app l1 l2 text : any_in (l1 ++ l2) text = any_in l1 text || any_in l2 text.
Proof. unfold any_in. apply existsb_app. Qed.

Lemma intent_score_zero text keywords : any_in keywords text = false -> intent_score text keywords = O.
Proof.
  unfold intent_score, any_in. induction keywords as [|k ks IH]; simpl; intros E; [reflexivity|].
  apply orb_false_iff in E as [E1 E2]. rewrite E1. apply IH. exact E2.
Qed.

Lemma intent_scores_of_zero text table : forall scores,
  any_in (flat_map snd table) text = false -> intent_scores_of text table scores = scores.
Proof.
  induction table as [|it table IH]; simpl; intros scores E; [reflexivity|].
  rewrite any_in_app in E. apply orb_false_iff in E as [E1 E2].
  rewrite intent_score_zero by exact E1. simpl. apply IH. exact E2.
Qed.

Lemma any_in_false_In keywords text k :
  any_in keywords text = false -> In k keywords -> is_in k text = false.
Proof.
  unfold any_in. intros E I. destruct (is_in k text) eqn:Q; [|reflexivity].
  assert (X : existsb (fun keyword => is_in keyword text) keywords = true).
  { apply existsb_exists. exists k. split; assumption. }
  congruence.
Qed.

Lemma is_in_head c p s : is_in (c :: p) s = true -> In c s.
Proof.
  induction s as [|x s IH]; simpl; intros E; [discriminate|].
  apply orb_true_iff in E as [E|E]; [|right; apply IH; exact E].
  apply andb_true_iff in E as [E _]. apply N.eqb_eq in E. left. congruence.
Qed.

Lemma fromkeys_nil {K} `{PyEqOk K} (l : list K) : fromkeys l = [] <-> l = [].
Proof.
  split; [|intros ->; reflexivity].
  destruct l as [|x l]; [reflexivity|]. intros E.
  assert (I : In x (fromkeys (x :: l))) by (apply fromkeys_In; left; reflexivity).
  rewrite E in I. contradiction.
Qed.

Lemma filter_nil {A} (f : A -> bool) l : filter f l = [] <-> forallb (fun x => negb (f x)) l = true.
Proof.
  induction l as [|x l IH]; simpl; [tauto|].
  destruct (f x); simpl; [split; discriminate | exact IH].
Qed.

Section Defaults.
Context {U : Unicode}.

(** The parts of the context that a trigger decides are the defaults when no
    trigger matches. *)
Lemma no_trigger_defaults self s :
  no_trigger_matches self s = true ->
  _detect_intent self s = py "general_assistance" /\
  _detect_category s = CONTENT_CREATION /\
  _detect_audience s = py "general_public" /\
  _detect_tone self s = py "professional" /\
  _detect_output_format s = py "paragraph" /\
  _determine_complexity s = py "intermediate" /\
  _extract_constraints s = [].
Proof.
  unfold no_trigger_matches, trigger_keywords. intros T.
  apply andb_true_iff in T as [T W]. apply negb_true_iff in T.
  repeat (rewrite any_in_app in T; apply orb_false_iff in T as [? T]).
  repeat split.
  - unfold _detect_intent.
    change (fold_left _ (intent_keywords self) []) with
      (intent_scores_of (lower s) (intent_keywords self) []).
    rewrite intent_scores_of_zero by assumption. reflexivity.
  - unfold _detect_category. rewrite first_label_none by assumption. reflexivity.
  - unfold _detect_audience. rewrite first_label_none by assumption. reflexivity.
  - unfold _detect_tone. rewrite first_label_none by assumption. reflexivity.
  - unfold _detect_output_format. rewrite first_label_none by assumption. reflexivity.
  - unfold _determine_complexity. unfold complexity_cues in T.
    rewrite any_in_app in T. apply orb_false_iff in T as [T1 T2].
    rewrite T1, T2. reflexivity.
  - unfold _extract_constraints.
    destruct (search_word_count (lower s)); [discriminate|].
    rewrite !(any_in_false_In constraint_cues (lower s)) by (assumption || (simpl; tauto)).
    reflexivity.
Qed.

Lemma keywords_nil s :
  _extract_keywords s = [] <-> forallb dropped_token (findall_tokens (lower s)) = true.
Proof.
  unfold _extract_keywords.
  set (l := filter _ _).
  assert (E : firstn 10 (fromkeys l) = [] <-> l = []).
  { rewrite <- (fromkeys_nil l). destruct (fromkeys l); simpl; split; congruence. }
  rewrite E. unfold l. rewrite filter_nil.
  assert (X : forall tokens,
             forallb (fun x : str => negb (negb (mem x stop_words) && (3 <? List.length x)%nat)) tokens
             = forallb dropped_token tokens).
  { induction tokens as [|w tokens IHt]; cbn [forallb]; [reflexivity|]. rewrite IHt. f_equal.
    unfold dropped_token. rewrite negb_andb, negb_involutive. f_equal.
    rewrite Nat.ltb_antisym, negb_involutive. reflexivity. }
  rewrite X. tauto.
Qed.

End Defaults.

Lemma ascii_whitespace_range c : ascii_whitespace c = true -> 9 <= c <= 32.
Proof.
  unfold ascii_whitespace. intros E. apply orb_true_iff in E as [E|E].
  - apply andb_true_iff in E as [E1 E2]. apply N.leb_le in E1. apply N.leb_le in E2. lia.
  - apply N.eqb_eq in E. lia.
Qed.

Lemma whitespace_not_In s c :
  forallb ascii_whitespace s = true -> ascii_whitespace c = false -> ~ In c s.
Proof.
  intros W E I. rewrite forallb_forall in W. rewrite (W c I) in E. discriminate.
Qed.

Section Whitespace.
Context {U : Unicode}.

Lemma whitespace_lower s : forallb ascii_whitespace s = true -> lower s = s.
Proof.
  intros W. unfold lower.
  assert (A : forallb is_ascii s = true /\ List.map ascii_lower s = s).
  { induction s as [|c s IH]; simpl in *; [split; reflexivity|].
    apply andb_true_iff in W as [Wc W]. destruct (IH W) as [A M].
    apply ascii_whitespace_range in Wc. split.
    - rewrite A. unfold is_ascii. replace (c <? 128) with true; [reflexivity|].
      symmetry. apply N.ltb_lt. lia.
    - rewrite M. f_equal. unfold ascii_lower, is_ascii_upper.
      replace (65 <=? c) with false; [reflexivity|]. symmetry. apply N.leb_gt. lia. }
  destruct A as [A M]. rewrite A. exact M.
Qed.

Lemma whitespace_not_digit c : ascii_whitespace c = true -> is_digit c = false.
Proof.
  intros W. apply ascii_whitespace_range in W. unfold is_digit, is_ascii, is_09.
  replace (c <? 128) with true by (symmetry; apply N.ltb_lt; lia).
  replace (48 <=? c) with false by (symmetry; apply N.leb_gt; lia). reflexivity.
Qed.

Lemma whitespace_not_az c : ascii_whitespace c = true -> is_az c = false.
Proof.
  intros W. apply ascii_whitespace_range in W. unfold is_az.
  replace (97 <=? c) with false by (symmetry; apply N.leb_gt; lia). reflexivity.
Qed.

Lemma whitespace_no_word_count s :
  forallb ascii_whitespace s = true -> search_word_count s = None.
Proof.
  induction s as [|c s IH]; simpl; intros W; [reflexivity|].
  apply andb_true_iff in W as [Wc W].
  unfold word_count_at. simpl. rewrite (whitespace_not_digit _ Wc). apply IH. exact W.
Qed.

Lemma whitespace_no_tokens s : forall before skip,
  forallb ascii_whitespace s = true -> findall_tokens_from before skip s = [].
Proof.
  induction s as [|c s IH]; simpl; intros before skip W; [reflexivity|].
  apply andb_true_iff in W as [Wc W].
  destruct skip; [|apply IH; exact W].
  unfold token_at. simpl. rewrite (whitespace_not_az _ Wc). apply IH. exact W.
Qed.

Lemma whitespace_no_trigger t s :
  forallb ascii_whitespace s = true -> no_trigger_matches (create_architect t) s = true.
Proof.
  intros W. unfold no_trigger_matches. rewrite (whitespace_lower _ W).
  rewrite (whitespace_no_word_count _ W), andb_true_r. apply negb_true_iff.
  assert (Heads : forallb (fun kw => match kw with
                                      | [] => false
                                      | c :: _ => negb (ascii_whitespace c)
                                      end) (trigger_keywords (create_architect t)) = true)
    by (vm_compute; reflexivity).
  unfold any_in. induction (trigger_keywords (create_architect t)) as [|kw kws IH];
    simpl in *; [reflexivity|].
  apply andb_true_iff in Heads as [Hd Heads]. rewrite (IH Heads), orb_false_r.
  destruct kw as [|c kw]; [discriminate|]. apply negb_true_iff in Hd.
  destruct (is_in (c :: kw) s) eqn:E; [|reflexivity].
  apply is_in_head in E. exfalso. exact (whitespace_not_In _ _ W Hd E).
Qed.

(** C2, as the code has it.  [extract_context] is a total function: it gives
    every field a value for every input.  When no trigger matches, intent,
    category, audience, tone, output format, complexity and constraints are
    the documented defaults.  The keywords list is no matter of triggers: it
    is empty exactly when every alphabetic token of the lowered input is a
    stop word or at most 3 characters long.  For the empty string and for
    input of white space only, all fields are the defaults. *)
Theorem extract_context_defaults (t s : str) :
  let self := create_architect t in
  let c := extract_context self s in
  raw_input c = s /\
  (no_trigger_matches self s = true ->
   intent c = py "general_assistance" /\
   category c = CONTENT_CREATION /\
   target_audience c = py "general_public" /\
   tone c = py "professional" /\
   output_format c = py "paragraph" /\
   complexity_level c = py "intermediate" /\
   constraints c = []) /\
  (keywords c = [] <-> forallb dropped_token (findall_tokens (lower s)) = true) /\
  (forallb ascii_whitespace s = true -> c = default_context s).
Proof.
  intros self c. split; [reflexivity|]. split; [|split].
  - intros T. destruct (no_trigger_defaults _ _ T) as (I & C & A & To & F & X & Cs).
    unfold c, extract_context. simpl. repeat split; assumption.
  - apply keywords_nil.
  - intros W.
    destruct (no_trigger_defaults _ _ (whitespace_no_trigger t _ W))
      as (I & C & A & To & F & X & Cs).
    assert (K : _extract_keywords s = []).
    { apply keywords_nil. rewrite (whitespace_lower _ W).
      unfold findall_tokens. rewrite (whitespace_no_tokens _ _ _ W). reflexivity. }
    unfold c, self, extract_context, default_context.
    rewrite I, C, A, To, F, X, Cs, K. reflexivity.
Qed.

(** On "hello world" no trigger matches and two keywords are extracted,
    whatever the Unicode database: the text is ASCII. *)
Lemma hello_world_keywords :
  no_trigger_matches (create_architect (py "claude-3.5-sonnet")) (py "hello world") = true /\
  keywords (extract_context (create_architect (py "claude-3.5-sonnet")) (py "hello world"))
  = pys ["hello"; "world"].
Proof. split; vm_compute; reflexivity. Qed.

End Whitespace.

(** The claim C2 as stated fails on "hello world": no trigger matches, and
    the keywords list is ["hello", "world"], not the empty list. *)
Lemma extract_context_keywords_without_trigger :
  @no_trigger_matches ascii_only (create_architect (py "claude-3.5-sonnet")) (py "hello world")
  = true /\
  keywords (@extract_context ascii_only (create_architect (py "claude-3.5-sonnet"))
                             (py "hello world"))
  = pys ["hello"; "world"].
Proof. exact (@hello_world_keywords ascii_only). Qed.

Lemma extract_context_defaults_witness :
  let c := @extract_context ascii_only (create_architect (py "gpt-4o")) (py "hello world") in
  @no_trigger_matches ascii_only (create_architect (py "gpt-4o")) (py "hello world") = true /\
  (intent c = py "general_assistance" /\
   category c = CONTENT_CREATION /\
   target_audience c = py "general_public" /\
   tone c = py "professional" /\
   output_format c = py "paragraph" /\
   complexity_level c = py "intermediate" /\
   constraints c = []).
Proof.
  assert (T : @no_trigger_matches ascii_only (create_architect (py "gpt-4o")) (py "hello world")
              = true) by (vm_compute; reflexivity).
  split; [exact T|].
  exact (proj1 (proj2 (@extract_context_defaults ascii_only (py "gpt-4o") (py "hello world"))) T).
Defined.

(** *** Template filling *)

Lemma startswith_length p : forall s, startswith p s = true -> (List.length p <= List.length s)%nat.
Proof.
  induction p as [|a p IH]; intros [|b s]; simpl; intros E; try discriminate; try lia.
  apply andb_true_iff in E as [_ E]. apply IH in E. lia.
Qed.

Lemma placeholder_cons var : placeholder var = 123 :: var ++ [125].
Proof. reflexivity. Qed.

Lemma brace_free_cons c var :
  brace_free (c :: var) = true -> c <> 123 /\ c <> 125 /\ brace_free var = true.
Proof.
  unfold brace_free. simpl. intros E. apply andb_true_iff in E as [E F].
  apply negb_true_iff, orb_false_iff in E as [E1 E2].
  apply N.eqb_neq in E1. apply N.eqb_neq in E2. auto.
Qed.

(** A placeholder that starts in front of another one ends in front of it. *)
Lemma startswith_closing_before k : forall x y,
  brace_free k = true ->
  startswith (k ++ [125]) (x ++ 123 :: y) = startswith (k ++ [125]) x.
Proof.
  induction k as [|a k IH]; intros x y B.
  - destruct x as [|d x]; simpl; [reflexivity|]. destruct (125 =? d); reflexivity.
  - apply brace_free_cons in B as (N1 & _ & B). destruct x as [|d x]; simpl.
    + apply N.eqb_neq in N1. rewrite N1. reflexivity.
    + rewrite IH by exact B. reflexivity.
Qed.

(** Two placeholders at one place are the same placeholder. *)
Lemma startswith_closing_same k : forall v rest,
  brace_free k = true -> brace_free v = true ->
  startswith (k ++ [125]) (v ++ 125 :: rest) = true -> k = v.
Proof.
  induction k as [|a k IH]; intros [|d v] rest Bk Bv E; cbn [startswith app] in E;
    try reflexivity.
  - apply brace_free_cons in Bv as (_ & N2 & _).
    apply andb_true_iff in E as [E _]. apply N.eqb_eq in E. congruence.
  - apply brace_free_cons in Bk as (_ & N2 & _).
    apply andb_true_iff in E as [E _]. apply N.eqb_eq in E. congruence.
  - apply andb_true_iff in E as [E1 E2]. apply N.eqb_eq in E1. subst d.
    apply brace_free_cons in Bk as (_ & _ & Bk). apply brace_free_cons in Bv as (_ & _ & Bv).
    f_equal. apply (IH v rest); assumption.
Qed.

Section Replace.
Variables k v new : str.
Hypothesis Bk : brace_free k = true.
Hypothesis Bv : brace_free v = true.
Hypothesis Nkv : k <> v.

Lemma replace_from_no_open w rest :
  Forall (fun c => c <> 123) w ->
  replace_from (placeholder k) new 0 (w ++ rest) = w ++ replace_from (placeholder k) new 0 rest.
Proof.
  induction w as [|c w IH]; intros F; [reflexivity|].
  inversion F as [|? ? Nc F']; subst.
  change ((c :: w) ++ rest) with (c :: (w ++ rest)). rewrite placeholder_cons.
  cbn [replace_from startswith]. apply N.eqb_neq in Nc. rewrite N.eqb_sym in Nc. rewrite Nc.
  simpl. f_equal. rewrite <- placeholder_cons. apply IH. exact F'.
Qed.

Lemma brace_free_no_open w : brace_free w = true -> Forall (fun c => c <> 123) (w ++ [125]).
Proof.
  induction w as [|c w IH]; intros B; simpl.
  - repeat constructor. discriminate.
  - apply brace_free_cons in B as (N1 & _ & B). constructor; [exact N1 | apply IH; exact B].
Qed.

(** The placeholder of another variable is passed over as it stands. *)
Lemma replace_from_other_placeholder rest :
  replace_from (placeholder k) new 0 (placeholder v ++ rest) =
  placeholder v ++ replace_from (placeholder k) new 0 rest.
Proof.
  rewrite (placeholder_cons v). change ((123 :: v ++ [125]) ++ rest) with (123 :: (v ++ [125]) ++ rest).
  rewrite (placeholder_cons k). cbn [replace_from startswith]. rewrite N.eqb_refl. simpl andb.
  destruct (startswith (k ++ [125]) ((v ++ [125]) ++ rest)) eqn:E.
  - exfalso. apply Nkv. rewrite <- app_assoc in E. apply (startswith_closing_same k v rest Bk Bv E).
  - simpl. f_equal. rewrite <- (placeholder_cons k).
    apply replace_from_no_open. apply brace_free_no_open. exact Bv.
Qed.

Lemma replace_from_around before after : forall skip,
  (skip <= List.length before)%nat ->
  replace_from (placeholder k) new skip (before ++ placeholder v ++ after) =
  replace_from (placeholder k) new skip before ++ placeholder v
  ++ replace_from (placeholder k) new 0 after.
Proof.
  induction before as [|c before IH]; intros skip L.
  - simpl in L. replace skip with O by lia. apply replace_from_other_placeholder.
  - change ((c :: before) ++ placeholder v ++ after) with (c :: before ++ placeholder v ++ after).
    destruct skip as [|n]; cbn [replace_from].
    + assert (E : startswith (placeholder k) (c :: before ++ placeholder v ++ after) =
                  startswith (placeholder k) (c :: before)).
      { rewrite (placeholder_cons k), (placeholder_cons v). cbn [startswith]. f_equal.
        change ((123 :: v ++ [125]) ++ after) with (123 :: (v ++ [125]) ++ after).
        apply startswith_closing_before. exact Bk. }
      rewrite E. destruct (startswith (placeholder k) (c :: before)) eqn:St.
      * rewrite <- app_assoc. f_equal. apply IH.
        apply startswith_length in St.
        change (List.length (c :: before)) with (S (List.length before)) in St. lia.
      * simpl. f_equal. apply IH. lia.
    + apply IH. simpl in L. lia.
Qed.

Lemma replace_around before after :
  replace (placeholder k) new (before ++ placeholder v ++ after) =
  replace (placeholder k) new before ++ placeholder v ++ replace (placeholder k) new after.
Proof.
  rewrite (placeholder_cons k). unfold replace. rewrite <- (placeholder_cons k).
  apply replace_from_around. lia.
Qed.

End Replace.

(** Filling leaves the placeholder of a variable without a supplied value as
    it stands, and fills the text on either side of it. *)
Lemma fill_around var values : forall before after,
  brace_free var = true ->
  (forall item, In item values -> brace_free (fst item) = true /\ fst item <> var) ->
  fill (before ++ placeholder var ++ after) values =
  fill before values ++ placeholder var ++ fill after values.
Proof.
  unfold fill. induction values as [|[k value] values IH]; intros before after Bv Ok;
    cbn [fold_left fst snd].
  - reflexivity.
  - destruct (Ok (k, value) (or_introl eq_refl)) as [Bk Nk]. simpl in Bk, Nk.
    rewrite (replace_around value Bk Bv Nk). apply IH; [exact Bv|].
    intros item I. apply Ok. right. exact I.
Qed.

Lemma dict_get_None {K V} `{PyEqOk K} (d : dict K V) k :
  dict_get d k = None <-> ~ In k (keys d).
Proof.
  split; [|apply dict_get_fresh].
  induction d as [|[k' v'] d IH]; simpl; intros E; [tauto|].
  destruct (py_eqb k k') eqn:Q; [discriminate|].
  intros [->|I]; [rewrite py_eqb_refl in Q; discriminate | exact (IH E I)].
Qed.

Lemma catalog_variables_brace_free :
  forallb (fun item => forallb brace_free (PromptTemplate.variables (snd item))) _load_templates
  = true.
Proof. vm_compute. reflexivity. Qed.

(** C8, as the code has it.  Filling a template by name raises exactly when
    the catalog has no template of that name, and returns the filled text of
    the template otherwise.  The placeholder of a declared variable without a
    supplied value stays as it stands, between the filled text before it and
    the filled text after it, provided that no supplied variable name has a
    brace in it. *)
Theorem fill_template_lookup_failure (template_name : str) (values : dict str str) :
  ((exists e, fill_template template_library template_name values = Raise e) <->
   ~ In template_name (list_templates template_library)) /\
  (forall T, get_template template_library template_name = Some T ->
     fill_template template_library template_name values =
     Return (fill (PromptTemplate.template T) values)) /\
  (forall T var before after,
     get_template template_library template_name = Some T ->
     In var (PromptTemplate.variables T) ->
     PromptTemplate.template T = before ++ placeholder var ++ after ->
     (forall item, In item values -> brace_free (fst item) = true /\ fst item <> var) ->
     fill_template template_library template_name values =
     Return (fill before values ++ placeholder var ++ fill after values)).
Proof.
  split; [|split].
  - unfold fill_template, list_templates.
    rewrite <- (dict_get_None (templates template_library) template_name).
    unfold get_template.
    destruct (dict_get (templates template_library) template_name) as [T|]; split.
    + intros [e E]. discriminate.
    + discriminate.
    + reflexivity.
    + intros _. eexists. reflexivity.
  - intros T G. unfold fill_template. rewrite G. reflexivity.
  - intros T var before after G I E Ok. unfold fill_template. rewrite G. f_equal.
    rewrite E. apply fill_around; [|exact Ok].
    assert (C := catalog_variables_brace_free). rewrite forallb_forall in C.
    unfold get_template in G. simpl templates in G.
    assert (IT : exists name, In (name, T) _load_templates).
    { revert G. generalize _load_templates. intros d.
      induction d as [|[n T'] d IHd]; simpl; [discriminate|].
      destruct (py_eqb template_name n); intros G.
      - injection G as ->. exists n. left. reflexivity.
      - destruct (IHd G) as [n' I']. exists n'. right. exact I'. }
    destruct IT as [name IT]. specialize (C _ IT). simpl in C.
    rewrite forallb_forall in C. apply C. exact I.
Qed.

(** The claim C8 as stated fails for a supplied name with braces in it: the
    name "topic} for {audience" makes the placeholder of [audience], a
    declared variable of "blog_post" without a supplied value, disappear. *)
Lemma fill_template_placeholder_lost :
  mem (py "audience") (PromptTemplate.variables template_blog_post) = true /\
  mem (py "audience") (keys [(py "topic} for {audience", py "x")]) = false /\
  is_in (placeholder (py "audience")) (PromptTemplate.template template_blog_post) = true /\
  match fill_template template_library (py "blog_post") [(py "topic} for {audience", py "x")] with
  | Return filled => is_in (placeholder (py "audience")) filled
  | Raise _ => true
  end = false.
Proof. repeat split; vm_compute; reflexivity. Qed.

Lemma fill_template_lookup_failure_witness :
  let values := [(py "topic", py "AI ethics")] in
  let text := PromptTemplate.template template_blog_post in
  get_template template_library (py "blog_post") = Some template_blog_post /\
  In (py "audience") (PromptTemplate.variables template_blog_post) /\
  text = firstn 188 text ++ placeholder (py "audience") ++ skipn 198 text /\
  fill_template template_library (py "blog_post") values =
  Return (fill (firstn 188 text) values ++ placeholder (py "audience")
          ++ fill (skipn 198 text) values).
Proof.
  intros values text.
  assert (G : get_template template_library (py "blog_post") = Some template_blog_post)
    by reflexivity.
  assert (I : In (py "audience") (PromptTemplate.variables template_blog_post))
    by (right; left; reflexivity).
  assert (E : text = firstn 188 text ++ placeholder (py "audience") ++ skipn 198 text)
    by (vm_compute; reflexivity).
  split; [exact G|]. split; [exact I|]. split; [exact E|].
  apply (proj2 (proj2 (fill_template_lookup_failure (py "blog_post") values))
           template_blog_post (py "audience") (firstn 188 text) (skipn 198 text) G I E).
  intros item [<-|[]]. split; [reflexivity | discriminate].
Defined.

(** C10.  Filling replaces one supplied variable at a time, in the order of
    the values map, each replacement working on the result of the one
    before.  A value that brings in the placeholder of a variable replaced
    later has that placeholder replaced too, so the result depends on the
    order of the map and differs from a simultaneous substitution of the
    placeholders of the template: on the catalog template "blog_post" too. *)
Theorem fill_sequential :
  (forall template item values,
     fill template (item :: values) =
     fill (replace (placeholder (fst item)) (snd item) template) values) /\
  (forall template values item,
     fill template (values ++ [item]) =
     replace (placeholder (fst item)) (snd item) (fill template values)) /\
  fill (py "{a}") [(py "a", py "{b}"); (py "b", py "x")] = py "x" /\
  fill (py "{a}") [(py "b", py "x"); (py "a", py "{b}")] = py "{b}" /\
  fill_simultaneous (py "{a}") [(py "a", py "{b}"); (py "b", py "x")] = py "{b}" /\
  (exists template values, fill template values <> fill_simultaneous template values) /\
  (let values := [(py "topic", py "{audience}"); (py "audience", py "doctors")] in
   exists filled,
     fill_template template_library (py "blog_post") values = Return filled /\
     is_in (py "about doctors for doctors.") filled = true /\
     is_in (py "about {audience} for doctors.")
           (fill_simultaneous (PromptTemplate.template template_blog_post) values) = true /\
     filled <> fill_simultaneous (PromptTemplate.template template_blog_post) values).
Proof.
  split; [reflexivity|]. split.
  { intros template values item. unfold fill. rewrite fold_left_app. reflexivity. }
  split; [vm_compute; reflexivity|]. split; [vm_compute; reflexivity|].
  split; [vm_compute; reflexivity|]. split.
  - exists (py "{a}"), [(py "a", py "{b}"); (py "b", py "x")]. vm_compute. discriminate.
  - intros values. eexists. split; [reflexivity|].
    split; [vm_compute; reflexivity|]. split; [vm_compute; reflexivity|].
    intros E.
    assert (X : is_in (py "about doctors for doctors.")
                      (fill_simultaneous (PromptTemplate.template template_blog_post) values)
                = false) by (vm_compute; reflexivity).
    rewrite <- E in X. vm_compute in X. discriminate.
Qed.

(** *** The layout of the full prompt *)

Lemma startswith_before_newline h : forall x rest,
  line_free h = true -> startswith h (x ++ nl ++ rest) = startswith h x.
Proof.
  induction h as [|a h IH]; intros x rest L; [destruct x; reflexivity|].
  unfold line_free in L. cbn [forallb] in L. apply andb_true_iff in L as [La L].
  apply negb_true_iff in La. destruct x as [|d x].
  - change ([] ++ nl ++ rest) with (10 :: rest). cbn [startswith]. rewrite La. reflexivity.
  - change ((d :: x) ++ nl ++ rest) with (d :: x ++ nl ++ rest). cbn [startswith].
    f_equal. apply IH. exact L.
Qed.

Section Occurrences.
Variable h' : str.
Let h : str := 35 :: h'.
Hypothesis Lh : line_free h = true.

Lemma occurrences_nil : occurrences h [] = O.
Proof. reflexivity. Qed.

Lemma occurrences_cons_other c rest : c <> 35 -> occurrences h (c :: rest) = occurrences h rest.
Proof.
  intros N. unfold h. cbn [occurrences startswith].
  apply N.eqb_neq in N. rewrite N.eqb_sym in N. rewrite N. reflexivity.
Qed.

(** No header starts inside text without [#]. *)
Lemma occurrences_skip a rest :
  hash_free a = true -> occurrences h (a ++ rest) = occurrences h rest.
Proof.
  induction a as [|c a IH]; intros F; [reflexivity|].
  unfold hash_free in F. cbn [forallb] in F. apply andb_true_iff in F as [Fc F].
  apply negb_true_iff, N.eqb_neq in Fc.
  change ((c :: a) ++ rest) with (c :: a ++ rest).
  rewrite occurrences_cons_other by exact Fc. apply IH. exact F.
Qed.

(** A header does not reach over the end of a line: the occurrences in a
    text followed by a line break are those inside the text and those behind
    the line break. *)
Lemma occurrences_line a rest :
  occurrences h (a ++ nl ++ rest) = (occurrences h a + occurrences h rest)%nat.
Proof.
  induction a as [|c a IH].
  - change ([] ++ nl ++ rest) with (10 :: rest).
    rewrite occurrences_cons_other by discriminate. reflexivity.
  - change (occurrences h ((c :: a) ++ nl ++ rest)) with
      ((if startswith h ((c :: a) ++ nl ++ rest) then 1 else 0)
       + occurrences h (a ++ nl ++ rest))%nat.
    rewrite IH, (startswith_before_newline h (c :: a) rest Lh).
    cbn [occurrences]. lia.
Qed.

(** A section header line holds the header [h] once or not at all. *)
Lemma occurrences_header body rest :
  hash_free body = true ->
  occurrences h ((35 :: body) ++ nl ++ rest) =
  ((if startswith h (35%N :: body) then 1 else 0) + occurrences h rest)%nat.
Proof.
  intros F. rewrite occurrences_line. f_equal.
  change (occurrences h (35 :: body)) with
    ((if startswith h (35%N :: body) then 1 else 0) + occurrences h body)%nat.
  rewrite <- (app_nil_r body) at 2.
  rewrite occurrences_skip by exact F. rewrite occurrences_nil. lia.
Qed.

End Occurrences.

Lemma hash_free_app a b : hash_free (a ++ b) = hash_free a && hash_free b.
Proof. apply forallb_app. Qed.

Lemma hash_free_join sep l :
  hash_free sep = true -> Forall (fun x => hash_free x = true) l -> hash_free (join sep l) = true.
Proof.
  intros Fs F. induction F as [|x l Fx F IH]; [reflexivity|].
  destruct l as [|y l]; [exact Fx|].
  change (join sep (x :: y :: l)) with (x ++ sep ++ join sep (y :: l)).
  rewrite !hash_free_app, Fx, Fs, IH. reflexivity.
Qed.

Lemma Forall_firstn {A} (P : A -> Prop) n l : Forall P l -> Forall P (firstn n l).
Proof.
  rewrite !Forall_forall. intros F x I. apply F. apply (In_firstn _ _ _ I).
Qed.

Lemma hash_free_az k : forallb is_az k = true -> hash_free k = true.
Proof.
  unfold hash_free. induction k as [|c k IH]; simpl; intros F; [reflexivity|].
  apply andb_true_iff in F as [Fc F]. rewrite (IH F), andb_true_r.
  unfold is_az in Fc. apply andb_true_iff in Fc as [L _]. apply N.leb_le in L.
  apply negb_true_iff, N.eqb_neq. lia.
Qed.

Lemma hash_free_str_of_nat n : hash_free (str_of_nat n) = true.
Proof.
  unfold str_of_nat. induction (Nat.to_uint n) as [|d IH|d IH|d IH|d IH|d IH|d IH|d IH|d IH|d IH|d IH];
    simpl; try exact IH; reflexivity.
Qed.

Lemma hash_free_numbered_lines l : forall start,
  Forall (fun x => hash_free x = true) l -> hash_free (numbered_lines start l) = true.
Proof.
  induction l as [|x l IH]; intros start F; [reflexivity|].
  inversion F as [|? ? Fx F']; subst. cbn [numbered_lines].
  rewrite !hash_free_app, hash_free_str_of_nat, Fx, IH by exact F'. reflexivity.
Qed.

Lemma hash_free_bulleted_lines l :
  Forall (fun x => hash_free x = true) l -> hash_free (bulleted_lines l) = true.
Proof.
  unfold bulleted_lines. induction 1 as [|x l Fx F IH]; [reflexivity|].
  cbn [flat_map]. rewrite !hash_free_app, Fx, IH. reflexivity.
Qed.

Lemma dict_get_value {K V} `{PyEq K} (P : V -> Prop) (d : dict K V) k v :
  Forall P (List.map snd d) -> dict_get d k = Some v -> P v.
Proof.
  induction d as [|[k' v'] d IH]; simpl; intros F E; [discriminate|].
  inversion F as [|? ? Pv F']; subst.
  destruct (py_eqb k k'); [injection E as <-; exact Pv | apply IH; assumption].
Qed.

Lemma get_or_value {K V} `{PyEq K} (P : V -> Prop) (d : dict K V) k default :
  Forall P (List.map snd d) -> P default -> P (get_or d k default).
Proof.
  intros F D. unfold get_or. destruct (dict_get d k) as [v|] eqn:E; [|exact D].
  apply (dict_get_value (P:=P) d k F E).
Qed.

Lemma Forall_hash_free_literals l :
  forallb hash_free l = true -> Forall (fun x => hash_free x = true) l.
Proof. rewrite forallb_forall, Forall_forall. auto. Qed.

Lemma first_label_In {K} (table : dict K (list str)) text k :
  first_label table text = Some k -> In k (keys table).
Proof.
  unfold first_label. destruct (find _ table) as [item|] eqn:E; [|discriminate].
  intros Q. injection Q as <-. apply find_some in E as [I _]. apply in_map. exact I.
Qed.

Ltac literals := apply Forall_hash_free_literals; vm_compute; reflexivity.

Lemma role_definition_hash_free context :
  Forall (fun k => hash_free k = true) (keywords context) ->
  hash_free (generate_role_definition context) = true.
Proof.
  intros Fk. unfold generate_role_definition.
  assert (B : hash_free (get_or role_templates (category context)
                                (py "You are a knowledgeable AI assistant")) = true).
  { apply (get_or_value (P := fun v => hash_free v = true)); [literals | reflexivity]. }
  assert (J : hash_free (join (py ", ") (firstn 3 (keywords context))) = true).
  { apply hash_free_join; [reflexivity | apply Forall_firstn; exact Fk]. }
  assert (M : forall m, dict_get tone_modifiers (tone context) = Some m -> hash_free m = true).
  { intros m. apply (dict_get_value (P := fun v => hash_free v = true)). literals. }
  destruct (keywords context) as [|k ks];
    destruct (dict_get tone_modifiers (tone context)) as [m|];
    rewrite ?hash_free_app, ?B, ?J, ?(M _ eq_refl); reflexivity.
Qed.

Lemma instructions_hash_free context :
  hash_free (output_format context) = true ->
  Forall (fun k => hash_free k = true) (keywords context) ->
  Forall (fun x => hash_free x = true) (generate_instructions context).
Proof.
  intros Fo Fk. unfold generate_instructions. cbv zeta.
  assert (J : hash_free (join (py ", ") (firstn 5 (keywords context))) = true).
  { apply hash_free_join; [reflexivity | apply Forall_firstn; exact Fk]. }
  assert (A1 : hash_free (get_or (intent_instructions context) (intent context)
                                 (py "Address the user's request comprehensively")) = true).
  { apply (get_or_value (P := fun v => hash_free v = true)); [|reflexivity].
    unfold intent_instructions. cbn [List.map snd]. constructor; [|literals].
    rewrite !hash_free_app, Fo. reflexivity. }
  assert (A2 : hash_free (get_or audience_instructions (target_audience context)
                                 (py "Tailor content to the audience")) = true).
  { apply (get_or_value (P := fun v => hash_free v = true)); [literals | reflexivity]. }
  assert (A3 : hash_free
                 (if py_eqb (complexity_level context) (py "basic")
                  then py "Break down complex ideas into simple, digestible components"
                  else if py_eqb (complexity_level context) (py "advanced")
                       then py "Explore nuanced aspects and advanced implications"
                       else py "Balance depth with accessibility") = true).
  { destruct (py_eqb _ _); [reflexivity|]. destruct (py_eqb _ _); reflexivity. }
  assert (A4 : hash_free (get_or format_instructions (output_format context)
                                 (py "Format output appropriately")) = true).
  { apply (get_or_value (P := fun v => hash_free v = true)); [literals | reflexivity]. }
  destruct (keywords context) as [|k ks];
    repeat (apply Forall_app; split); repeat constructor; assumption.
Qed.

Lemma constraints_hash_free self context :
  Forall (fun x => hash_free x = true) (constraints context) ->
  Forall (fun x => hash_free x = true) (generate_constraints self context).
Proof.
  intros Fc. unfold generate_constraints.
  assert (M : forall c, dict_get tone_constraints (tone context) = Some c -> hash_free c = true).
  { intros c. apply (dict_get_value (P := fun v => hash_free v = true)). literals. }
  assert (T : Forall (fun x => hash_free x = true)
                (if py_eqb (target_llm self) CLAUDE_35_SONNET
                 then pys ["Prioritize long-form reasoning and detailed explanations";
                           "Follow instructions precisely and maintain structural consistency";
                           "Minimize hallucinations by grounding responses in provided context"]
                 else if mem (target_llm self) [GPT_4_TURBO; GPT_4O]
                      then pys ["Balance creativity with accuracy";
                                "Maintain coherent narrative flow"]
                      else [])).
  { destruct (py_eqb _ _); [literals|]. destruct (mem _ _); [literals | constructor]. }
  destruct (dict_get tone_constraints (tone context)) as [c|];
    repeat (apply Forall_app; split); try assumption; try literals.
  repeat constructor. apply M. reflexivity.
Qed.

Lemma quality_criteria_hash_free context :
  Forall (fun x => hash_free x = true) (generate_quality_criteria context).
Proof.
  unfold generate_quality_criteria.
  assert (M : forall c, dict_get category_criteria (category context) = Some c ->
                        hash_free c = true).
  { intros c. apply (dict_get_value (P := fun v => hash_free v = true)). literals. }
  destruct (dict_get category_criteria (category context)) as [c|];
    destruct (py_eqb (tone context) (py "professional"));
    try destruct (py_eqb (tone context) (py "educational"));
    repeat (apply Forall_app; split); try literals;
    repeat constructor; apply M; reflexivity.
Qed.

Section Layout.
Context {U : Unicode}.

Lemma is_digit_not_hash c : is_digit c = true -> negb (c =? 35) = true.
Proof.
  unfold is_digit, is_ascii, is_09. intros D. apply negb_true_iff, N.eqb_neq. intros ->.
  vm_compute in D. discriminate.
Qed.

Lemma search_word_count_digits s : forall g,
  search_word_count s = Some g -> hash_free g = true.
Proof.
  assert (A : forall x g, word_count_at x = Some g -> hash_free g = true).
  { intros x g. unfold word_count_at. destruct (span is_digit x) as [digits r1] eqn:E.
    destruct (span_spec _ _ E) as [F _].
    destruct digits as [|d digits]; [discriminate|].
    destruct (span is_space r1) as [sp r2]. destruct (startswith _ r2); [|discriminate].
    intros Q. injection Q as <-. unfold hash_free.
    rewrite forallb_forall in *. intros c I. apply is_digit_not_hash. apply F. exact I. }
  induction s as [|c s IH]; intros g; cbn [search_word_count].
  - destruct (word_count_at []) eqn:E; [|discriminate]. intros Q. injection Q as <-.
    apply (A _ _ E).
  - destruct (word_count_at (c :: s)) eqn:E; [|apply IH]. intros Q. injection Q as <-.
    apply (A _ _ E).
Qed.

Lemma extract_constraints_hash_free s :
  Forall (fun x => hash_free x = true) (_extract_constraints s).
Proof.
  unfold _extract_constraints.
  repeat (apply Forall_app; split);
    try (repeat match goal with |- context [if ?b then _ else _] => destruct b end;
         repeat constructor).
  destruct (search_word_count (lower s)) as [g|] eqn:E; repeat constructor.
  rewrite !hash_free_app, (search_word_count_digits _ E). reflexivity.
Qed.

Lemma extract_keywords_hash_free s :
  Forall (fun k => hash_free k = true) (_extract_keywords s).
Proof.
  rewrite Forall_forall. intros k I. unfold _extract_keywords in I.
  apply In_firstn in I. apply (proj1 (fromkeys_In _ k)) in I. apply filter_In in I as [I _].
  apply hash_free_az. apply (findall_tokens_from_az _ _ _ _ I).
Qed.

Lemma first_label_known (table : dict str (list str)) text default :
  In (match first_label table text with Some label => label | None => default end)
     (keys table ++ [default]).
Proof.
  destruct (first_label table text) as [label|] eqn:E; apply in_or_app.
  - left. apply (first_label_In _ _ E).
  - right. left. reflexivity.
Qed.

Lemma detect_output_format_title s :
  hash_free (_detect_output_format s) = true /\
  hash_free (title (replace (py "_") (py " ") (_detect_output_format s))) = true.
Proof.
  assert (A : forallb (fun x => hash_free x && hash_free (title (replace (py "_") (py " ") x)))
                      (keys formats ++ [py "paragraph"]) = true) by (vm_compute; reflexivity).
  rewrite forallb_forall in A. apply andb_true_iff. apply A.
  unfold _detect_output_format. apply first_label_known.
Qed.

Lemma detect_audience_title s :
  hash_free (title (replace (py "_") (py " ") (_detect_audience s))) = true.
Proof.
  assert (A : forallb (fun x => hash_free (title (replace (py "_") (py " ") x)))
                      (keys audiences ++ [py "general_public"]) = true)
    by (vm_compute; reflexivity).
  rewrite forallb_forall in A. apply A. unfold _detect_audience. apply first_label_known.
Qed.

Lemma detect_tone_title t s :
  hash_free (title (_detect_tone (create_architect t) s)) = true.
Proof.
  assert (A : forallb (fun x => hash_free (title x))
                      (keys _load_tone_indicators ++ [py "professional"]) = true)
    by (vm_compute; reflexivity).
  rewrite forallb_forall in A. apply A. unfold _detect_tone. apply first_label_known.
Qed.

Lemma assemble_full_prompt self context :
  StructuredPrompt.full_prompt (assemble_prompt self context) =
  py "# Role Definition" ++ nl ++ generate_role_definition context ++ nl ++ nl ++
  py "# Context" ++ nl ++ raw_input context ++ nl ++ nl ++
  py "# Instructions" ++ nl ++ numbered_lines 1 (generate_instructions context) ++ nl ++
  py "# Constraints" ++ nl ++ bulleted_lines (generate_constraints self context) ++ nl ++
  py "# Output Format" ++ nl ++
  title (replace (py "_") (py " ") (output_format context)) ++ nl ++ nl ++
  py "# Quality Criteria" ++ nl ++ bulleted_lines (generate_quality_criteria context) ++ nl ++
  py "# Target Audience" ++ nl ++
  title (replace (py "_") (py " ") (target_audience context)) ++ nl ++ nl ++
  py "# Tone" ++ nl ++ title (tone context) ++ nl.
Proof.
  unfold assemble_prompt, generate_examples. cbn [StructuredPrompt.full_prompt].
  rewrite <- !app_assoc. reflexivity.
Qed.

End Layout.

Section Headers.
Context {U : Unicode}.

Ltac hash_free_piece t :=
  first
    [ reflexivity
    | apply role_definition_hash_free, extract_keywords_hash_free
    | apply hash_free_numbered_lines, instructions_hash_free;
      [apply detect_output_format_title | apply extract_keywords_hash_free]
    | apply hash_free_bulleted_lines, constraints_hash_free, extract_constraints_hash_free
    | apply hash_free_bulleted_lines, quality_criteria_hash_free
    | apply detect_output_format_title
    | apply detect_audience_title
    | apply (detect_tone_title t) ].

Ltac count_headers t :=
  repeat first
    [ rewrite occurrences_header by reflexivity
    | rewrite occurrences_skip by hash_free_piece t
    | rewrite occurrences_line by reflexivity ].

Ltac open_headers :=
  change (py "# Role Definition") with (35 :: py " Role Definition");
  change (py "# Context") with (35 :: py " Context");
  change (py "# Instructions") with (35 :: py " Instructions");
  change (py "# Constraints") with (35 :: py " Constraints");
  change (py "# Output Format") with (35 :: py " Output Format");
  change (py "# Quality Criteria") with (35 :: py " Quality Criteria");
  change (py "# Target Audience") with (35 :: py " Target Audience");
  change (py "# Tone") with (35 :: py " Tone").

(** C7, as the code has it.  The full prompt holds the four section headers
    "# Role Definition", "# Instructions", "# Constraints" and "# Quality
    Criteria" in that relative order.  The raw input is copied into the
    Context section as it is, and nothing else of the prompt holds a header:
    a header occurs in the full prompt once more than in the raw input, so
    exactly once when, and only when, the raw input does not hold it. *)
Theorem full_prompt_headers (t s : str) :
  let prompt := StructuredPrompt.full_prompt (transform (create_architect t) s) in
  (forall h, In h contract_headers -> occurrences h prompt = S (occurrences h s)) /\
  (forall h, In h contract_headers -> occurrences h prompt = 1%nat <-> occurrences h s = O) /\
  (exists a b c d,
     prompt = py "# Role Definition" ++ a ++ py "# Instructions" ++ b
              ++ py "# Constraints" ++ c ++ py "# Quality Criteria" ++ d).
Proof.
  intros prompt.
  assert (Count : forall h, In h contract_headers -> occurrences h prompt = S (occurrences h s)).
  { intros h I. unfold prompt, transform. rewrite assemble_full_prompt.
    cbn [raw_input extract_context].
    destruct I as [<-|[<-|[<-|[<-|[]]]]]; open_headers; count_headers t;
      match goal with |- context [occurrences ?h s] => generalize (occurrences h s) end;
      intros n; cbv -[Nat.add]; lia. }
  split; [exact Count|]. split.
  - intros h I. rewrite (Count h I). lia.
  - unfold prompt, transform. rewrite assemble_full_prompt.
    set (context := extract_context (create_architect t) s).
    exists (nl ++ generate_role_definition context ++ nl ++ nl ++
            py "# Context" ++ nl ++ raw_input context ++ nl ++ nl),
           (nl ++ numbered_lines 1 (generate_instructions context) ++ nl),
           (nl ++ bulleted_lines (generate_constraints (create_architect t) context) ++ nl ++
            py "# Output Format" ++ nl ++
            title (replace (py "_") (py " ") (output_format context)) ++ nl ++ nl),
           (nl ++ bulleted_lines (generate_quality_criteria context) ++ nl ++
            py "# Target Audience" ++ nl ++
            title (replace (py "_") (py " ") (target_audience context)) ++ nl ++ nl ++
            py "# Tone" ++ nl ++ title (tone context) ++ nl).
    rewrite <- !app_assoc. reflexivity.
Qed.

(** A raw input that holds a header gives a prompt that holds it twice,
    whatever the Unicode database: the text is ASCII. *)
Lemma header_in_raw_input :
  occurrences (py "# Constraints")
    (StructuredPrompt.full_prompt
       (transform (create_architect (py "claude-3.5-sonnet"))
                  (py "Explain what goes under # Constraints in a prompt")))
  = 2%nat.
Proof. vm_compute. reflexivity. Qed.

End Headers.

(** The claim C7 as stated fails when the raw input holds a header itself:
    the header stands in the Context section and in its own section. *)
Lemma full_prompt_header_twice :
  occurrences (py "# Constraints")
    (StructuredPrompt.full_prompt
       (@transform ascii_only (create_architect (py "claude-3.5-sonnet"))
                   (py "Explain what goes under # Constraints in a prompt")))
  = 2%nat.
Proof. exact (@header_in_raw_input ascii_only). Qed.

(** *** The theorems at concrete inputs *)

Lemma create_architect_fallback_witness :
  mem (py "unknown-model-xyz") (keys llm_map) = false /\
  target_llm (create_architect (py "unknown-model-xyz")) = CLAUDE_35_SONNET /\
  @transform ascii_only (create_architect (py "unknown-model-xyz")) (py "Write a poem") =
  @transform ascii_only (create_architect (py "claude-3.5-sonnet")) (py "Write a poem").
Proof.
  assert (H : mem (py "unknown-model-xyz") (keys llm_map) = false) by reflexivity.
  destruct (@create_architect_fallback ascii_only (py "unknown-model-xyz") (py "Write a poem") H)
    as (A & _ & B & _).
  split; [exact H|]. split; [exact A | exact B].
Defined.


Lemma detect_intent_highest_count_witness :
  let self := create_architect (py "gpt-4o") in
  let s := py "Write a review: analyze and evaluate the data" in
  let tie := py "Analyze the plan and make it" in
  (keyword_count (@lower ascii_only s) (intent_triggers self (py "create")) 1 /\
   keyword_count (@lower ascii_only s) (intent_triggers self (py "analyze")) 3 /\
   @_detect_intent ascii_only self s = py "analyze") /\
  (keyword_count (@lower ascii_only tie) (intent_triggers self (py "create")) 1 /\
   keyword_count (@lower ascii_only tie) (intent_triggers self (py "analyze")) 1 /\
   keyword_count (@lower ascii_only tie) (intent_triggers self (py "plan")) 1 /\
   @_detect_intent ascii_only self tie = py "create").
Proof.
  intros self s tie.
  pose (count := fun i : str =>
          if str_eqb i (py "create") then 1%nat
          else if str_eqb i (py "analyze") then 3%nat else 0%nat).
  pose (count_tie := fun i : str =>
          if str_eqb i (py "create") then 1%nat
          else if str_eqb i (py "analyze") then 1%nat
          else if str_eqb i (py "plan") then 1%nat else 0%nat).
  assert (C : forall i, In i intent_order ->
                keyword_count (@lower ascii_only s) (intent_triggers self i) (count i)).
  { intros i I.
    repeat (destruct I as [<-|I]; [apply keyword_count_when; vm_compute; reflexivity|]).
    destruct I. }
  assert (T : forall i, In i intent_order ->
                keyword_count (@lower ascii_only tie) (intent_triggers self i) (count_tie i)).
  { intros i I.
    repeat (destruct I as [<-|I]; [apply keyword_count_when; vm_compute; reflexivity|]).
    destruct I. }
  split.
  - split; [exact (C (py "create") (or_introl eq_refl))|].
    split; [exact (C (py "analyze") (or_intror (or_introl eq_refl)))|].
    apply (proj2 (proj2 (proj2 (@detect_intent_highest_count ascii_only (py "gpt-4o") s))
                    count C)
             [py "create"] (py "analyze")
             (pys ["explain"; "improve"; "convert"; "summarize"; "compare"; "plan"])).
    + reflexivity.
    + cbv. repeat constructor.
    + intros j [<-|[]]. cbv. repeat constructor.
    + intros j I. repeat (destruct I as [<-|I]; [cbv; repeat constructor|]). destruct I.
  - split; [exact (T (py "create") (or_introl eq_refl))|].
    split; [exact (T (py "analyze") (or_intror (or_introl eq_refl)))|].
    split; [apply T; cbv; tauto|].
    apply (proj2 (proj2 (proj2 (@detect_intent_highest_count ascii_only (py "gpt-4o") tie))
                    count_tie T)
             [] (py "create")
             (pys ["analyze"; "explain"; "improve"; "convert"; "summarize"; "compare"; "plan"])).
    + reflexivity.
    + cbv. repeat constructor.
    + intros j [].
    + intros j I. repeat (destruct I as [<-|I]; [cbv; repeat constructor|]). destruct I.
Defined.

Lemma extract_keywords_bounded_witness :
  let kws := @_extract_keywords ascii_only (py "The quick brown fox and the Quick dog") in
  kws = pys ["quick"; "brown"] /\
  (mem (py "quick") stop_words = false /\ (3 < List.length (py "quick"))%nat).
Proof.
  intros kws.
  assert (E : kws = pys ["quick"; "brown"]) by (vm_compute; reflexivity).
  split; [exact E|].
  destruct (proj1 (proj2 (proj2 (@extract_keywords_bounded ascii_only
                                   (py "The quick brown fox and the Quick dog"))))
              (py "quick")) as (_ & _ & _ & _ & A & B).
  - fold kws. rewrite E. left. reflexivity.
  - split; [exact A | exact B].
Defined.

Lemma full_prompt_headers_witness :
  occurrences (py "# Instructions") (py "Write a poem") = O /\
  occurrences (py "# Instructions")
    (StructuredPrompt.full_prompt
       (@transform ascii_only (create_architect (py "gpt-4o")) (py "Write a poem"))) = 1%nat.
Proof.
  assert (Z : occurrences (py "# Instructions") (py "Write a poem") = O) by reflexivity.
  split; [exact Z|].
  apply (proj1 (proj2 (@full_prompt_headers ascii_only (py "gpt-4o") (py "Write a poem")))
           (py "# Instructions")); [right; left; reflexivity | exact Z].
Defined.

(** ** Further properties of the code *)

(** *** Audience, tone and output format *)



Lemma any_in_In keywords text k :
  In k keywords -> is_in k text = true -> any_in keywords text = true.
Proof.
  intros I E. unfold any_in. apply existsb_exists. exists k. split; assumption.
Qed.




Section Labels.
Context {U : Unicode}.




End Labels.

(** *** Constraints and complexity *)

Lemma span_app p a : forall b,
  forallb p a = true ->
  match b with [] => true | c :: _ => negb (p c) end = true ->
  span p (a ++ b) = (a, b).
Proof.
  induction a as [|x a IH]; intros b Fa Hb.
  - destruct b as [|c b]; [reflexivity|]. apply negb_true_iff in Hb.
    simpl. rewrite Hb. reflexivity.
  - cbn [forallb] in Fa. apply andb_true_iff in Fa as [Fx Fa].
    change ((x :: a) ++ b) with (x :: a ++ b). simpl span. rewrite Fx, (IH b Fa Hb).
    reflexivity.
Qed.

Lemma startswith_app_self a b : startswith a (a ++ b) = true.
Proof.
  induction a as [|x a IH]; [destruct b; reflexivity|].
  change ((x :: a) ++ b) with (x :: a ++ b). cbn [startswith]. rewrite N.eqb_refl, IH. reflexivity.
Qed.

Section Constraints.
Context {U : Unicode}.

Lemma is_09_is_digit c : is_09 c = true -> is_digit c = true.
Proof.
  intros D. unfold is_digit. replace (is_ascii c) with true; [exact D|].
  unfold is_09 in D. apply andb_true_iff in D as [_ D]. apply N.leb_le in D.
  symmetry. unfold is_ascii. apply N.ltb_lt. lia.
Qed.

Lemma search_word_count_group s : forall g,
  search_word_count s = Some g -> g <> [] /\ forallb is_digit g = true.
Proof.
  assert (A : forall x g, word_count_at x = Some g -> g <> [] /\ forallb is_digit g = true).
  { intros x g. unfold word_count_at. destruct (span is_digit x) as [digits r1] eqn:E.
    destruct (span_spec _ _ E) as [F _].
    destruct digits as [|d digits]; [discriminate|].
    destruct (span is_space r1) as [sp r2]. destruct (startswith _ r2); [|discriminate].
    intros Q. injection Q as <-. split; [discriminate | exact F]. }
  induction s as [|c s IH]; intros g; cbn [search_word_count].
  - destruct (word_count_at []) eqn:E; [|discriminate]. intros Q. injection Q as <-.
    apply (A _ _ E).
  - destruct (word_count_at (c :: s)) eqn:E; [|apply IH]. intros Q. injection Q as <-.
    apply (A _ _ E).
Qed.

Lemma search_word_count_skip pre : forall x,
  forallb (fun c => negb (is_digit c)) pre = true ->
  search_word_count (pre ++ x) = search_word_count x.
Proof.
  induction pre as [|c pre IH]; intros x F; [reflexivity|].
  cbn [forallb] in F. apply andb_true_iff in F as [Fc F]. apply negb_true_iff in Fc.
  change ((c :: pre) ++ x) with (c :: pre ++ x). cbn [search_word_count].
  unfold word_count_at at 1. cbn [span]. rewrite Fc. apply IH. exact F.
Qed.

Lemma word_count_at_number digits n rest :
  digits <> [] -> forallb is_09 digits = true ->
  word_count_at (digits ++ repeat 32 n ++ py "word" ++ rest) = Some digits.
Proof.
  intros Ne D. unfold word_count_at.
  assert (Fd : forallb is_digit digits = true).
  { rewrite forallb_forall in *. intros c I. apply is_09_is_digit, D, I. }
  assert (S1 : span is_digit (digits ++ repeat 32 n ++ py "word" ++ rest) =
               (digits, repeat 32 n ++ py "word" ++ rest)).
  { apply span_app; [exact Fd|]. destruct n; reflexivity. }
  assert (S2 : span is_space (repeat 32 n ++ py "word" ++ rest) =
               (repeat 32 n, py "word" ++ rest)).
  { apply span_app; [|reflexivity]. clear S1.
    induction n as [|n IHn]; [reflexivity|]. cbn [repeat forallb]. rewrite IHn. reflexivity. }
  rewrite S1. destruct digits as [|d digits]; [contradiction|].
  rewrite S2, startswith_app_self. reflexivity.
Qed.

(** X6.  A number in front of "word" becomes a constraint with that number:
    when the lowered input reads [pre ++ digits ++ spaces ++ "word" ++ rest],
    with a non-empty run of the digits 0 to 9, any number of spaces, and no
    digit in [pre], the constraints hold "Limit response to approximately
    [digits] words".  So "Summarize this in 200 words" gives "Limit response
    to approximately 200 words". *)
Theorem word_count_constraint (s pre digits rest : str) (n : nat) :
  lower s = pre ++ digits ++ repeat 32 n ++ py "word" ++ rest ->
  forallb (fun c => negb (is_digit c)) pre = true ->
  digits <> [] ->
  forallb is_09 digits = true ->
  search_word_count (lower s) = Some digits /\
  In (py "Limit response to approximately " ++ digits ++ py " words") (_extract_constraints s).
Proof.
  intros E Fp Ne D.
  assert (W : search_word_count (lower s) = Some digits).
  { rewrite E, (search_word_count_skip pre _ Fp).
    pose proof (word_count_at_number n rest Ne D) as A.
    destruct digits as [|d digits]; [contradiction|].
    change ((d :: digits) ++ repeat 32 n ++ py "word" ++ rest)
      with (d :: digits ++ repeat 32 n ++ py "word" ++ rest) in *.
    cbn [search_word_count]. rewrite A. reflexivity. }
  split; [exact W|].
  unfold _extract_constraints. rewrite W.
  apply in_or_app. right. apply in_or_app. left. left. reflexivity.
Qed.

Lemma subsequence_In {A} (l full : list A) x : subsequence l full -> In x l -> In x full.
Proof.
  induction 1 as [|y l full S IH|y l full S IH]; intros I; [exact I | right; auto |].
  destruct I as [->|I]; [left; reflexivity | right; auto].
Qed.

Lemma subsequence_NoDup {A} (l full : list A) : subsequence l full -> NoDup full -> NoDup l.
Proof.
  induction 1 as [|y l full S IH|y l full S IH]; intros ND; [exact ND | |];
    inversion ND as [|? ? N ND']; subst; [auto|].
  constructor; [|auto]. intros I. apply N. apply (@subsequence_In _ _ _ _ S I).
Qed.

Lemma subsequence_nil_l {A} (full : list A) : subsequence [] full.
Proof. induction full; constructor; assumption. Qed.

Lemma subsequence_refl {A} (l : list A) : subsequence l l.
Proof. induction l; [apply subsequence_nil | apply subsequence_keep; assumption]. Qed.

Lemma subsequence_app {A} (l1 f1 l2 f2 : list A) :
  subsequence l1 f1 -> subsequence l2 f2 -> subsequence (l1 ++ l2) (f1 ++ f2).
Proof.
  induction 1 as [|y l full S IH|y l full S IH]; intros S2; simpl;
    [exact S2 | apply subsequence_skip; auto | apply subsequence_keep; auto].
Qed.

Lemma subsequence_if {A} (b : bool) (x : A) : subsequence (if b then [x] else []) [x].
Proof.
  destruct b; [apply subsequence_keep | apply subsequence_skip]; apply subsequence_nil.
Qed.

Lemma subsequence_length {A} (l full : list A) :
  subsequence l full -> (List.length l <= List.length full)%nat.
Proof. induction 1; simpl; lia. Qed.

(** The constraints are, in this order and each at most once: one of the two
    sentences on length, the word limit, and the sentences on speed, accuracy
    and simplicity. *)
Lemma extract_constraints_subsequence s :
  exists first,
    (first = [] \/ first = [py "Keep response concise and brief"] \/
     first = [py "Provide detailed and comprehensive response"]) /\
    subsequence (_extract_constraints s)
      (first
       ++ match search_word_count (lower s) with
          | Some g => [py "Limit response to approximately " ++ g ++ py " words"]
          | None => []
          end
       ++ pys ["Prioritize speed and efficiency"; "Ensure high accuracy and precision";
               "Use simple, easy-to-understand language"]).
Proof.
  unfold _extract_constraints.
  match goal with
  | |- context [(if ?b1 then [?A] else if ?b2 then [?B] else []) ++ _] =>
    exists (if b1 then [A] else if b2 then [B] else [])
  end.
  split.
  - repeat match goal with |- context [if ?b then _ else _] => destruct b end; tauto.
  - apply subsequence_app; [apply subsequence_refl|].
    apply subsequence_app; [apply subsequence_refl|].
    apply (subsequence_app (f1 := [_]) (f2 := [_; _])); [apply subsequence_if|].
    apply (subsequence_app (f1 := [_]) (f2 := [_])); apply subsequence_if.
Qed.

(** X5.  The extracted constraints are at most 5 and none occurs twice; the
    constraint to be concise and the constraint to be detailed never come
    together; and each constraint is one of the five fixed sentences or the
    word limit, whose number is a non-empty run of digits. *)
Theorem extract_constraints_shape (s : str) :
  let cs := _extract_constraints s in
  (List.length cs <= 5)%nat /\
  NoDup cs /\
  (In (py "Keep response concise and brief") cs ->
   ~ In (py "Provide detailed and comprehensive response") cs) /\
  (forall c, In c cs ->
     In c (pys ["Keep response concise and brief";
                "Provide detailed and comprehensive response";
                "Prioritize speed and efficiency";
                "Ensure high accuracy and precision";
                "Use simple, easy-to-understand language"]) \/
     exists g, c = py "Limit response to approximately " ++ g ++ py " words" /\
               g <> [] /\ forallb is_digit g = true).
Proof.
  intros cs. unfold cs.
  destruct (extract_constraints_subsequence s) as (first & F & S).
  destruct (search_word_count (lower s)) as [g|] eqn:W.
  - destruct (search_word_count_group _ W) as [Ne Dg].
    split; [|split; [|split]].
    + apply subsequence_length in S. rewrite !length_app in S.
      destruct F as [->|[->| ->]]; simpl in S; lia.
    + apply (subsequence_NoDup S).
      destruct F as [->|[->| ->]]; vm_compute;
        repeat (constructor; [simpl; intuition discriminate|]); constructor.
    + intros I J. apply (@subsequence_In _ _ _ _ S) in I. apply (@subsequence_In _ _ _ _ S) in J.
      destruct F as [->|[->| ->]]; vm_compute in I, J; intuition discriminate.
    + intros c I. apply (@subsequence_In _ _ _ _ S) in I.
      destruct F as [->|[->| ->]]; cbn [app In pys List.map] in I;
        repeat (destruct I as [<-|I];
                [first [ right; exists g; split; [reflexivity | split; assumption]
                       | left; cbn [In pys List.map]; tauto ]|]);
        destruct I.
  - split; [|split; [|split]].
    + apply subsequence_length in S. rewrite !length_app in S.
      destruct F as [->|[->| ->]]; simpl in S; lia.
    + apply (subsequence_NoDup S).
      destruct F as [->|[->| ->]]; vm_compute;
        repeat (constructor; [simpl; intuition discriminate|]); constructor.
    + intros I J. apply (@subsequence_In _ _ _ _ S) in I. apply (@subsequence_In _ _ _ _ S) in J.
      destruct F as [->|[->| ->]]; vm_compute in I, J; intuition discriminate.
    + intros c I. apply (@subsequence_In _ _ _ _ S) in I.
      destruct F as [->|[->| ->]]; cbn [app In pys List.map] in I;
        repeat (destruct I as [<-|I]; [left; cbn [In pys List.map]; tauto|]);
        destruct I.
Qed.

(** X4.  The complexity level is basic, advanced or intermediate, and basic
    has the first word: whenever the constraints ask for simple,
    easy-to-understand language, the complexity is basic, whatever cue of
    advanced the input holds as well; and the complexity is advanced only
    when no cue of basic occurs. *)
Theorem simple_language_means_basic (s : str) :
  In (_determine_complexity s) (pys ["basic"; "advanced"; "intermediate"]) /\
  (In (py "Use simple, easy-to-understand language") (_extract_constraints s) ->
   _determine_complexity s = py "basic") /\
  (_determine_complexity s = py "advanced" ->
   any_in (pys ["simple"; "basic"; "easy"; "beginner"]) (lower s) = false /\
   any_in (pys ["advanced"; "complex"; "expert"; "sophisticated"]) (lower s) = true).
Proof.
  split; [|split].
  - unfold _determine_complexity.
    destruct (any_in _ (lower s)); [left; reflexivity|].
    destruct (any_in _ (lower s)); [right; left | right; right; left]; reflexivity.
  - intros I. unfold _determine_complexity.
    destruct (is_in (py "simple") (lower s) || is_in (py "easy") (lower s)) eqn:C.
    + assert (A : any_in (pys ["simple"; "basic"; "easy"; "beginner"]) (lower s) = true).
      { apply orb_true_iff in C as [C|C].
        - apply (@any_in_In _ _ (py "simple")); [left; reflexivity | exact C].
        - apply (@any_in_In _ _ (py "easy")); [right; right; left; reflexivity | exact C]. }
      rewrite A. reflexivity.
    + exfalso. unfold _extract_constraints in I. rewrite C, app_nil_r in I.
      repeat (apply in_app_or in I; destruct I as [I|I]);
        repeat match type of I with context [if ?b then _ else _] => destruct b end;
        try destruct (search_word_count (lower s));
        vm_compute in I; intuition discriminate.
  - unfold _determine_complexity.
    destruct (any_in (pys ["simple"; "basic"; "easy"; "beginner"]) (lower s));
      [intros E; vm_compute in E; discriminate|].
    destruct (any_in _ (lower s)); [split; reflexivity|].
    intros E; vm_compute in E; discriminate.
Qed.


End Constraints.

(** *** The labels of an extracted context *)

Lemma max_from_In {A} (key : A -> nat) l : forall best, In (max_from key best l) (best :: l).
Proof.
  induction l as [|x l IH]; intros best; simpl; [left; reflexivity|].
  destruct (IH (if (key best <? key x)%nat then x else best)) as [E|I].
  - destruct (key best <? key x)%nat; [right; left | left]; exact E.
  - right. right. exact I.
Qed.

Lemma py_max_In {A} (key : A -> nat) l x : py_max key l = Some x -> In x l.
Proof.
  destruct l as [|y l]; simpl; intros E; [discriminate|]. injection E as <-.
  apply max_from_In.
Qed.

Lemma ascii_lower_upper c : ascii_lower (ascii_upper c) = ascii_lower c.
Proof.
  unfold ascii_upper. destruct (is_az c) eqn:Z; [|reflexivity].
  unfold is_az in Z. apply andb_true_iff in Z as [L1 L2].
  apply N.leb_le in L1. apply N.leb_le in L2.
  unfold ascii_lower, is_ascii_upper.
  replace (65 <=? c - 32) with true by (symmetry; apply N.leb_le; lia).
  replace (c - 32 <=? 90) with true by (symmetry; apply N.leb_le; lia).
  replace (c <=? 90) with false by (symmetry; apply N.leb_gt; lia).
  rewrite andb_false_r. simpl. lia.
Qed.

Lemma is_ascii_upper_case c : is_ascii c = true -> is_ascii (ascii_upper c) = true.
Proof.
  unfold is_ascii, ascii_upper. intros A. apply N.ltb_lt in A.
  destruct (is_az c); apply N.ltb_lt; lia.
Qed.

Lemma in_order_total {V} (table : dict str V) (order : list str) x :
  forallb (fun k => match dict_get table k with Some _ => true | None => false end) order = true ->
  In x order -> dict_get table x <> None.
Proof.
  intros F I. rewrite forallb_forall in F. specialize (F x I).
  destruct (dict_get table x); [discriminate | discriminate F].
Qed.

Lemma incl_by_mem (l order : list str) :
  forallb (fun x => mem x order) l = true -> forall x, In x l -> In x order.
Proof.
  intros F x I. rewrite forallb_forall in F. apply (proj1 (mem_In x order)). apply F, I.
Qed.

Section ExtractedLabels.
Context {U : Unicode}.

Lemma lower_upper s : forallb is_ascii s = true -> lower (List.map ascii_upper s) = lower s.
Proof.
  intros A. unfold lower. rewrite A.
  assert (B : forallb is_ascii (List.map ascii_upper s) = true).
  { rewrite forallb_forall in *. intros c I. apply in_map_iff in I as [d [<- I]].
    apply is_ascii_upper_case, A, I. }
  rewrite B, map_map. apply map_ext. apply ascii_lower_upper.
Qed.

Lemma detect_intent_in_order t s :
  In (_detect_intent (create_architect t) s) (intent_order ++ [py "general_assistance"]).
Proof.
  unfold _detect_intent. simpl intent_keywords.
  change (fold_left _ _load_intent_keywords []) with
    (intent_scores_of (lower s) _load_intent_keywords []).
  rewrite intent_scores_of_scored; [|exact NoDup_intent_keywords | intros k _ []].
  cbn [app]. apply in_or_app.
  match goal with |- context [py_max ?k ?l] => destruct (py_max k l) as [best|] eqn:E end.
  - left. apply py_max_In in E. apply keys_scored_incl in E. exact E.
  - right. left. reflexivity.
Qed.

Lemma detect_audience_in_order s : In (_detect_audience s) audience_order.
Proof.
  apply (@incl_by_mem (keys audiences ++ [py "general_public"])); [reflexivity|].
  apply first_label_known.
Qed.

Lemma detect_tone_in_order t s : In (_detect_tone (create_architect t) s) tone_order.
Proof.
  apply (@incl_by_mem (keys _load_tone_indicators ++ [py "professional"])); [reflexivity|].
  apply first_label_known.
Qed.

Lemma detect_output_format_in_order s : In (_detect_output_format s) format_order.
Proof.
  apply (@incl_by_mem (keys formats ++ [py "paragraph"])); [reflexivity|].
  apply first_label_known.
Qed.

(** X7.  Extraction does not look at the case of ASCII letters: an ASCII
    input and the same input in capital letters give the same intent,
    category, audience, tone, output format, constraints, keywords and
    complexity, and so the same role definition, instructions, constraints
    and quality criteria in the prompt. *)
Theorem extract_context_ignores_case (self : PromptArchitect) (s : str) :
  forallb is_ascii s = true ->
  let c := extract_context self s in
  let C := extract_context self (List.map ascii_upper s) in
  let p := transform self s in
  let P := transform self (List.map ascii_upper s) in
  (intent C = intent c /\ category C = category c /\
   target_audience C = target_audience c /\ tone C = tone c /\
   output_format C = output_format c /\ constraints C = constraints c /\
   keywords C = keywords c /\ complexity_level C = complexity_level c) /\
  (StructuredPrompt.role_definition P = StructuredPrompt.role_definition p /\
   StructuredPrompt.instructions P = StructuredPrompt.instructions p /\
   StructuredPrompt.constraints P = StructuredPrompt.constraints p /\
   StructuredPrompt.quality_criteria P = StructuredPrompt.quality_criteria p).
Proof.
  intros A c C p P. pose proof (lower_upper s A) as L.
  assert (Ei : intent C = intent c).
  { unfold C, c, extract_context, _detect_intent. cbn [intent]. rewrite L. reflexivity. }
  assert (Ec : category C = category c).
  { unfold C, c, extract_context, _detect_category. cbn [category]. rewrite L. reflexivity. }
  assert (Ea : target_audience C = target_audience c).
  { unfold C, c, extract_context, _detect_audience. cbn [target_audience]. rewrite L.
    reflexivity. }
  assert (Et : tone C = tone c).
  { unfold C, c, extract_context, _detect_tone. cbn [tone]. rewrite L. reflexivity. }
  assert (Ef : output_format C = output_format c).
  { unfold C, c, extract_context, _detect_output_format. cbn [output_format]. rewrite L.
    reflexivity. }
  assert (Es : constraints C = constraints c).
  { unfold C, c, extract_context, _extract_constraints. cbn [constraints]. rewrite L.
    reflexivity. }
  assert (Ek : keywords C = keywords c).
  { unfold C, c, extract_context, _extract_keywords. cbn [keywords]. rewrite L. reflexivity. }
  assert (Ex : complexity_level C = complexity_level c).
  { unfold C, c, extract_context, _determine_complexity. cbn [complexity_level]. rewrite L.
    reflexivity. }
  split; [repeat split; assumption|].
  unfold P, p, transform, assemble_prompt. fold c. fold C.
  cbn [StructuredPrompt.role_definition StructuredPrompt.instructions
       StructuredPrompt.constraints StructuredPrompt.quality_criteria].
  unfold generate_role_definition, generate_instructions, generate_constraints,
    generate_quality_criteria, intent_instructions.
  rewrite Ei, Ec, Ea, Et, Ef, Es, Ek, Ex. repeat split.
Qed.

(** X8.  Every label an extracted context carries is one of the fixed labels,
    and every table of the assembler that is keyed by a label has an entry
    for it: in [transform] the fallback role, the fallback audience and
    format instructions are never used, and the tone modifier, the tone
    constraint and the category criterion are always there.  Only the table
    of intent instructions has a gap, and only for general_assistance. *)
Theorem extracted_labels_have_entries (t s : str) :
  let c := extract_context (create_architect t) s in
  (In (intent c) (intent_order ++ [py "general_assistance"]) /\
   In (target_audience c) audience_order /\
   In (tone c) tone_order /\
   In (output_format c) format_order /\
   In (complexity_level c) (pys ["basic"; "advanced"; "intermediate"])) /\
  (dict_get role_templates (category c) <> None /\
   dict_get category_criteria (category c) <> None /\
   dict_get tone_modifiers (tone c) <> None /\
   dict_get tone_constraints (tone c) <> None /\
   dict_get audience_instructions (target_audience c) <> None /\
   dict_get format_instructions (output_format c) <> None) /\
  (dict_get (intent_instructions c) (intent c) = None <->
   intent c = py "general_assistance").
Proof.
  intros c.
  assert (Ii := detect_intent_in_order t s).
  assert (Ia := detect_audience_in_order s).
  assert (It := detect_tone_in_order t s).
  assert (If := detect_output_format_in_order s).
  split; [|split].
  - repeat split; try assumption.
    unfold c, extract_context, _determine_complexity. cbn [complexity_level].
    destruct (any_in _ (lower s)); [left; reflexivity|].
    destruct (any_in _ (lower s)); [right; left | right; right; left]; reflexivity.
  - split; [destruct (category c); vm_compute; discriminate|].
    split; [destruct (category c); vm_compute; discriminate|].
    split; [apply (in_order_total tone_modifiers tone_order); [reflexivity | exact It]|].
    split; [apply (in_order_total tone_constraints tone_order); [reflexivity | exact It]|].
    split; [apply (in_order_total audience_instructions audience_order);
            [reflexivity | exact Ia]|].
    apply (in_order_total format_instructions format_order); [reflexivity | exact If].
  - change (intent c) with (_detect_intent (create_architect t) s).
    generalize dependent (_detect_intent (create_architect t) s). intros i Ii.
    split.
    + intros N. apply in_app_or in Ii as [Ii|[<-|[]]]; [|reflexivity]. exfalso.
      revert N. unfold intent_order in Ii. cbn [pys List.map In] in Ii.
      repeat (destruct Ii as [<-|Ii]; [vm_compute; discriminate|]). destruct Ii.
    + intros ->. reflexivity.
Qed.

End ExtractedLabels.

(** *** The assembled lists *)

Lemma firstn_length_app {A} (a b : list A) : firstn (List.length a) (a ++ b) = a.
Proof. induction a as [|x a IH]; simpl; [destruct b; reflexivity | rewrite IH; reflexivity]. Qed.

(** X9.  The generated constraints begin with the constraints of the
    context, unchanged and in their order; then come 3 constraints for
    claude-3.5-sonnet, 2 for gpt-4-turbo and gpt-4o, none for the other
    targets; then the 3 universal constraints, which are always there; then
    the constraint of the tone when the tone has one. *)
Theorem generate_constraints_structure (self : PromptArchitect) (context : PromptContext) :
  let cs := generate_constraints self context in
  let n_target :=
    match target_llm self with
    | CLAUDE_35_SONNET => 3 | GPT_4_TURBO | GPT_4O => 2 | _ => 0
    end%nat in
  let n_tone :=
    match dict_get tone_constraints (tone context) with Some _ => 1 | None => 0 end%nat in
  firstn (List.length (constraints context)) cs = constraints context /\
  List.length cs = (List.length (constraints context) + n_target + 3 + n_tone)%nat /\
  firstn 3 (skipn (List.length (constraints context) + n_target) cs) =
  pys ["Maintain factual accuracy and avoid speculation without clear indication";
       "Use clear, unambiguous language";
       "Ensure logical flow and coherent structure"].
Proof.
  intros cs n_target n_tone. unfold cs, n_target, n_tone, generate_constraints.
  destruct (dict_get tone_constraints (tone context)) as [c|];
    destruct (target_llm self); cbn [py_eqb PyEq_TargetLLM TargetLLM_eqb mem existsb orb];
    rewrite <- ?app_assoc; (split; [apply firstn_length_app|]); (split; [|]);
    rewrite ?length_app; try (simpl; lia);
    rewrite skipn_app, ?Nat.add_0_r;
    rewrite (skipn_all2 (constraints context)) by lia;
    match goal with
    | |- context [(?a + ?b - ?a)%nat] => replace (a + b - a)%nat with b by lia
    | |- context [(?a - ?a)%nat] => rewrite Nat.sub_diag
    end; reflexivity.
Qed.

(** X10.  The quality criteria begin with the four universal criteria and
    always hold the criterion of the category, every category having one:
    they are 5 or 6, and 6 exactly when the tone is professional or
    educational. *)
Theorem generate_quality_criteria_length (context : PromptContext) :
  let qs := generate_quality_criteria context in
  firstn 4 qs = pys ["Relevance: Response directly addresses the user's request";
                     "Accuracy: Information is factually correct and reliable";
                     "Clarity: Content is easy to understand and well-organized";
                     "Completeness: All aspects of the request are covered"] /\
  nth_error qs 4 = dict_get category_criteria (category context) /\
  dict_get category_criteria (category context) <> None /\
  (List.length qs = 5%nat \/ List.length qs = 6%nat) /\
  (List.length qs = 6%nat <->
   tone context = py "professional" \/ tone context = py "educational").
Proof.
  intros qs. unfold qs, generate_quality_criteria.
  assert (P : py_eqb (tone context) (py "professional") = true <->
              tone context = py "professional") by apply str_eqb_eq.
  assert (E : py_eqb (tone context) (py "educational") = true <->
              tone context = py "educational") by apply str_eqb_eq.
  destruct (py_eqb (tone context) (py "professional")) eqn:Bp;
    destruct (py_eqb (tone context) (py "educational")) eqn:Be;
    destruct (category context);
    (split; [reflexivity|]); (split; [reflexivity|]); (split; [discriminate|]);
    (split; [simpl; lia|]); simpl List.length;
    (split; [intros L; try lia; first [left; apply P; reflexivity | right; apply E; reflexivity]
            | intros [T|T]; [apply P in T | apply E in T]; try discriminate; lia ]).
Qed.

Section Targets.
Context {U : Unicode}.

(** X11.  The target changes nothing but the constraints: for any two target
    identifiers the extracted context, the role definition, the instructions,
    the quality criteria, the output format and the examples are the same.
    claude-3.5-haiku and gemini-pro give the same prompt altogether, and so
    do gpt-4-turbo and gpt-4o. *)
Theorem target_changes_constraints_only (t1 t2 s : str) :
  let p1 := transform (create_architect t1) s in
  let p2 := transform (create_architect t2) s in
  extract_context (create_architect t1) s = extract_context (create_architect t2) s /\
  StructuredPrompt.role_definition p1 = StructuredPrompt.role_definition p2 /\
  StructuredPrompt.context p1 = StructuredPrompt.context p2 /\
  StructuredPrompt.instructions p1 = StructuredPrompt.instructions p2 /\
  StructuredPrompt.output_format p1 = StructuredPrompt.output_format p2 /\
  StructuredPrompt.examples p1 = StructuredPrompt.examples p2 /\
  StructuredPrompt.quality_criteria p1 = StructuredPrompt.quality_criteria p2 /\
  transform (create_architect (py "claude-3.5-haiku")) s =
  transform (create_architect (py "gemini-pro")) s /\
  transform (create_architect (py "gpt-4-turbo")) s =
  transform (create_architect (py "gpt-4o")) s.
Proof.
  intros p1 p2.
  assert (E : forall a b, extract_context (new_PromptArchitect a) s =
                          extract_context (new_PromptArchitect b) s) by reflexivity.
  assert (T : forall a b,
             generate_constraints (new_PromptArchitect a) (extract_context (new_PromptArchitect a) s) =
             generate_constraints (new_PromptArchitect b) (extract_context (new_PromptArchitect b) s) ->
             transform (new_PromptArchitect a) s = transform (new_PromptArchitect b) s).
  { intros a b G. unfold transform, assemble_prompt. rewrite G, (E a b). reflexivity. }
  unfold p1, p2, create_architect.
  set (a1 := get_or llm_map t1 CLAUDE_35_SONNET).
  set (a2 := get_or llm_map t2 CLAUDE_35_SONNET).
  split; [apply E|].
  assert (F : assemble_prompt (new_PromptArchitect a1) (extract_context (new_PromptArchitect a1) s)
              = assemble_prompt (new_PromptArchitect a1)
                                (extract_context (new_PromptArchitect a2) s))
    by (rewrite (E a1 a2); reflexivity).
  unfold transform. rewrite F. unfold assemble_prompt.
  cbn [StructuredPrompt.role_definition StructuredPrompt.context
       StructuredPrompt.instructions StructuredPrompt.output_format
       StructuredPrompt.examples StructuredPrompt.quality_criteria].
  do 6 (split; [reflexivity|]).
  split.
  - apply (T CLAUDE_35_HAIKU GEMINI_PRO). rewrite (E CLAUDE_35_HAIKU GEMINI_PRO). reflexivity.
  - apply (T GPT_4_TURBO GPT_4O). rewrite (E GPT_4_TURBO GPT_4O). reflexivity.
Qed.

End Targets.

(** *** The further properties at concrete inputs *)

Lemma word_count_constraint_witness :
  In (py "Limit response to approximately 200 words")
     (@_extract_constraints ascii_only (py "Summarize this in 200 words")).
Proof.
  apply (proj2 (@word_count_constraint ascii_only (py "Summarize this in 200 words")
                  (py "summarize this in ") (py "200") (py "s") 1
                  eq_refl eq_refl ltac:(discriminate) eq_refl)).
Defined.

Lemma extract_context_ignores_case_witness :
  forallb is_ascii (py "Write a blog post for Experts") = true /\
  keywords (@extract_context ascii_only (create_architect (py "gpt-4o"))
              (List.map ascii_upper (py "Write a blog post for Experts"))) =
  keywords (@extract_context ascii_only (create_architect (py "gpt-4o"))
              (py "Write a blog post for Experts")).
Proof.
  assert (A : forallb is_ascii (py "Write a blog post for Experts") = true) by reflexivity.
  split; [exact A|].
  destruct (@extract_context_ignores_case ascii_only (create_architect (py "gpt-4o"))
              (py "Write a blog post for Experts") A) as [(_ & _ & _ & _ & _ & _ & K & _) _].
  exact K.
Defined.

(** *** What the callers check *)

Lemma generate_constraints_length self context :
  List.length (generate_constraints self context) =
  (List.length (constraints context)
   + match target_llm self with CLAUDE_35_SONNET => 3 | GPT_4_TURBO | GPT_4O => 2 | _ => 0 end
   + 3
   + match dict_get tone_constraints (tone context) with Some _ => 1 | None => 0 end)%nat.
Proof.
  unfold generate_constraints.
  destruct (dict_get tone_constraints (tone context)) as [c|];
    destruct (target_llm self); cbn [py_eqb PyEq_TargetLLM TargetLLM_eqb mem existsb orb];
    rewrite !length_app; simpl; lia.
Qed.

Lemma generate_quality_criteria_at_least context :
  (4 <= List.length (generate_quality_criteria context))%nat.
Proof.
  unfold generate_quality_criteria.
  destruct (dict_get category_criteria (category context));
    destruct (py_eqb (tone context) (py "professional"));
    destruct (py_eqb (tone context) (py "educational"));
    rewrite ?length_app; simpl; lia.
Qed.

Lemma generate_instructions_at_least context :
  (4 <= List.length (generate_instructions context))%nat.
Proof.
  unfold generate_instructions. destruct (keywords context); simpl; lia.
Qed.

Lemma role_definition_nonempty context : generate_role_definition context <> [].
Proof.
  assert (R : exists x, generate_role_definition context = x ++ py ".")
    by (unfold generate_role_definition; cbv zeta; eexists; reflexivity).
  destruct R as [x ->]. destruct x; discriminate.
Qed.

Section Validation.
Context {U : Unicode}.

Lemma extract_constraints_length s : (List.length (_extract_constraints s) <= 5)%nat.
Proof.
  destruct (extract_constraints_subsequence s) as (first & F & S).
  apply subsequence_length in S. rewrite !length_app in S.
  destruct (search_word_count (lower s)); destruct F as [->|[->| ->]]; simpl in S; lia.
Qed.

(** X12.  The output of [transform] passes the checks its callers make, for
    every input and every target: the role definition is not empty, there are
    instructions, constraints and quality criteria, and the full prompt has
    more than 100 characters.  The constraints are between 4 and 12, so that
    after the three the demo prints there is always at least one more. *)
Theorem transform_passes_validation (t s : str) :
  let p := transform (create_architect t) s in
  all_components_present p = true /\
  basic_transformation_valid p = true /\
  (4 <= List.length (StructuredPrompt.constraints p) <= 12)%nat.
Proof.
  intros p.
  assert (R : StructuredPrompt.role_definition p <> []) by apply role_definition_nonempty.
  assert (I : (4 <= List.length (StructuredPrompt.instructions p))%nat)
    by apply generate_instructions_at_least.
  assert (Q : (4 <= List.length (StructuredPrompt.quality_criteria p))%nat)
    by apply generate_quality_criteria_at_least.
  assert (C : (4 <= List.length (StructuredPrompt.constraints p) <= 12)%nat).
  { unfold p, transform, assemble_prompt. cbn [StructuredPrompt.constraints].
    rewrite generate_constraints_length. cbn [constraints tone extract_context].
    pose proof (extract_constraints_length s) as L.
    pose proof (@in_order_total _ tone_constraints tone_order _ eq_refl
                  (detect_tone_in_order t s)) as T.
    destruct (dict_get tone_constraints (_detect_tone (create_architect t) s));
      [|contradiction].
    destruct (target_llm (create_architect t)); lia. }
  assert (A : all_components_present p = true).
  { unfold all_components_present.
    destruct (StructuredPrompt.role_definition p); [contradiction|].
    repeat (apply andb_true_iff; split); try reflexivity; apply Nat.ltb_lt; lia. }
  split; [exact A|]. split; [|exact C].
  unfold basic_transformation_valid. rewrite A. apply Nat.ltb_lt.
  unfold p, transform. rewrite assemble_full_prompt. rewrite !length_app.
  repeat match goal with
         | |- context [List.length (py ?x)] =>
           let v := eval vm_compute in (List.length (py x)) in
           change (List.length (py x)) with v
         end.
  lia.
Qed.

End Validation.

(** *** The sections of the full prompt *)

Section Sections.
Context {U : Unicode}.

Ltac generated_piece t :=
  first
    [ reflexivity
    | apply role_definition_hash_free, extract_keywords_hash_free
    | apply hash_free_numbered_lines, instructions_hash_free;
      [apply detect_output_format_title | apply extract_keywords_hash_free]
    | apply hash_free_bulleted_lines, constraints_hash_free, extract_constraints_hash_free
    | apply hash_free_bulleted_lines, quality_criteria_hash_free
    | apply detect_output_format_title
    | apply detect_audience_title
    | apply (detect_tone_title t) ].

Ltac count_sections t :=
  repeat first
    [ rewrite occurrences_header by reflexivity
    | rewrite occurrences_skip by generated_piece t
    | rewrite occurrences_line by reflexivity ];
  match goal with |- context [occurrences ?h ?s] =>
    match s with nl => fail 1 | _ => generalize (occurrences h s) end
  end;
  intros n; cbv -[Nat.add]; lia.

Ltac open_sections :=
  change (py "# Role Definition") with (35 :: py " Role Definition");
  change (py "# Context") with (35 :: py " Context");
  change (py "# Instructions") with (35 :: py " Instructions");
  change (py "# Constraints") with (35 :: py " Constraints");
  change (py "# Output Format") with (35 :: py " Output Format");
  change (py "# Quality Criteria") with (35 :: py " Quality Criteria");
  change (py "# Target Audience") with (35 :: py " Target Audience");
  change (py "# Tone") with (35 :: py " Tone");
  change (py "# Examples") with (35 :: py " Examples");
  change (py "#") with (35 :: @nil N).

(** X13.  Outside the raw input the full prompt holds the character [#]
    eight times, once for each of its eight section headers: each of the
    headers "# Context", "# Output Format", "# Target Audience" and "# Tone"
    occurs once more than in the raw input, and "# Examples" occurs only
    where the raw input holds it: [transform] never writes an Examples
    section. *)
Theorem full_prompt_sections (t s : str) :
  let prompt := StructuredPrompt.full_prompt (transform (create_architect t) s) in
  occurrences (py "#") prompt = (8 + occurrences (py "#") s)%nat /\
  (forall h, In h (pys ["# Context"; "# Output Format"; "# Target Audience"; "# Tone"]) ->
     occurrences h prompt = S (occurrences h s)) /\
  occurrences (py "# Examples") prompt = occurrences (py "# Examples") s /\
  StructuredPrompt.examples (transform (create_architect t) s) = None.
Proof.
  intros prompt.
  assert (E : prompt =
    py "# Role Definition" ++ nl ++
    generate_role_definition (extract_context (create_architect t) s) ++ nl ++ nl ++
    py "# Context" ++ nl ++ s ++ nl ++ nl ++
    py "# Instructions" ++ nl ++
    numbered_lines 1 (generate_instructions (extract_context (create_architect t) s)) ++ nl ++
    py "# Constraints" ++ nl ++
    bulleted_lines (generate_constraints (create_architect t)
                      (extract_context (create_architect t) s)) ++ nl ++
    py "# Output Format" ++ nl ++
    title (replace (py "_") (py " ") (_detect_output_format s)) ++ nl ++ nl ++
    py "# Quality Criteria" ++ nl ++
    bulleted_lines (generate_quality_criteria (extract_context (create_architect t) s)) ++ nl ++
    py "# Target Audience" ++ nl ++
    title (replace (py "_") (py " ") (_detect_audience s)) ++ nl ++ nl ++
    py "# Tone" ++ nl ++ title (_detect_tone (create_architect t) s) ++ nl).
  { unfold prompt, transform. rewrite assemble_full_prompt. reflexivity. }
  split; [|split; [|split; [|reflexivity]]].
  - rewrite E. open_sections. count_sections t.
  - intros h I. rewrite E.
    destruct I as [<-|[<-|[<-|[<-|[]]]]]; open_sections; count_sections t.
  - rewrite E. open_sections. count_sections t.
Qed.

End Sections.

(** *** Tokens and keywords *)

Lemma last_cons_default {A} (x d : A) l : last (x :: l) d = last l x.
Proof.
  revert x d. induction l as [|y l IH]; intros x d; [reflexivity|].
  change (last (x :: y :: l) d) with (last (y :: l) d).
  rewrite (IH y d), (IH y x). reflexivity.
Qed.

Lemma span_inside p (a : str) : forall b run rest,
  span p (a ++ b) = (run, rest) -> a <> [] -> p (last a 0) = false ->
  (List.length run < List.length a)%nat /\ firstn (List.length run) a = run.
Proof.
  induction a as [|x a IH]; intros b run rest E Ne L; [contradiction|].
  change ((x :: a) ++ b) with (x :: a ++ b) in E. cbn [span] in E.
  destruct (p x) eqn:Px.
  - destruct (span p (a ++ b)) as [run' rest'] eqn:Es. injection E as <- <-.
    destruct a as [|y a].
    + cbn [last] in L. congruence.
    + change (last (x :: y :: a) 0) with (last (y :: a) 0) in L.
      destruct (IH b run' rest' Es ltac:(discriminate) L) as [Len Fn].
      split; [simpl; simpl in Len; lia|]. cbn [List.length firstn]. rewrite Fn. reflexivity.
  - injection E as <- <-. split; [simpl; lia | reflexivity].
Qed.

Section Tokens.
Context {U : Unicode}.

Lemma is_az_is_word c : is_az c = true -> is_word c = true.
Proof.
  intros Z. unfold is_word, is_ascii_alpha. rewrite Z, orb_true_r. cbn [orb].
  unfold is_az in Z. apply andb_true_iff in Z as [_ L]. apply N.leb_le in L.
  unfold is_ascii. replace (c <? 128) with true; [reflexivity|].
  symmetry. apply N.ltb_lt. lia.
Qed.

Lemma not_word_not_az c : is_word c = false -> is_az c = false.
Proof.
  intros W. destruct (is_az c) eqn:Z; [|reflexivity].
  rewrite (is_az_is_word _ Z) in W. discriminate.
Qed.

Lemma last_az_is_word w : w <> [] -> forallb is_az w = true -> is_word (last w 0) = true.
Proof.
  intros Ne F. apply is_az_is_word. rewrite forallb_forall in F. apply F.
  destruct w as [|c w]; [contradiction|]. clear.
  revert c. induction w as [|y w IH]; intros c; [left; reflexivity|].
  change (last (c :: y :: w) 0) with (last (y :: w) 0). right. apply IH.
Qed.

(** A run of letters between two characters that are no word characters is
    matched where it stands. *)
Lemma token_at_whole_word before w post :
  w <> [] -> forallb is_az w = true ->
  match before with Some c => is_word c | None => false end = false ->
  match post with c :: _ => is_word c | [] => false end = false ->
  token_at before (w ++ post) = Some w.
Proof.
  intros Ne F B P. unfold token_at.
  rewrite (@span_app is_az w post F)
    by (destruct post as [|c post]; [reflexivity | rewrite (not_word_not_az _ P); reflexivity]).
  pose proof (last_az_is_word Ne F) as Lw.
  destruct w as [|c w]; [contradiction|].
  assert (Wc : is_word c = true).
  { apply is_az_is_word. cbn [forallb] in F. apply andb_true_iff in F as [F _]. exact F. }
  change (hd_error ((c :: w) ++ post)) with (Some c).
  unfold word_boundary. rewrite B, Wc, Lw.
  destruct post as [|d post]; cbn [hd_error]; [reflexivity|]. rewrite P. reflexivity.
Qed.

Lemma findall_tokens_reach w post : forall pre before skip,
  w <> [] -> forallb is_az w = true ->
  match post with c :: _ => is_word c | [] => false end = false ->
  (skip <= List.length pre)%nat ->
  forallb is_az (firstn skip pre) = true ->
  match last (List.map Some pre) before with Some c => is_word c | None => false end = false ->
  In w (findall_tokens_from before skip (pre ++ w ++ post)).
Proof.
  induction pre as [|c pre IH]; intros before skip Ne F P Ls Fs B.
  - simpl in Ls. replace skip with O by lia. cbn [List.map last] in B.
    pose proof (token_at_whole_word before post Ne F B P) as T.
    destruct w as [|x w]; [contradiction|].
    change ([] ++ (x :: w) ++ post) with (x :: w ++ post) in *.
    change ((x :: w) ++ post) with (x :: w ++ post) in T.
    cbn [findall_tokens_from]. rewrite T. left. reflexivity.
  - change ((c :: pre) ++ w ++ post) with (c :: pre ++ w ++ post).
    cbn [List.map] in B. rewrite last_cons_default in B.
    destruct skip as [|k]; cbn [findall_tokens_from].
    + destruct (token_at before (c :: pre ++ w ++ post)) as [tok|] eqn:T.
      * right. unfold token_at in T.
        destruct (span is_az (c :: pre ++ w ++ post)) as [run rest] eqn:Es.
        assert (Tok : tok = run /\ run <> []).
        { destruct run as [|r run]; [discriminate|].
          destruct (_ && _); [|discriminate]. injection T as <-. split; [reflexivity|discriminate]. }
        destruct Tok as [-> Nr].
        assert (Lc : is_az (last (c :: pre) 0) = false).
        { apply not_word_not_az.
          assert (Q : forall (l : list N) (d : N) (b : option N), l <> [] ->
                        last (List.map Some l) b = Some (last l d)).
          { induction l as [|y l IHl]; intros d b Nl; [contradiction|].
            destruct l as [|z l]; [reflexivity|].
            change (last (List.map Some (y :: z :: l)) b)
              with (last (List.map Some (z :: l)) b).
            change (last (y :: z :: l) d) with (last (z :: l) d).
            apply IHl. discriminate. }
          destruct pre as [|y pre].
          - cbn [List.map last] in B. exact B.
          - rewrite (Q (y :: pre) 0 (Some c)) in B by discriminate.
            change (last (c :: y :: pre) 0) with (last (y :: pre) 0). exact B. }
        change (c :: pre ++ w ++ post) with ((c :: pre) ++ w ++ post) in Es.
        destruct (@span_inside is_az (c :: pre) (w ++ post) run rest Es ltac:(discriminate) Lc)
          as [Len Fn].
        destruct (@span_spec _ _ _ _ Es) as [Fr _].
        destruct run as [|r run]; [contradiction|].
        cbn [List.length firstn] in Fn, Len. injection Fn as _ Fn.
        cbn [forallb] in Fr. apply andb_true_iff in Fr as [_ Fr].
        apply IH; try assumption.
        -- cbn [List.length Nat.pred]. simpl in Len. lia.
        -- cbn [List.length Nat.pred]. rewrite Fn. exact Fr.
      * apply IH; try assumption; try reflexivity. lia.
    + apply IH; try assumption.
      * simpl in Ls. lia.
      * cbn [firstn forallb] in Fs. apply andb_true_iff in Fs as [_ Fs]. exact Fs.
Qed.

(** X14.  A run of the letters a to z that stands as a whole word in a text,
    the character in front of it (if any) and the character behind it (if
    any) being no word character, is one of the tokens [findall] returns for
    the text. *)
Theorem whole_word_is_token (pre w post : str) :
  w <> [] ->
  forallb is_az w = true ->
  match last (List.map Some pre) None with Some c => is_word c | None => false end = false ->
  match post with c :: _ => is_word c | [] => false end = false ->
  In w (findall_tokens (pre ++ w ++ post)).
Proof.
  intros Ne F B P. unfold findall_tokens.
  apply findall_tokens_reach; try assumption; [lia | reflexivity].
Qed.

(** X15.  No keyword is lost but by the limit of 10: a token of the lowered
    input that is no stop word and is longer than 3 characters is among the
    extracted keywords, unless 10 keywords were extracted before it came. *)
Theorem extract_keywords_complete (s w : str) :
  In w (findall_tokens (lower s)) ->
  mem w stop_words = false ->
  (3 < List.length w)%nat ->
  In w (_extract_keywords s) \/ List.length (_extract_keywords s) = 10%nat.
Proof.
  intros I St Ln. unfold _extract_keywords.
  set (kept := filter _ (findall_tokens (lower s))).
  assert (K : In w (fromkeys kept)).
  { apply fromkeys_In. unfold kept. apply filter_In. split; [exact I|].
    rewrite St. apply Nat.ltb_lt in Ln. rewrite Ln. reflexivity. }
  destruct (Nat.le_gt_cases (List.length (fromkeys kept)) 10) as [Le|Gt].
  - left. rewrite firstn_all2 by exact Le. exact K.
  - right. apply firstn_length_le. lia.
Qed.

End Tokens.


(** *** The template library *)

Lemma replace_from_absent old new : forall s,
  is_in old s = false -> replace_from old new 0 s = s.
Proof.
  induction s as [|c s IH]; intros A; [reflexivity|].
  cbn [is_in] in A. apply orb_false_iff in A as [A1 A2].
  cbn [replace_from]. rewrite A1, (IH A2). reflexivity.
Qed.

Lemma replace_absent old new s : is_in old s = false -> replace old new s = s.
Proof.
  intros A. unfold replace. destruct old as [|c old]; [destruct s; discriminate|].
  apply replace_from_absent, A.
Qed.

Lemma fill_absent : forall (given : dict str str) (template : str),
  (forall item, In item given -> is_in (placeholder (fst item)) template = false) ->
  fill template given = template.
Proof.
  unfold fill. induction given as [|item given IH]; intros template A; [reflexivity|].
  cbn [fold_left]. rewrite replace_absent by (apply A; left; reflexivity).
  apply IH. intros i I. apply A. right. exact I.
Qed.

Lemma dict_get_Some_In {K V} `{PyEqOk K} (d : dict K V) k v :
  dict_get d k = Some v -> In (k, v) d.
Proof.
  induction d as [|[k' v'] d IH]; cbn [dict_get]; intros E; [discriminate|].
  destruct (py_eqb k k') eqn:Q.
  - apply py_eqb_eq in Q. subst k'. injection E as <-. left. reflexivity.
  - right. apply IH, E.
Qed.

Lemma filter_nonempty {A} (f : A -> bool) l :
  filter f l <> [] <-> exists x, In x l /\ f x = true.
Proof.
  split.
  - destruct (filter f l) as [|x r] eqn:E; [intros N; contradiction N; reflexivity|].
    intros _. exists x. apply filter_In. rewrite E. left. reflexivity.
  - intros [x I] E. apply filter_In in I. rewrite E in I. exact I.
Qed.

(** X16.  A value supplied for a variable whose placeholder does not occur in
    the template is ignored: when none of the supplied placeholders occurs,
    [fill_template] returns the text of the template as it stands. *)
Theorem fill_template_ignores_absent_variables
    (self : TemplateLibrary) (template_name : str) (T : PromptTemplate.t)
    (values : dict str str) :
  get_template self template_name = Some T ->
  (forall item, In item values ->
     is_in (placeholder (fst item)) (PromptTemplate.template T) = false) ->
  fill_template self template_name values = Return (PromptTemplate.template T).
Proof.
  intros G A. unfold fill_template. rewrite G. rewrite (fill_absent _ _ A). reflexivity.
Qed.

(** X17.  Every template of the catalog goes with example values that fill it:
    its declared variables are the keys of its example values, in the same
    order; the placeholder of each declared variable occurs in its text; and
    [fill_template] with the example values returns a text without any brace,
    the same text as replacing all placeholders at once. *)
Theorem catalog_examples_fill (template_name : str) (T : PromptTemplate.t) :
  get_template template_library template_name = Some T ->
  PromptTemplate.variables T = keys (PromptTemplate.example_values T) /\
  (forall var, In var (PromptTemplate.variables T) ->
     is_in (placeholder var) (PromptTemplate.template T) = true) /\
  exists text,
    fill_template template_library template_name (PromptTemplate.example_values T) = Return text /\
    brace_free text = true /\
    text = fill_simultaneous (PromptTemplate.template T) (PromptTemplate.example_values T).
Proof.
  intros G. unfold fill_template. rewrite G.
  unfold get_template, template_library, templates, _load_templates in G.
  apply dict_get_Some_In in G. cbn [In] in G.
  repeat (destruct G as [G|G]; [injection G as <- <-|]); try contradiction;
    (split; [vm_compute; reflexivity|]);
    (split; [apply forallb_forall; vm_compute; reflexivity|]);
    eexists; (split; [reflexivity|]); split; vm_compute; reflexivity.
Qed.

(** X18.  In a library whose names are distinct, the templates
    [get_templates_by_category] returns for a category are the templates of
    that category which [get_template] finds under a listed name. *)
Theorem templates_by_category_listed
    (self : TemplateLibrary) (category : str) (T : PromptTemplate.t) :
  NoDup (list_templates self) ->
  (In T (get_templates_by_category self category) <->
   exists template_name,
     In template_name (list_templates self) /\
     get_template self template_name = Some T /\
     PromptTemplate.category T = category).
Proof.
  intros ND. unfold get_templates_by_category, get_template, list_templates, values in *.
  rewrite filter_In, in_map_iff. split.
  - intros [[[n T'] [E I]] C]. cbn [snd] in E. subst T'. exists n. split; [|split].
    + apply in_map_iff. exists (n, T). split; [reflexivity | exact I].
    + apply dict_get_In; assumption.
    + apply py_eqb_eq. exact C.
  - intros [n (_ & G & C)]. split.
    + exists (n, T). split; [reflexivity | apply dict_get_Some_In, G].
    + apply py_eqb_eq. exact C.
Qed.

(** X19.  Whatever order [get_categories] lists them in, it lists each
    category once, and a category is listed exactly when
    [get_templates_by_category] returns a template for it. *)
Theorem get_categories_exact (self : TemplateLibrary) (result : list str) :
  get_categories self result ->
  NoDup result /\
  forall category, In category result <-> get_templates_by_category self category <> [].
Proof.
  unfold get_categories. intros P. split.
  - apply (Permutation_NoDup (Permutation_sym P)). apply fromkeys_NoDup.
  - intros category.
    assert (Q : In category result <-> In category (category_set self)).
    { split; [apply Permutation_in, P | apply Permutation_in, Permutation_sym, P]. }
    rewrite Q. unfold category_set, get_templates_by_category.
    rewrite fromkeys_In, in_map_iff, filter_nonempty. split.
    + intros [T [E I]]. exists T. split; [exact I | apply py_eqb_eq, E].
    + intros [T [I E]]. exists T. split; [apply py_eqb_eq, E | exact I].
Qed.

(** *** The page *)

Lemma initialize_architect_sets st target_llm :
  (forall a llm, App.architect st = Some a -> App.current_llm st = Some llm ->
     a = create_architect llm) ->
  App.architect (App.initialize_architect st target_llm) = Some (create_architect target_llm) /\
  App.current_llm (App.initialize_architect st target_llm) = Some target_llm.
Proof.
  intros Inv. unfold App.initialize_architect.
  destruct (App.architect st) as [a|] eqn:A; [|split; reflexivity].
  destruct (App.current_llm st) as [llm|] eqn:C; [|split; reflexivity].
  destruct (py_eqb llm target_llm) eqn:Q; [|split; reflexivity].
  apply py_eqb_eq in Q. subst llm. cbn [negb orb]. rewrite A, C.
  rewrite (Inv a target_llm eq_refl eq_refl). split; reflexivity.
Qed.

Lemma reruns_keep targets : forall st,
  (forall a llm, App.architect st = Some a -> App.current_llm st = Some llm ->
     a = create_architect llm) ->
  forall a llm, App.architect (App.reruns st targets) = Some a ->
                App.current_llm (App.reruns st targets) = Some llm ->
                a = create_architect llm.
Proof.
  unfold App.reruns. induction targets as [|t targets IH]; intros st Inv; [exact Inv|].
  cbn [fold_left]. apply IH. intros a llm A C.
  destruct (initialize_architect_sets st t Inv) as [A' C'].
  rewrite A' in A. rewrite C' in C. congruence.
Qed.

(** X20.  The architect the page works with is never stale: after any number
    of reruns of a new session, the session holds the architect
    [create_architect] makes for the target selected last, and a further rerun
    with the same target leaves the session as it is. *)
Theorem session_architect_follows_target (targets : list str) (target_llm : str) :
  let st := App.reruns App.new_session (targets ++ [target_llm]) in
  App.architect st = Some (create_architect target_llm) /\
  App.current_llm st = Some target_llm /\
  App.initialize_architect st target_llm = st.
Proof.
  intros st.
  assert (E : st = App.initialize_architect (App.reruns App.new_session targets) target_llm).
  { unfold st, App.reruns. rewrite fold_left_app. reflexivity. }
  assert (Inv : forall a llm,
            App.architect (App.reruns App.new_session targets) = Some a ->
            App.current_llm (App.reruns App.new_session targets) = Some llm ->
            a = create_architect llm).
  { apply reruns_keep. intros a llm A. discriminate A. }
  destruct (initialize_architect_sets _ target_llm Inv) as [A C].
  rewrite <- E in A, C. split; [exact A | split; [exact C|]].
  unfold App.initialize_architect. rewrite A, C.
  replace (py_eqb target_llm target_llm) with true
    by (symmetry; apply py_eqb_eq; reflexivity).
  reflexivity.
Qed.

Lemma numbered_lines_join l : forall start,
  l <> [] -> numbered_lines start l = join nl (numbered_items start l) ++ nl.
Proof.
  induction l as [|x l IH]; intros start Ne; [contradiction|].
  destruct l as [|y l].
  - cbn [numbered_lines numbered_items join]. rewrite app_nil_r, <- !app_assoc. reflexivity.
  - change (numbered_lines start (x :: y :: l))
      with (str_of_nat start ++ py ". " ++ x ++ nl ++ numbered_lines (S start) (y :: l)).
    rewrite (IH (S start)) by discriminate.
    change (numbered_items start (x :: y :: l))
      with ((str_of_nat start ++ py ". " ++ x) :: numbered_items (S start) (y :: l)).
    change (numbered_items (S start) (y :: l))
      with ((str_of_nat (S start) ++ py ". " ++ y) :: numbered_items (S (S start)) l).
    cbn [join]. rewrite <- !app_assoc. reflexivity.
Qed.

Lemma bulleted_lines_join l :
  l <> [] -> bulleted_lines l = bullets_copy_text l ++ nl.
Proof.
  unfold bulleted_lines, bullets_copy_text.
  induction l as [|x l IH]; intros Ne; [contradiction|].
  destruct l as [|y l].
  - cbn [flat_map List.map join]. rewrite app_nil_r, <- !app_assoc. reflexivity.
  - change (flat_map (fun x => py "- " ++ x ++ nl) (x :: y :: l))
      with ((py "- " ++ x ++ nl) ++ flat_map (fun x => py "- " ++ x ++ nl) (y :: l)).
    rewrite IH by discriminate.
    cbn [List.map join]. rewrite <- !app_assoc. reflexivity.
Qed.

Section Page.
Context {U : Unicode}.

(** X21.  The full prompt is laid out from the components the page shows and
    exports: under its header each of the instructions, constraints and
    quality criteria is the very text the page offers for copying (the items
    numbered from 1, or with a dash, joined by line breaks), the role
    definition and the raw input stand as they are, and the output format
    stands with its underscores replaced and in title case. *)
Theorem full_prompt_of_components (self : PromptArchitect) (s : str) :
  let result := transform self s in
  StructuredPrompt.context result = s /\
  StructuredPrompt.full_prompt result =
  py "# Role Definition" ++ nl ++ StructuredPrompt.role_definition result ++ nl ++ nl ++
  py "# Context" ++ nl ++ StructuredPrompt.context result ++ nl ++ nl ++
  py "# Instructions" ++ nl ++
  instructions_copy_text (StructuredPrompt.instructions result) ++ nl ++ nl ++
  py "# Constraints" ++ nl ++
  bullets_copy_text (StructuredPrompt.constraints result) ++ nl ++ nl ++
  py "# Output Format" ++ nl ++
  title (replace (py "_") (py " ") (StructuredPrompt.output_format result)) ++ nl ++ nl ++
  py "# Quality Criteria" ++ nl ++
  bullets_copy_text (StructuredPrompt.quality_criteria result) ++ nl ++ nl ++
  py "# Target Audience" ++ nl ++
  title (replace (py "_") (py " ") (_detect_audience s)) ++ nl ++ nl ++
  py "# Tone" ++ nl ++ title (_detect_tone self s) ++ nl.
Proof.
  intros result. split; [reflexivity|].
  unfold result, transform. rewrite assemble_full_prompt.
  set (context := extract_context self s).
  change (StructuredPrompt.role_definition (assemble_prompt self context))
    with (generate_role_definition context).
  change (StructuredPrompt.context (assemble_prompt self context)) with (raw_input context).
  change (StructuredPrompt.instructions (assemble_prompt self context))
    with (generate_instructions context).
  change (StructuredPrompt.constraints (assemble_prompt self context))
    with (generate_constraints self context).
  change (StructuredPrompt.output_format (assemble_prompt self context))
    with (output_format context).
  change (StructuredPrompt.quality_criteria (assemble_prompt self context))
    with (generate_quality_criteria context).
  change (target_audience context) with (_detect_audience s).
  change (tone context) with (_detect_tone self s).
  assert (I : generate_instructions context <> []).
  { pose proof (generate_instructions_at_least context) as L.
    destruct (generate_instructions context); [simpl in L; lia | discriminate]. }
  assert (C : generate_constraints self context <> []).
  { pose proof (generate_constraints_length self context) as L.
    destruct (generate_constraints self context); [simpl in L; lia | discriminate]. }
  assert (Q : generate_quality_criteria context <> []).
  { pose proof (generate_quality_criteria_at_least context) as L.
    destruct (generate_quality_criteria context); [simpl in L; lia | discriminate]. }
  rewrite (numbered_lines_join 1 I), (bulleted_lines_join C), (bulleted_lines_join Q).
  unfold instructions_copy_text. rewrite <- !app_assoc. reflexivity.
Qed.

End Page.


(** *** The properties of the tokens and of the library at concrete inputs *)

Lemma NoDup_list_templates : NoDup (list_templates template_library).
Proof.
  vm_compute. repeat (constructor; [simpl; intuition discriminate|]). constructor.
Qed.

Lemma whole_word_is_token_witness :
  In (py "poems") (@findall_tokens ascii_only (py "write poems!")).
Proof.
  apply (@whole_word_is_token ascii_only (py "write ") (py "poems") (py "!"));
    [discriminate | reflexivity | reflexivity | reflexivity].
Defined.

Lemma extract_keywords_complete_witness :
  In (py "poems") (@_extract_keywords ascii_only (py "Write poems!")) \/
  List.length (@_extract_keywords ascii_only (py "Write poems!")) = 10%nat.
Proof.
  apply (@extract_keywords_complete ascii_only (py "Write poems!") (py "poems"));
    [right; left; reflexivity | reflexivity | repeat constructor].
Defined.

Lemma fill_template_ignores_absent_variables_witness :
  fill_template template_library (py "blog_post") [(py "author", py "Ada")] =
  Return (PromptTemplate.template template_blog_post).
Proof.
  apply (@fill_template_ignores_absent_variables template_library (py "blog_post")
           template_blog_post [(py "author", py "Ada")]);
    [reflexivity | intros item [<-|[]]; reflexivity].
Defined.

Lemma catalog_examples_fill_witness :
  get_template template_library (py "story_writer") = Some template_story_writer /\
  PromptTemplate.variables template_story_writer =
  keys (PromptTemplate.example_values template_story_writer).
Proof.
  assert (G : get_template template_library (py "story_writer") = Some template_story_writer)
    by reflexivity.
  split; [exact G|].
  exact (proj1 (@catalog_examples_fill (py "story_writer") template_story_writer G)).
Defined.

Lemma templates_by_category_listed_witness :
  In template_blog_post (get_templates_by_category template_library (py "Content Creation")).
Proof.
  apply (proj2 (@templates_by_category_listed template_library (py "Content Creation")
                  template_blog_post NoDup_list_templates)).
  exists (py "blog_post"). split; [left; reflexivity | split; reflexivity].
Defined.

Lemma get_categories_exact_witness :
  get_categories template_library (List.rev (category_set template_library)) /\
  NoDup (List.rev (category_set template_library)).
Proof.
  assert (G : get_categories template_library (List.rev (category_set template_library)))
    by (apply Permutation_sym, Permutation_rev).
  split; [exact G|].
  exact (proj1 (@get_categories_exact template_library _ G)).
Defined.
